(** * Wi-Fi provisioning manager: a shallow embedding of [WifiManager]

    The development follows [src/WifiManager.cpp] and [include/WifiManager.h].
    The C++ object and the part of the ESP-IDF SDK it drives (NVS flash,
    Wi-Fi driver, network interfaces, HTTP server, event group) are explicit
    state; every member function is a command over that state which either
    returns or halts the boot ([abort] through [ESP_ERROR_CHECK], or
    [esp_restart]).

    The SDK is not part of the repository.  Its calls are modelled by what
    they do to that state: NVS as namespaces of string entries with a commit,
    the driver and the network interfaces as flags and configurations, the
    HTTP server as a table of handlers, the event group as a bit vector, the
    form parser as the scan that [httpd_query_key_value] performs.  A call whose status the
    firmware inspects can also fail for reasons of the environment
    ([sdk_status]).  Time is left out: the 30 s wait ends when a flag is up
    or when the radio has no more events to deliver. *)

From Stdlib Require Import ZArith String Ascii List Bool Lia.
From stdpp Require Import base option gmap strings pretty.
Import ListNotations.

Open Scope string_scope.
Open Scope Z_scope.

(** ** Status codes *)

Inductive esp_err_t :=
  | ESP_OK
  | ESP_FAIL
  | ESP_ERR_NO_MEM
  | ESP_ERR_INVALID_ARG
  | ESP_ERR_INVALID_STATE
  | ESP_ERR_NOT_FOUND
  | ESP_ERR_NVS_NOT_FOUND
  | ESP_ERR_NVS_READ_ONLY
  | ESP_ERR_NVS_INVALID_LENGTH
  | ESP_ERR_HTTPD_HANDLERS_FULL
  | ESP_ERR_HTTPD_HANDLER_EXISTS
  | ESP_ERR_HTTPD_RESULT_TRUNC.

#[global] Instance esp_err_eq_dec : EqDecision esp_err_t.
Proof. solve_decision. Defined.

(** SDK entry points whose status the firmware inspects.  [sdk_status] of the
    environment gives, for each, the status the call reports for reasons
    outside the firmware (out of memory, flash failure, ...); [ESP_OK] means
    the call goes through as modelled. *)
Inductive sdk_fn :=
  | Fn_esp_netif_init
  | Fn_esp_event_loop_create_default
  | Fn_esp_event_handler_instance_register
  | Fn_esp_wifi_init
  | Fn_esp_wifi_set_mode
  | Fn_esp_wifi_set_config
  | Fn_esp_wifi_start
  | Fn_httpd_start
  | Fn_nvs_open
  | Fn_nvs_commit.

(** ** C strings *)

Module CStr.

Definition NUL : ascii := "000"%char.

(** [std::string::c_str()] read back as a C string, and the conversion of a
    [char] buffer to [std::string]: the bytes before the first NUL. *)
Fixpoint c_str (s : string) : string :=
  match s with
  | EmptyString => EmptyString
  | String c r => if Ascii.eqb c NUL then EmptyString else String c (c_str r)
  end.

(** No NUL byte inside: the strings a [char] buffer can hold. *)
Fixpoint nul_free (s : string) : bool :=
  match s with
  | EmptyString => true
  | String c r => negb (Ascii.eqb c NUL) && nul_free r
  end.

(** The first [n] bytes. *)
Fixpoint take (n : nat) (s : string) : string :=
  match n, s with
  | O, _ => EmptyString
  | _, EmptyString => EmptyString
  | S k, String c r => String c (take k r)
  end.

(** [strncpy(dst, src, n)] into a zeroed field of [n] bytes, read back as
    the field's content. *)
Definition strncpy (src : string) (n : nat) : string := take n (c_str src).

(** [strlcpy(dst, src, n)]: at most [n - 1] bytes and a terminator. *)
Definition strlcpy (src : string) (n : nat) : string := take (Nat.pred n) src.

(** [strchr(s, c)] as the text before the first [c] and the text after it. *)
Fixpoint strchr (c : ascii) (s : string) : option (string * string) :=
  match s with
  | EmptyString => None
  | String a r =>
      if Ascii.eqb a c then Some (EmptyString, r)
      else match strchr c r with
           | Some (pre, post) => Some (String a pre, post)
           | None => None
           end
  end.

Fixpoint has_char (c : ascii) (s : string) : bool :=
  match s with
  | EmptyString => false
  | String a r => Ascii.eqb a c || has_char c r
  end.

Definition tolower (c : ascii) : ascii :=
  let n := nat_of_ascii c in
  if (Nat.leb 65 n && Nat.leb n 90)%bool then ascii_of_nat (n + 32) else c.

(** [strncasecmp(a, b, n) == 0] for two texts of the same length [n]. *)
Fixpoint strcaseeq (a b : string) : bool :=
  match a, b with
  | EmptyString, EmptyString => true
  | String x a', String y b' => Ascii.eqb (tolower x) (tolower y) && strcaseeq a' b'
  | _, _ => false
  end.

End CStr.
Export CStr.

(** ** Configuration ([include/config.h]) *)

Definition PROV_AP_SSID : string := "ESP32-Provisioning".
Definition PROV_AP_PASS : string := "password123".
Definition PROV_AP_MAX_CONN : Z := 1.
Definition NVS_NAMESPACE : string := "storage".
Definition NVS_KEY_WIFI_SSID : string := "wifi_ssid".
Definition NVS_KEY_WIFI_PASS : string := "wifi_pass".

(** ** Event bits and the retry bound *)

Definition BIT0 : Z := 1.
Definition BIT1 : Z := 2.
Definition WIFI_CONNECTED_BIT : Z := BIT0.
Definition WIFI_FAIL_BIT : Z := BIT1.
Definition MAX_RETRY : Z := 5.

(** ** State *)

Inductive http_method := HTTP_GET | HTTP_POST.

Inductive handler_fn :=
  | provisioningGetHandler_fn
  | connectPostHandler_fn
  | resetGetHandler_fn
  | faviconGetHandler_fn.

(** [httpd_uri_t]; [user_ctx] is always [this]. *)
Record httpd_uri_t := {
  uri : string;
  method : http_method;
  handler : handler_fn
}.

#[global] Instance http_method_eq_dec : EqDecision http_method.
Proof. solve_decision. Defined.
#[global] Instance handler_fn_eq_dec : EqDecision handler_fn.
Proof. solve_decision. Defined.
#[global] Instance httpd_uri_eq_dec : EqDecision httpd_uri_t.
Proof. solve_decision. Defined.

(** [httpd_config_t], the fields the firmware sets or relies on. *)
Record httpd_config_t := {
  uri_match_wildcard : bool;       (* uri_match_fn = httpd_uri_match_wildcard *)
  lru_purge_enable : bool;
  max_uri_handlers : nat
}.

(** The server behind an [httpd_handle_t]. *)
Record httpd_server := {
  srv_config : httpd_config_t;
  srv_handlers : list httpd_uri_t
}.

(** The members of [class WifiManager]. *)
Record WifiManager := {
  m_wifi_event_group : Z;          (* the bits of the event group *)
  m_server : option httpd_server;  (* nullptr is None *)
  m_is_connected : bool;
  m_retry_num : Z;                 (* uint8_t *)
  m_current_ip : string
}.

Inductive wifi_mode_t := WIFI_MODE_NULL | WIFI_MODE_STA | WIFI_MODE_AP | WIFI_MODE_APSTA.

#[global] Instance wifi_mode_eq_dec : EqDecision wifi_mode_t.
Proof. solve_decision. Defined.

Inductive wifi_auth_mode_t := WIFI_AUTH_OPEN | WIFI_AUTH_WPA_WPA2_PSK.

Record wifi_sta_config_t := { sta_ssid : string; sta_password : string }.

Record wifi_ap_config_t := {
  ap_ssid : string;
  ap_password : string;
  ap_ssid_len : nat;
  ap_authmode : wifi_auth_mode_t;
  ap_max_connection : Z
}.

(** The Wi-Fi driver and the two default network interfaces. *)
Record radio := {
  wifi_inited : bool;
  wifi_started : bool;
  wifi_mode : wifi_mode_t;
  sta_config : option wifi_sta_config_t;
  ap_config : option wifi_ap_config_t;
  netif_sta : bool;                (* "WIFI_STA_DEF" exists *)
  netif_ap : bool                  (* "WIFI_AP_DEF" exists *)
}.

Inductive wifi_event_t :=
  | WIFI_EVENT_STA_START
  | WIFI_EVENT_STA_STOP
  | WIFI_EVENT_STA_CONNECTED
  | WIFI_EVENT_STA_DISCONNECTED
  | WIFI_EVENT_AP_START
  | WIFI_EVENT_AP_STOP
  | WIFI_EVENT_AP_STACONNECTED
  | WIFI_EVENT_AP_STADISCONNECTED.

(** What reaches [eventHandler]: any [WIFI_EVENT], and of [IP_EVENT] only
    [IP_EVENT_STA_GOT_IP] with the address ([esp_ip4_addr_t.addr], a
    32-bit word whose lowest byte is the first octet). *)
Inductive event :=
  | WIFI_EVENT (id : wifi_event_t)
  | IP_EVENT_STA_GOT_IP (addr : Z).

(** What the firmware sends out. *)
Inductive effect :=
  | Eff_esp_wifi_connect
  | Eff_xEventGroupSetBits (bits : Z)
  | Eff_httpd_resp (status : nat) (body : string)
  | Eff_esp_restart.

#[global] Instance effect_eq_dec : EqDecision effect.
Proof. solve_decision. Defined.

(** The SDK side: NVS flash as namespaces of string entries, the radio, the
    events the radio will deliver while the supervisor waits, and the log of
    effects. *)
Record Sdk := {
  sdk_status : sdk_fn -> esp_err_t;
  nvs_flash : gmap string (gmap string string);
  wifi : radio;
  radio_script : list event;
  sdk_log : list effect
}.

Record world := { self : WifiManager; sdk : Sdk }.

Definition upd_self (f : WifiManager -> WifiManager) (w : world) : world :=
  {| self := f (self w); sdk := sdk w |}.
Definition upd_sdk (f : Sdk -> Sdk) (w : world) : world :=
  {| self := self w; sdk := f (sdk w) |}.

Definition set_event_group (v : Z) (m : WifiManager) : WifiManager :=
  {| m_wifi_event_group := v; m_server := m_server m;
     m_is_connected := m_is_connected m; m_retry_num := m_retry_num m;
     m_current_ip := m_current_ip m |}.
Definition set_server (v : option httpd_server) (m : WifiManager) : WifiManager :=
  {| m_wifi_event_group := m_wifi_event_group m; m_server := v;
     m_is_connected := m_is_connected m; m_retry_num := m_retry_num m;
     m_current_ip := m_current_ip m |}.
Definition set_is_connected (v : bool) (m : WifiManager) : WifiManager :=
  {| m_wifi_event_group := m_wifi_event_group m; m_server := m_server m;
     m_is_connected := v; m_retry_num := m_retry_num m;
     m_current_ip := m_current_ip m |}.
Definition set_retry_num (v : Z) (m : WifiManager) : WifiManager :=
  {| m_wifi_event_group := m_wifi_event_group m; m_server := m_server m;
     m_is_connected := m_is_connected m; m_retry_num := v;
     m_current_ip := m_current_ip m |}.
Definition set_current_ip (v : string) (m : WifiManager) : WifiManager :=
  {| m_wifi_event_group := m_wifi_event_group m; m_server := m_server m;
     m_is_connected := m_is_connected m; m_retry_num := m_retry_num m;
     m_current_ip := v |}.

Definition set_nvs_flash (v : gmap string (gmap string string)) (s : Sdk) : Sdk :=
  {| sdk_status := sdk_status s; nvs_flash := v; wifi := wifi s;
     radio_script := radio_script s; sdk_log := sdk_log s |}.
Definition set_wifi (v : radio) (s : Sdk) : Sdk :=
  {| sdk_status := sdk_status s; nvs_flash := nvs_flash s; wifi := v;
     radio_script := radio_script s; sdk_log := sdk_log s |}.
Definition set_radio_script (v : list event) (s : Sdk) : Sdk :=
  {| sdk_status := sdk_status s; nvs_flash := nvs_flash s; wifi := wifi s;
     radio_script := v; sdk_log := sdk_log s |}.
Definition set_sdk_log (v : list effect) (s : Sdk) : Sdk :=
  {| sdk_status := sdk_status s; nvs_flash := nvs_flash s; wifi := wifi s;
     radio_script := radio_script s; sdk_log := v |}.

(** ** Commands *)

Inductive halt :=
  | Aborted (e : esp_err_t)        (* ESP_ERROR_CHECK failed *)
  | Restarted.                     (* esp_restart() *)

Inductive outcome (A : Type) :=
  | Returned (a : A) (w : world)
  | Halted (h : halt) (w : world).
Arguments Returned {A} a w.
Arguments Halted {A} h w.

Definition cmd (A : Type) : Type := world -> outcome A.

#[global] Instance cmd_ret : MRet cmd := fun A a w => Returned a w.
#[global] Instance cmd_bind : MBind cmd := fun A B f m w =>
  match m w with
  | Returned a w' => f a w'
  | Halted h w' => Halted h w'
  end.

Definition get {A} (f : world -> A) : cmd A := fun w => Returned (f w) w.
Definition modify (f : world -> world) : cmd unit := fun w => Returned tt (f w).
Definition halt_with {A} (h : halt) : cmd A := fun w => Halted h w.
Definition emit (e : effect) : cmd unit :=
  modify (upd_sdk (fun s => set_sdk_log (sdk_log s ++ [e]) s)).

(** The state a command leaves behind, however it ends. *)
Definition final {A} (o : outcome A) : world :=
  match o with Returned _ w => w | Halted _ w => w end.

(** The status an SDK call reports on environmental grounds. *)
Definition status_of (fn : sdk_fn) : cmd esp_err_t := get (fun w => sdk_status (sdk w) fn).

(** [ESP_ERROR_CHECK(x)]: abort unless [x] is [ESP_OK]. *)
Definition ESP_ERROR_CHECK (c : cmd esp_err_t) : cmd unit :=
  e ← c; if decide (e = ESP_OK) then mret tt else halt_with (Aborted e).

Definition healthy (w : world) : Prop := forall fn, sdk_status (sdk w) fn = ESP_OK.

(** ** NVS: the durable key-value store

    A handle carries the namespace, the open mode and its view of the
    entries; [nvs_commit] publishes the view to flash. *)

Inductive nvs_open_mode_t := NVS_READONLY | NVS_READWRITE.

Record nvs_handle_t := {
  h_namespace : string;
  h_mode : nvs_open_mode_t;
  h_entries : gmap string string
}.

Definition null_handle : nvs_handle_t :=
  {| h_namespace := ""; h_mode := NVS_READONLY; h_entries := ∅ |}.

(** [nvs_open]: a namespace that was never written does not exist; opening
    it read-only reports [ESP_ERR_NVS_NOT_FOUND], opening it read-write
    starts it empty. *)
Definition nvs_open (ns : string) (mode : nvs_open_mode_t) : cmd (esp_err_t * nvs_handle_t) :=
  st ← status_of Fn_nvs_open;
  if decide (st = ESP_OK) then
    flash ← get (fun w => nvs_flash (sdk w));
    match flash !! ns, mode with
    | Some es, _ =>
        mret (ESP_OK, {| h_namespace := ns; h_mode := mode; h_entries := es |})
    | None, NVS_READWRITE =>
        mret (ESP_OK, {| h_namespace := ns; h_mode := mode; h_entries := ∅ |})
    | None, NVS_READONLY => mret (ESP_ERR_NVS_NOT_FOUND, null_handle)
    end
  else mret (st, null_handle).

(** [nvs_set_str(handle, key, value)]; [value] is a C string. *)
Definition nvs_set_str (h : nvs_handle_t) (key value : string) : esp_err_t * nvs_handle_t :=
  match h_mode h with
  | NVS_READONLY => (ESP_ERR_NVS_READ_ONLY, h)
  | NVS_READWRITE =>
      (ESP_OK, {| h_namespace := h_namespace h; h_mode := h_mode h;
                  h_entries := <[key := c_str value]> (h_entries h) |})
  end.

(** [nvs_get_str(handle, key, NULL, &required_size)]: the size with the
    terminator. *)
Definition nvs_get_str_size (h : nvs_handle_t) (key : string) : esp_err_t * nat :=
  match h_entries h !! key with
  | Some v => (ESP_OK, S (String.length v))
  | None => (ESP_ERR_NVS_NOT_FOUND, O)
  end.

(** [nvs_get_str(handle, key, buf, &size)] into a buffer of [size] bytes. *)
Definition nvs_get_str (h : nvs_handle_t) (key : string) (size : nat) : esp_err_t * string :=
  match h_entries h !! key with
  | Some v =>
      if (S (String.length v) <=? size)%nat then (ESP_OK, v)
      else (ESP_ERR_NVS_INVALID_LENGTH, "")
  | None => (ESP_ERR_NVS_NOT_FOUND, "")
  end.

(** [nvs_erase_key(handle, key)] *)
Definition nvs_erase_key (h : nvs_handle_t) (key : string) : esp_err_t * nvs_handle_t :=
  match h_mode h with
  | NVS_READONLY => (ESP_ERR_NVS_READ_ONLY, h)
  | NVS_READWRITE =>
      match h_entries h !! key with
      | Some _ =>
          (ESP_OK, {| h_namespace := h_namespace h; h_mode := h_mode h;
                      h_entries := delete key (h_entries h) |})
      | None => (ESP_ERR_NVS_NOT_FOUND, h)
      end
  end.

Definition nvs_commit (h : nvs_handle_t) : cmd esp_err_t :=
  st ← status_of Fn_nvs_commit;
  if decide (st = ESP_OK) then
    modify (upd_sdk (fun s =>
      set_nvs_flash (<[h_namespace h := h_entries h]> (nvs_flash s)) s));;
    mret ESP_OK
  else mret st.

Definition nvs_close (h : nvs_handle_t) : cmd unit := mret tt.

(** ** Credential store *)

(** [WifiManager::saveCredentials] *)
Definition saveCredentials (ssid password : string) : cmd esp_err_t :=
  '(err, nvs_handle) ← nvs_open NVS_NAMESPACE NVS_READWRITE;
  if decide (err ≠ ESP_OK) then mret err else
  let '(_, nvs_handle) := nvs_set_str nvs_handle NVS_KEY_WIFI_SSID (c_str ssid) in
  let '(_, nvs_handle) := nvs_set_str nvs_handle NVS_KEY_WIFI_PASS (c_str password) in
  err ← nvs_commit nvs_handle;
  nvs_close nvs_handle;;
  mret err.

(** [WifiManager::loadCredentials]; the result carries the two output
    parameters, which start as [ssid0] and [password0]. *)
Definition loadCredentials (ssid0 password0 : string) : cmd (esp_err_t * string * string) :=
  '(err, nvs_handle) ← nvs_open NVS_NAMESPACE NVS_READONLY;
  if decide (err ≠ ESP_OK) then mret (err, ssid0, password0) else
  let '(err, required_size) := nvs_get_str_size nvs_handle NVS_KEY_WIFI_SSID in
  if decide (err ≠ ESP_OK) then nvs_close nvs_handle;; mret (err, ssid0, password0) else
  let '(err, ssid_buf) := nvs_get_str nvs_handle NVS_KEY_WIFI_SSID required_size in
  if decide (err ≠ ESP_OK) then nvs_close nvs_handle;; mret (err, ssid0, password0) else
  let ssid := c_str ssid_buf in
  let '(err, required_size) := nvs_get_str_size nvs_handle NVS_KEY_WIFI_PASS in
  if decide (err = ESP_ERR_NVS_NOT_FOUND) then
    nvs_close nvs_handle;; mret (ESP_OK, ssid, "")
  else if decide (err = ESP_OK) then
    let '(err, pass_buf) := nvs_get_str nvs_handle NVS_KEY_WIFI_PASS required_size in
    if decide (err ≠ ESP_OK) then nvs_close nvs_handle;; mret (err, ssid, password0) else
    nvs_close nvs_handle;; mret (ESP_OK, ssid, c_str pass_buf)
  else
    nvs_close nvs_handle;; mret (err, ssid, password0).

(** The entries of the credential namespace as flash holds them. *)
Definition stored (w : world) : gmap string string :=
  default ∅ (nvs_flash (sdk w) !! NVS_NAMESPACE).

Definition stored_key (w : world) (key : string) : option string :=
  nvs_flash (sdk w) !! NVS_NAMESPACE ≫= fun es => es !! key.

(** ** Construction and power-on *)

(** [WifiManager::WifiManager]; [xEventGroupCreate] gives a group with no
    bit set. *)
Definition WifiManager_new : WifiManager :=
  {| m_wifi_event_group := 0; m_server := None; m_is_connected := false;
     m_retry_num := 0; m_current_ip := "" |}.

Definition radio_off : radio :=
  {| wifi_inited := false; wifi_started := false; wifi_mode := WIFI_MODE_NULL;
     sta_config := None; ap_config := None; netif_sta := false; netif_ap := false |}.

(** The device right after reset, with the manager constructed: [status] is
    the health of the SDK, [flash] the content of NVS, [script] the events
    the radio will deliver. *)
Definition power_on (status : sdk_fn -> esp_err_t)
    (flash : gmap string (gmap string string)) (script : list event) : world :=
  {| self := WifiManager_new;
     sdk := {| sdk_status := status; nvs_flash := flash; wifi := radio_off;
               radio_script := script; sdk_log := [] |} |}.

Definition all_ok : sdk_fn -> esp_err_t := fun _ => ESP_OK.

(** A healthy device with blank flash and a silent radio. *)
Definition blank : world := power_on all_ok ∅ [].

(** The address 192.168.1.42 as [esp_ip4_addr_t.addr]. *)
Definition HOME_ADDR : Z := 704751808.

(** A healthy device whose flash holds the credentials [(ssid, password)]. *)
Definition provisioned (ssid password : string) (script : list event) : world :=
  power_on all_ok
    {[ NVS_NAMESPACE := {[ NVS_KEY_WIFI_SSID := ssid; NVS_KEY_WIFI_PASS := password ]} ]}
    script.

(** ** Observers *)

(** [WifiManager::isConnected] *)
Definition isConnected (w : world) : bool := m_is_connected (self w).

(** [WifiManager::getIpAddress] *)
Definition getIpAddress (w : world) : string := m_current_ip (self w).

Definition event_bits (w : world) : Z := m_wifi_event_group (self w).

Definition bit_set (bit : Z) (w : world) : bool := negb (Z.land (event_bits w) bit =? 0).

(** How often an effect was sent. *)
Definition count_in (e : effect) (log : list effect) : nat :=
  List.length (List.filter (fun x => bool_decide (x = e)) log).

Definition count_effect (e : effect) (w : world) : nat := count_in e (sdk_log (sdk w)).

Definition fail_signals : world -> nat := count_effect (Eff_xEventGroupSetBits WIFI_FAIL_BIT).
Definition connect_requests : world -> nat := count_effect Eff_esp_wifi_connect.

(** The manager and the log as far as the retry policy shows in them. *)
Record view := {
  v_bits : Z;
  v_retry : Z;
  v_connected : bool;
  v_ip : string;
  v_fail_signals : nat;
  v_connect_requests : nat
}.

Definition view_of (w : world) : view :=
  {| v_bits := event_bits w; v_retry := m_retry_num (self w);
     v_connected := isConnected w; v_ip := getIpAddress w;
     v_fail_signals := fail_signals w; v_connect_requests := connect_requests w |}.

(** ** Radio driver and network interfaces *)

Definition set_wifi_inited (v : bool) (r : radio) : radio :=
  {| wifi_inited := v; wifi_started := wifi_started r; wifi_mode := wifi_mode r;
     sta_config := sta_config r; ap_config := ap_config r;
     netif_sta := netif_sta r; netif_ap := netif_ap r |}.
Definition set_wifi_started (v : bool) (r : radio) : radio :=
  {| wifi_inited := wifi_inited r; wifi_started := v; wifi_mode := wifi_mode r;
     sta_config := sta_config r; ap_config := ap_config r;
     netif_sta := netif_sta r; netif_ap := netif_ap r |}.
Definition set_wifi_mode (v : wifi_mode_t) (r : radio) : radio :=
  {| wifi_inited := wifi_inited r; wifi_started := wifi_started r; wifi_mode := v;
     sta_config := sta_config r; ap_config := ap_config r;
     netif_sta := netif_sta r; netif_ap := netif_ap r |}.
Definition set_sta_config (v : option wifi_sta_config_t) (r : radio) : radio :=
  {| wifi_inited := wifi_inited r; wifi_started := wifi_started r; wifi_mode := wifi_mode r;
     sta_config := v; ap_config := ap_config r;
     netif_sta := netif_sta r; netif_ap := netif_ap r |}.
Definition set_ap_config (v : option wifi_ap_config_t) (r : radio) : radio :=
  {| wifi_inited := wifi_inited r; wifi_started := wifi_started r; wifi_mode := wifi_mode r;
     sta_config := sta_config r; ap_config := v;
     netif_sta := netif_sta r; netif_ap := netif_ap r |}.
Definition set_netif_sta (v : bool) (r : radio) : radio :=
  {| wifi_inited := wifi_inited r; wifi_started := wifi_started r; wifi_mode := wifi_mode r;
     sta_config := sta_config r; ap_config := ap_config r;
     netif_sta := v; netif_ap := netif_ap r |}.
Definition set_netif_ap (v : bool) (r : radio) : radio :=
  {| wifi_inited := wifi_inited r; wifi_started := wifi_started r; wifi_mode := wifi_mode r;
     sta_config := sta_config r; ap_config := ap_config r;
     netif_sta := netif_sta r; netif_ap := v |}.

Definition upd_wifi (f : radio -> radio) : cmd unit :=
  modify (upd_sdk (fun s => set_wifi (f (wifi s)) s)).

(** An SDK call that does [act] when the environment lets it through. *)
Definition sdk_call (fn : sdk_fn) (act : cmd unit) : cmd esp_err_t :=
  st ← status_of fn;
  if decide (st = ESP_OK) then act;; mret ESP_OK else mret st.

Definition esp_netif_init : cmd esp_err_t := sdk_call Fn_esp_netif_init (mret tt).
Definition esp_event_loop_create_default : cmd esp_err_t :=
  sdk_call Fn_esp_event_loop_create_default (mret tt).
Definition esp_event_handler_instance_register : cmd esp_err_t :=
  sdk_call Fn_esp_event_handler_instance_register (mret tt).

Definition esp_wifi_init : cmd esp_err_t :=
  sdk_call Fn_esp_wifi_init (upd_wifi (set_wifi_inited true)).
Definition esp_wifi_set_mode (m : wifi_mode_t) : cmd esp_err_t :=
  sdk_call Fn_esp_wifi_set_mode (upd_wifi (set_wifi_mode m)).
Definition esp_wifi_set_config_sta (c : wifi_sta_config_t) : cmd esp_err_t :=
  sdk_call Fn_esp_wifi_set_config (upd_wifi (set_sta_config (Some c))).
Definition esp_wifi_set_config_ap (c : wifi_ap_config_t) : cmd esp_err_t :=
  sdk_call Fn_esp_wifi_set_config (upd_wifi (set_ap_config (Some c))).
Definition esp_wifi_start : cmd esp_err_t :=
  sdk_call Fn_esp_wifi_start (upd_wifi (set_wifi_started true)).

(** The teardown calls; the firmware ignores their status. *)
Definition esp_wifi_stop : cmd unit := upd_wifi (set_wifi_started false).
Definition esp_wifi_deinit : cmd unit :=
  upd_wifi (fun r => set_ap_config None (set_sta_config None
    (set_wifi_mode WIFI_MODE_NULL (set_wifi_inited false r)))).

Definition esp_netif_create_default_wifi_sta : cmd unit := upd_wifi (set_netif_sta true).
Definition esp_netif_create_default_wifi_ap : cmd unit := upd_wifi (set_netif_ap true).

(** [esp_wifi_connect()]: a connection attempt is requested. *)
Definition esp_wifi_connect : cmd unit := emit Eff_esp_wifi_connect.

(** [xEventGroupSetBits(m_wifi_event_group, bits)] *)
Definition xEventGroupSetBits (bits : Z) : cmd unit :=
  modify (upd_self (fun m => set_event_group (Z.lor (m_wifi_event_group m) bits) m));;
  emit (Eff_xEventGroupSetBits bits).

(** ** HTTP server *)

Definition HTTPD_DEFAULT_CONFIG : httpd_config_t :=
  {| uri_match_wildcard := false; lru_purge_enable := false; max_uri_handlers := 8 |}.

(** [httpd_start(&m_server, &config)] *)
Definition httpd_start (config : httpd_config_t) : cmd esp_err_t :=
  sdk_call Fn_httpd_start
    (modify (upd_self (set_server (Some {| srv_config := config; srv_handlers := [] |})))).

Definition same_route (a b : httpd_uri_t) : bool :=
  bool_decide (uri a = uri b) && bool_decide (method a = method b).

(** [httpd_register_uri_handler(m_server, &u)] *)
Definition httpd_register_uri_handler (u : httpd_uri_t) : cmd esp_err_t :=
  srv ← get (fun w => m_server (self w));
  match srv with
  | None => mret ESP_ERR_INVALID_ARG
  | Some s =>
      if existsb (same_route u) (srv_handlers s) then mret ESP_ERR_HTTPD_HANDLER_EXISTS
      else if (max_uri_handlers (srv_config s) <=? List.length (srv_handlers s))%nat
      then mret ESP_ERR_HTTPD_HANDLERS_FULL
      else
        modify (upd_self (set_server
          (Some {| srv_config := srv_config s; srv_handlers := srv_handlers s ++ [u] |})));;
        mret ESP_OK
  end.

(** [WifiManager::stopWebServer] *)
Definition stopWebServer : cmd unit :=
  srv ← get (fun w => m_server (self w));
  match srv with
  | Some _ => (* httpd_stop(m_server) *) modify (upd_self (set_server None))
  | None => mret tt
  end.

(** [WifiManager::startWebServer] *)
Definition startWebServer (is_provisioning_mode : bool) : cmd unit :=
  srv ← get (fun w => m_server (self w));
  match srv with
  | Some _ => mret tt
  | None =>
      let config :=
        {| uri_match_wildcard := true; lru_purge_enable := true;
           max_uri_handlers := max_uri_handlers HTTPD_DEFAULT_CONFIG |} in
      err ← httpd_start config;
      if decide (err = ESP_OK) then
        (if is_provisioning_mode then
           let root_uri := {| uri := "/"; method := HTTP_GET;
                              handler := provisioningGetHandler_fn |} in
           _ ← httpd_register_uri_handler root_uri;
           let connect_uri := {| uri := "/connect"; method := HTTP_POST;
                                 handler := connectPostHandler_fn |} in
           _ ← httpd_register_uri_handler connect_uri;
           mret tt
         else
           let reset_uri := {| uri := "/reset"; method := HTTP_GET;
                               handler := resetGetHandler_fn |} in
           _ ← httpd_register_uri_handler reset_uri;
           mret tt);;
        let favicon_uri := {| uri := "/favicon.ico"; method := HTTP_GET;
                              handler := faviconGetHandler_fn |} in
        _ ← httpd_register_uri_handler favicon_uri;
        mret tt
      else mret tt (* ESP_LOGE *)
  end.

(** The routes the surface serves: none without a server. *)
Definition endpoints (w : world) : list httpd_uri_t :=
  match m_server (self w) with
  | Some s => srv_handlers s
  | None => []
  end.

Definition provisioning_endpoints : list httpd_uri_t :=
  [ {| uri := "/"; method := HTTP_GET; handler := provisioningGetHandler_fn |};
    {| uri := "/connect"; method := HTTP_POST; handler := connectPostHandler_fn |};
    {| uri := "/favicon.ico"; method := HTTP_GET; handler := faviconGetHandler_fn |} ].

Definition operational_endpoints : list httpd_uri_t :=
  [ {| uri := "/reset"; method := HTTP_GET; handler := resetGetHandler_fn |};
    {| uri := "/favicon.ico"; method := HTTP_GET; handler := faviconGetHandler_fn |} ].

Definition serves (path : string) (m : http_method) (w : world) : bool :=
  existsb (fun u => bool_decide (uri u = path) && bool_decide (method u = m)) (endpoints w).

(** ** Event handler *)

(** [IPSTR] applied to [IP2STR(&ip)]: the four octets, lowest byte first. *)
Definition ip4_octet (addr : Z) (i : Z) : Z := Z.land (Z.shiftr addr (8 * i)) 255.

Definition ip4_to_string (addr : Z) : string :=
  pretty (ip4_octet addr 0) +:+ "." +:+ pretty (ip4_octet addr 1) +:+ "." +:+
  pretty (ip4_octet addr 2) +:+ "." +:+ pretty (ip4_octet addr 3).

(** [snprintf(buf, size, ...)]: at most [size - 1] bytes of the text. *)
Definition snprintf (size : nat) (text : string) : string := take (Nat.pred size) text.

(** [m_retry_num++] on a [uint8_t]. *)
Definition uint8_incr (n : Z) : Z := (n + 1) mod 256.

(** [WifiManager::eventHandler] *)
Definition eventHandler (ev : event) : cmd unit :=
  match ev with
  | WIFI_EVENT WIFI_EVENT_STA_START => esp_wifi_connect
  | WIFI_EVENT WIFI_EVENT_STA_DISCONNECTED =>
      retry ← get (fun w => m_retry_num (self w));
      if retry <? MAX_RETRY then
        esp_wifi_connect;;
        modify (upd_self (fun m => set_retry_num (uint8_incr (m_retry_num m)) m))
      else
        modify (upd_self (set_is_connected false));;
        xEventGroupSetBits WIFI_FAIL_BIT
  | IP_EVENT_STA_GOT_IP addr =>
      let ip_str := snprintf 16 (ip4_to_string addr) in
      modify (upd_self (set_current_ip ip_str));;
      modify (upd_self (set_retry_num 0));;
      modify (upd_self (set_is_connected true));;
      xEventGroupSetBits WIFI_CONNECTED_BIT
  | WIFI_EVENT _ => mret tt
  end.

(** The handler run over a sequence of events, one after the other. *)
Fixpoint dispatch (evs : list event) : cmd unit :=
  match evs with
  | [] => mret tt
  | ev :: rest => eventHandler ev;; dispatch rest
  end.

Definition STA_DISCONNECTED : event := WIFI_EVENT WIFI_EVENT_STA_DISCONNECTED.
Definition STA_START : event := WIFI_EVENT WIFI_EVENT_STA_START.

Definition disconnects (n : nat) : list event := repeat STA_DISCONNECTED n.

(** ** Radio commands *)

(** [WifiManager::stopWifi] *)
Definition stopWifi : cmd unit :=
  stopWebServer;;
  esp_wifi_stop;;
  esp_wifi_deinit;;
  sta_handle ← get (fun w => netif_sta (wifi (sdk w)));
  (if sta_handle : bool then upd_wifi (set_netif_sta false) else mret tt);;
  ap_handle ← get (fun w => netif_ap (wifi (sdk w)));
  (if ap_handle : bool then upd_wifi (set_netif_ap false) else mret tt).

(** [WifiManager::connectToWifi] *)
Definition connectToWifi (ssid password : string) : cmd esp_err_t :=
  if bool_decide (ssid = "") then mret ESP_ERR_INVALID_ARG else
  stopWifi;;
  esp_netif_create_default_wifi_sta;;
  ESP_ERROR_CHECK esp_wifi_init;;
  let wifi_config := {| sta_ssid := strncpy ssid 32; sta_password := strncpy password 64 |} in
  ESP_ERROR_CHECK (esp_wifi_set_mode WIFI_MODE_STA);;
  ESP_ERROR_CHECK (esp_wifi_set_config_sta wifi_config);;
  ESP_ERROR_CHECK esp_wifi_start;;
  mret ESP_OK.

(** [WifiManager::startProvisioning] *)
Definition startProvisioning : cmd unit :=
  stopWifi;;
  esp_netif_create_default_wifi_ap;;
  ESP_ERROR_CHECK esp_wifi_init;;
  let wifi_config :=
    {| ap_ssid := strncpy PROV_AP_SSID 32; ap_password := strncpy PROV_AP_PASS 64;
       ap_ssid_len := String.length PROV_AP_SSID;
       ap_authmode := WIFI_AUTH_WPA_WPA2_PSK;
       ap_max_connection := PROV_AP_MAX_CONN |} in
  ESP_ERROR_CHECK (esp_wifi_set_mode WIFI_MODE_AP);;
  ESP_ERROR_CHECK (esp_wifi_set_config_ap wifi_config);;
  ESP_ERROR_CHECK esp_wifi_start;;
  startWebServer true.

(** ** Supervisor *)

(** [WifiManager::initialize] *)
Definition initialize : cmd unit :=
  ESP_ERROR_CHECK esp_netif_init;;
  ESP_ERROR_CHECK esp_event_loop_create_default;;
  ESP_ERROR_CHECK esp_event_handler_instance_register;;
  ESP_ERROR_CHECK esp_event_handler_instance_register.

(** The wait proper: events are handled in order while the awaited condition
    does not hold; an exhausted script is the timeout.  The result is what
    is left of the script. *)
Fixpoint await (mask : Z) (wait_for_all : bool) (script : list event) : cmd (list event) :=
  fun w =>
    let hit := Z.land (event_bits w) mask in
    if (if wait_for_all then hit =? mask else negb (hit =? 0)) then Returned script w
    else match script with
         | [] => Returned [] w
         | ev :: rest =>
             match eventHandler ev w with
             | Returned _ w' => await mask wait_for_all rest w'
             | Halted h w' => Halted h w'
             end
         end.

(** [xEventGroupWaitBits(m_wifi_event_group, mask, clear_on_exit,
    wait_for_all, ticks)].  A radio that is not started delivers nothing. *)
Definition xEventGroupWaitBits (mask : Z) (clear_on_exit wait_for_all : bool) : cmd Z :=
  started ← get (fun w => wifi_started (wifi (sdk w)));
  script ← get (fun w => radio_script (sdk w));
  rest ← (if started : bool then await mask wait_for_all script else mret script);
  modify (upd_sdk (set_radio_script rest));;
  bits ← get event_bits;
  (if clear_on_exit
   then modify (upd_self (set_event_group (Z.land bits (Z.lnot mask))))
   else mret tt);;
  mret bits.

(** [WifiManager::start] *)
Definition start : cmd unit :=
  initialize;;
  '(err, saved_ssid, saved_pass) ← loadCredentials "" "";
  if decide (err = ESP_OK) then
    _ ← connectToWifi saved_ssid saved_pass;
    bits ← xEventGroupWaitBits (Z.lor WIFI_CONNECTED_BIT WIFI_FAIL_BIT) false false;
    if negb (Z.land bits WIFI_CONNECTED_BIT =? 0) then startWebServer false
    else startProvisioning
  else startProvisioning.

(** ** Request handlers *)

(** A request as the handler sees it: the body still to be read, or the
    socket error the read runs into. *)
Record httpd_req_t := { req_content : string; req_sock_err : option Z }.

Definition HTTPD_SOCK_ERR_FAIL : Z := -1.
Definition HTTPD_SOCK_ERR_INVALID : Z := -2.
Definition HTTPD_SOCK_ERR_TIMEOUT : Z := -3.

(** [httpd_req_recv(req, buf, buf_len)]: the number of bytes read, with the
    bytes, or a negative socket error. *)
Definition httpd_req_recv (req : httpd_req_t) (buf_len : nat) : Z * string :=
  match req_sock_err req with
  | Some e => (e, "")
  | None =>
      let chunk := take buf_len (req_content req) in
      (Z.of_nat (String.length chunk), chunk)
  end.

(** The loop of [httpd_query_key_value(qry, key, val, val_size)]: find the
    next [=]; when the name before it is [key] (same length, letters compared
    without case) copy the text up to the next [&] into the buffer, else go
    on after the next [&].  Every round drops at least one byte of [qry], so
    [fuel] above its length is never used up. *)
Fixpoint query_loop (fuel : nat) (qry key : string) (buf_len : nat)
    : esp_err_t * option string :=
  match fuel with
  | O => (ESP_ERR_NOT_FOUND, None)
  | S fuel' =>
      if (String.length qry =? 0)%nat then (ESP_ERR_NOT_FOUND, None) else
      match strchr "=" qry with
      | None => (ESP_ERR_NOT_FOUND, None)
      | Some (name, val_ptr) =>
          if negb (String.length name =? String.length key)%nat || negb (strcaseeq name key)
          then
            match strchr "&" val_ptr with
            | None => (ESP_ERR_NOT_FOUND, None)
            | Some (_, next) => query_loop fuel' next key buf_len
            end
          else
            let value :=
              match strchr "&" val_ptr with
              | Some (v, _) => v
              | None => val_ptr
              end in
            let val_size := S (String.length value) in
            let copied := strlcpy value (Nat.min val_size buf_len) in
            if (buf_len <? val_size)%nat then (ESP_ERR_HTTPD_RESULT_TRUNC, Some copied)
            else (ESP_OK, Some copied)
      end
  end.

(** [httpd_query_key_value]: the status and, when a value was copied, the
    new content of the caller's buffer. *)
Definition httpd_query_key_value (qry key : string) (val_size : nat)
    : esp_err_t * option string :=
  query_loop (S (String.length qry)) qry key val_size.

Definition httpd_resp_send (body : string) : cmd unit := emit (Eff_httpd_resp 200 body).
Definition httpd_resp_send_err (status : nat) (msg : string) : cmd unit :=
  emit (Eff_httpd_resp status msg).
Definition httpd_resp_send_408 : cmd unit := emit (Eff_httpd_resp 408 "").

(** [esp_restart()] does not return. *)
Definition esp_restart : cmd unit := emit Eff_esp_restart;; halt_with Restarted.

(** [vTaskDelay]: time is not part of the state. *)
Definition vTaskDelay (ms : Z) : cmd unit := mret tt.

Definition connect_resp_str : string :=
  "<h1>Connecting...</h1><p>If successful, the device will connect to the network. If failed, it will remain in provisioning mode.</p>".

(** [WifiManager::connectPostHandler] *)
Definition connectPostHandler (req : httpd_req_t) : cmd esp_err_t :=
  let '(ret, buf) := httpd_req_recv req (128 - 1) in
  if ret <=? 0 then
    (if decide (ret = HTTPD_SOCK_ERR_TIMEOUT) then httpd_resp_send_408 else mret tt);;
    mret ESP_FAIL
  else
  let buf := c_str buf in
  let '(err, ssid_val) := httpd_query_key_value buf "ssid" 33 in
  if decide (err ≠ ESP_OK) then
    httpd_resp_send_err 400 "Missing 'ssid' parameter";;
    mret ESP_FAIL
  else
  let ssid := default "" ssid_val in
  let '(_, pass_val) := httpd_query_key_value buf "password" 65 in
  let pass := default "" pass_val in
  httpd_resp_send connect_resp_str;;
  _ ← saveCredentials ssid pass;
  vTaskDelay 1000;;
  esp_restart;;
  mret ESP_OK.

(** [WifiManager::clearCredentialsAndRestart] *)
Definition clearCredentialsAndRestart : cmd unit :=
  '(err, nvs_handle) ← nvs_open NVS_NAMESPACE NVS_READWRITE;
  (if decide (err ≠ ESP_OK) then esp_restart else mret tt);;
  let '(_, nvs_handle) := nvs_erase_key nvs_handle NVS_KEY_WIFI_SSID in
  let '(_, nvs_handle) := nvs_erase_key nvs_handle NVS_KEY_WIFI_PASS in
  _ ← nvs_commit nvs_handle;
  nvs_close nvs_handle;;
  esp_restart.

Definition reset_resp_str : string :=
  "<h1>Credentials Cleared</h1><p>The device will restart and enter provisioning mode.</p>".

(** [WifiManager::resetGetHandler] *)
Definition resetGetHandler : cmd esp_err_t :=
  httpd_resp_send reset_resp_str;;
  vTaskDelay 1000;;
  clearCredentialsAndRestart;;
  mret ESP_OK.

(** [WifiManager::faviconGetHandler] *)
Definition faviconGetHandler : cmd esp_err_t :=
  emit (Eff_httpd_resp 204 "");;
  mret ESP_OK.

(** ** The manager's operations as a transition system *)

Inductive op :=
  | OpStart
  | OpEvent (ev : event)
  | OpConnectToWifi (ssid password : string)
  | OpStartProvisioning
  | OpStopWifi
  | OpStartWebServer (is_provisioning_mode : bool)
  | OpStopWebServer
  | OpSaveCredentials (ssid password : string)
  | OpConnectPost (req : httpd_req_t)
  | OpResetGet
  | OpFaviconGet.

(** The state an operation leaves, whether it returns or halts. *)
Definition exec (o : op) (w : world) : world :=
  match o with
  | OpStart => final (start w)
  | OpEvent ev => final (eventHandler ev w)
  | OpConnectToWifi s p => final (connectToWifi s p w)
  | OpStartProvisioning => final (startProvisioning w)
  | OpStopWifi => final (stopWifi w)
  | OpStartWebServer b => final (startWebServer b w)
  | OpStopWebServer => final (stopWebServer w)
  | OpSaveCredentials s p => final (saveCredentials s p w)
  | OpConnectPost req => final (connectPostHandler req w)
  | OpResetGet => final (resetGetHandler w)
  | OpFaviconGet => final (faviconGetHandler w)
  end.

Definition exec_all (ops : list op) (w : world) : world := fold_left (fun w o => exec o w) ops w.

(** Reachable: from a freshly constructed manager, by any run of operations. *)
Definition reachable (w : world) : Prop :=
  exists status flash script ops, w = exec_all ops (power_on status flash script).

(** ** Predicates of the claims *)

(** The handler table is that of one configuration, whole. *)
Definition unmixed (w : world) : Prop :=
  match m_server (self w) with
  | None => True
  | Some s => srv_handlers s = provisioning_endpoints \/ srv_handlers s = operational_endpoints
  end.

(** The retry counter within its bound. *)
Definition retry_in_bound (w : world) : Prop := 0 <= m_retry_num (self w) <= MAX_RETRY.


(** [c] preserves [P]: from a state in [P], the state [c] ends in, by
    returning or by halting, is in [P]. *)
Definition preserves {A} (P : world -> Prop) (c : cmd A) : Prop :=
  forall w, P w -> P (final (c w)).

(** The state [stopWifi] leaves: no server, the driver stopped and
    deinitialised, no network interface. *)
Definition torn_down (w : world) : world :=
  {| self := set_server None (self w); sdk := set_wifi radio_off (sdk w) |}.

(** The radio as [connectToWifi] configures it. *)
Definition sta_radio (ssid password : string) : radio :=
  {| wifi_inited := true; wifi_started := true; wifi_mode := WIFI_MODE_STA;
     sta_config := Some {| sta_ssid := strncpy ssid 32; sta_password := strncpy password 64 |};
     ap_config := None; netif_sta := true; netif_ap := false |}.

(** The radio as [startProvisioning] configures it. *)
Definition ap_radio : radio :=
  {| wifi_inited := true; wifi_started := true; wifi_mode := WIFI_MODE_AP;
     sta_config := None;
     ap_config := Some {| ap_ssid := PROV_AP_SSID; ap_password := PROV_AP_PASS;
                          ap_ssid_len := 18; ap_authmode := WIFI_AUTH_WPA_WPA2_PSK;
                          ap_max_connection := 1 |};
     netif_sta := false; netif_ap := true |}.

(** The server [startWebServer] brings up. *)
Definition web_server (is_provisioning_mode : bool) : httpd_server :=
  {| srv_config := {| uri_match_wildcard := true; lru_purge_enable := true;
                      max_uri_handlers := 8 |};
     srv_handlers := if is_provisioning_mode then provisioning_endpoints
                     else operational_endpoints |}.

(** The station role is configured: its interface exists or the mode
    includes it. *)
Definition sta_side (r : radio) : bool :=
  netif_sta r || bool_decide (wifi_mode r = WIFI_MODE_STA)
  || bool_decide (wifi_mode r = WIFI_MODE_APSTA).

(** The access-point role is configured. *)
Definition ap_side (r : radio) : bool :=
  netif_ap r || bool_decide (wifi_mode r = WIFI_MODE_AP)
  || bool_decide (wifi_mode r = WIFI_MODE_APSTA).

(** Never both roles at once. *)
Definition exclusive (w : world) : Prop :=
  sta_side (wifi (sdk w)) && ap_side (wifi (sdk w)) = false.

(** [c] establishes [Q]: whatever the state before, the state [c] ends in is
    in [Q]. *)
Definition establishes {A} (Q : world -> Prop) (c : cmd A) : Prop :=
  forall w, Q (final (c w)).

Definition sta_free (w : world) : Prop := sta_side (wifi (sdk w)) = false.
Definition ap_free (w : world) : Prop := ap_side (wifi (sdk w)) = false.

(** The flags and the connection status agree: no flag yet, or the
    connected flag alone with [m_is_connected], or the failure flag alone
    without it. *)
Definition settled (w : world) : Prop :=
  event_bits w = 0 \/
  (event_bits w = WIFI_CONNECTED_BIT /\ isConnected w = true) \/
  (event_bits w = WIFI_FAIL_BIT /\ isConnected w = false).

(** What the event handler leaves alone. *)
Definition same_frame (w w' : world) : Prop :=
  sdk_status (sdk w') = sdk_status (sdk w) /\
  nvs_flash (sdk w') = nvs_flash (sdk w) /\
  wifi (sdk w') = wifi (sdk w) /\
  m_server (self w') = m_server (self w).

(** The mask [start] waits on. *)
Definition EITHER_BIT : Z := Z.lor WIFI_CONNECTED_BIT WIFI_FAIL_BIT.

(** ** Form bodies *)

(** A form [k1=v1&k2=v2&...] as the browser sends it. *)
Fixpoint form_body (fields : list (string * string)) : string :=
  match fields with
  | [] => ""
  | (k, v) :: rest =>
      k +:+ "=" +:+ v +:+
      match rest with
      | [] => ""
      | _ :: _ => "&" +:+ form_body rest
      end
  end.

(** A field the form syntax can carry as it is: no separator and no NUL in
    the name, no [&] and no NUL in the value. *)
Definition field_ok (f : string * string) : Prop :=
  has_char "=" (fst f) = false /\ has_char "&" (fst f) = false /\
  nul_free (fst f) = true /\
  has_char "&" (snd f) = false /\ nul_free (snd f) = true.

(** The name of a field is [key], letters compared without case. *)
Definition names (key : string) (f : string * string) : bool :=
  (String.length (fst f) =? String.length key)%nat && strcaseeq (fst f) key.

(** The value of the first field named [key]. *)
Definition form_lookup (key : string) (fields : list (string * string)) : option string :=
  snd <$> List.find (names key) fields.

Definition post (body : string) : httpd_req_t := {| req_content := body; req_sock_err := None |}.

(** Some 400 response was sent. *)
Definition answered_400 (w : world) : bool :=
  existsb (fun e => match e with Eff_httpd_resp 400 _ => true | _ => false end)
    (sdk_log (sdk w)).

(** Handled from a retry counter of [retry], the events [pre] raise no flag:
    no address assignment among them, and every disconnect finds the counter
    below [MAX_RETRY]. *)
Fixpoint quiet (retry : Z) (pre : list event) : bool :=
  match pre with
  | [] => true
  | IP_EVENT_STA_GOT_IP _ :: _ => false
  | WIFI_EVENT WIFI_EVENT_STA_DISCONNECTED :: rest =>
      (retry <? MAX_RETRY) && quiet (retry + 1) rest
  | _ :: rest => quiet retry rest
  end.

(** Where [start] leaves the device on its provisioning path: the radio
    started as access point, and exactly the three provisioning routes. *)
Definition provisioning_path (w : world) : Prop :=
  wifi_started (wifi (sdk w)) = true /\ wifi_mode (wifi (sdk w)) = WIFI_MODE_AP /\
  endpoints w = provisioning_endpoints /\ serves "/reset" HTTP_GET w = false.

(** Where [start] leaves the device on its connected path: the radio
    started as station, connected, and exactly the two operational routes. *)
Definition connected_path (w : world) : Prop :=
  wifi_started (wifi (sdk w)) = true /\ wifi_mode (wifi (sdk w)) = WIFI_MODE_STA /\
  isConnected w = true /\
  endpoints w = operational_endpoints /\ serves "/" HTTP_GET w = false.

(** ** The provisioning page ([provisioningGetHandler])

    The handler is static and touches no member: it is a function of the
    file system it reads and of the connection it writes to. *)

Definition LFS_BASE_PATH : string := "/littlefs".

(** The bytes after the first [n]. *)
Fixpoint skip (n : nat) (s : string) : string :=
  match n, s with
  | O, _ => s
  | _, EmptyString => EmptyString
  | S k, String _ r => skip k r
  end.

(** A file: its bytes, whether [open] succeeds on it, and how many [read]
    calls succeed before the medium fails ([None]: all of them). *)
Record file := {
  f_data : string;
  f_openable : bool;
  f_good_reads : option nat
}.

(** An open descriptor: what is left to read, and the reads still good. *)
Record open_fd := { fd_rest : string; fd_good_reads : option nat }.

(** One call less of a bounded supply. *)
Definition spend (budget : option nat) : option nat := Nat.pred <$> budget.

(** [read(fd, buffer, n)]: the count, the bytes and the descriptor moved on;
    [-1] once the medium fails. *)
Definition read (fd : open_fd) (n : nat) : Z * string * open_fd :=
  match fd_good_reads fd with
  | Some O => (-1, "", fd)
  | _ =>
      let chunk := take n (fd_rest fd) in
      (Z.of_nat (String.length chunk), chunk,
       {| fd_rest := skip n (fd_rest fd); fd_good_reads := spend (fd_good_reads fd) |})
  end.

(** What the handler puts on the connection. *)
Inductive http_out :=
  | Out_status (code : nat)        (* httpd_resp_send_404 / _500 *)
  | Out_set_type (type : string)   (* httpd_resp_set_type *)
  | Out_chunk (data : string).     (* httpd_resp_send_chunk that went through *)

(** The [while] loop of the handler and what follows it.  [sends] is the
    number of chunks the connection still takes ([None]: any number).  Every
    round with bytes read shortens the descriptor, so [fuel] above the length
    of the file is never used up; [None] stands for used-up fuel. *)
Fixpoint send_file (fuel : nat) (fd : open_fd) (sends : option nat)
    : option (esp_err_t * list http_out) :=
  match fuel with
  | O => None
  | S fuel' =>
      let '(bytes_read, buffer, fd') := read fd 256 in
      if 0 <? bytes_read then
        match sends with
        | Some O => (* close(fd) *) Some (ESP_FAIL, [])
        | _ =>
            match send_file fuel' fd' (spend sends) with
            | Some (err, out) => Some (err, Out_chunk buffer :: out)
            | None => None
            end
        end
      else
        (* close(fd); httpd_resp_send_chunk(req, NULL, 0) *)
        match sends with
        | Some O => Some (ESP_OK, [])
        | _ => Some (ESP_OK, [Out_chunk ""])
        end
  end.

(** [WifiManager::provisioningGetHandler] *)
Definition provisioningGetHandler (fs : gmap string file) (sends : option nat)
    : option (esp_err_t * list http_out) :=
  let filepath := LFS_BASE_PATH +:+ "/index.html" in
  match fs !! filepath with
  | None => Some (ESP_FAIL, [Out_status 404])
  | Some f =>
      if negb (f_openable f) then Some (ESP_FAIL, [Out_status 500])
      else
        match send_file (S (String.length (f_data f)))
                {| fd_rest := f_data f; fd_good_reads := f_good_reads f |} sends with
        | Some (err, out) => Some (err, Out_set_type "text/html" :: out)
        | None => None
        end
  end.

(** The bytes of the chunks, in order. *)
Fixpoint body_of (out : list http_out) : string :=
  match out with
  | [] => ""
  | Out_chunk data :: rest => data +:+ body_of rest
  | _ :: rest => body_of rest
  end.

(** What the handler can read of a file: all of it, or its first
    [256 * r] bytes when the medium fails after [r] reads. *)
Definition readable (data : string) (reads : option nat) : string :=
  match reads with
  | Some r => take (256 * r) data
  | None => data
  end.

(** What a connection that takes [k] chunks takes of the bytes [avail], sent
    in chunks of 256: the first [256 * k]. *)
Definition accepted (sends : option nat) (avail : string) : string :=
  match sends with
  | Some k => take (256 * k) avail
  | None => avail
  end.

(** The connection refuses a chunk: it takes [k] chunks and the handler has
    one more to send, more than [256 * k] bytes being readable. *)
Definition refuses (sends : option nat) (avail : string) : bool :=
  match sends with
  | Some k => (256 * k <? String.length avail)%nat
  | None => false
  end.

(** A file system with the page [data], sound in every respect. *)
Definition page_fs (data : string) : gmap string file :=
  {[ "/littlefs/index.html" :=
       {| f_data := data; f_openable := true; f_good_reads := None |} ]}.

(** ** The application ([Application.cpp]) *)

(** What [nvs_flash_init] can report: the two statuses [initializeNVS]
    recovers from, or any other status. *)
Inductive nvs_init_t :=
  | ESP_ERR_NVS_NO_FREE_PAGES
  | ESP_ERR_NVS_NEW_VERSION_FOUND
  | NVS_INIT (e : esp_err_t).

(** The environment of the bootstrap: the status of the first
    [nvs_flash_init], of [nvs_flash_erase], of the second [nvs_flash_init],
    and of the LittleFS mount. *)
Record boot_env := {
  nvs_init_first : nvs_init_t;
  nvs_erase_status : esp_err_t;
  nvs_init_second : nvs_init_t;
  lfs_mount_status : esp_err_t
}.

Inductive boot_abort :=
  | AbortErase (e : esp_err_t)
  | AbortInit (ret : nvs_init_t).

(** [Application::initializeNVS]: the flash the firmware goes on with, or
    the abort of an [ESP_ERROR_CHECK].  [nvs_flash_erase] leaves the
    partition without any entry. *)
Definition initializeNVS (env : boot_env) (flash : gmap string (gmap string string))
    : boot_abort + gmap string (gmap string string) :=
  let ret := nvs_init_first env in
  let formatting :=
    match ret with
    | ESP_ERR_NVS_NO_FREE_PAGES | ESP_ERR_NVS_NEW_VERSION_FOUND => true
    | NVS_INIT _ => false
    end in
  if formatting then
    if decide (nvs_erase_status env = ESP_OK) then
      match nvs_init_second env with
      | NVS_INIT ESP_OK => inr ∅
      | ret' => inl (AbortInit ret')
      end
    else inl (AbortErase (nvs_erase_status env))
  else
    match ret with
    | NVS_INIT ESP_OK => inr flash
    | _ => inl (AbortInit ret)
    end.

(** [Application::initializeFS]: the files visible afterwards.  A failed
    registration is logged and the boot goes on without a file system. *)
Definition initializeFS (env : boot_env) (image : gmap string file) : gmap string file :=
  if decide (lfs_mount_status env = ESP_OK) then image else ∅.

(** [Application::run] up to its loop: the bootstrap, then [start] on the
    manager constructed with the application. *)
Definition run_boot (env : boot_env) (status : sdk_fn -> esp_err_t)
    (flash : gmap string (gmap string string)) (image : gmap string file)
    (script : list event) : boot_abort + (outcome unit * gmap string file) :=
  match initializeNVS env flash with
  | inl a => inl a
  | inr flash' => inr (start (power_on status flash' script), initializeFS env image)
  end.

(** One round of the loop of [Application::run]: the line it logs. *)
Definition heartbeat (w : world) : string :=
  if isConnected w then "Device connected. IP: " +:+ getIpAddress w
  else "Device in provisioning mode...".

(** ** Further predicates *)

(** Every SDK call other than the two of the store and [httpd_start] goes
    through. *)
Definition radio_ok (w : world) : Prop :=
  forall fn, fn <> Fn_nvs_open -> fn <> Fn_nvs_commit -> fn <> Fn_httpd_start ->
    sdk_status (sdk w) fn = ESP_OK.

(** [m_is_connected] is backed by the connected flag. *)
Definition connected_is_flagged (w : world) : Prop :=
  isConnected w = true -> bit_set WIFI_CONNECTED_BIT w = true.

(** A request whose read runs into the socket error [e]. *)
Definition broken (e : Z) : httpd_req_t := {| req_content := ""; req_sock_err := Some e |}.

(** The server [startWebServer b] leaves when there was none: the one of the
    mode, or none when [httpd_start] fails. *)
Definition server_or_none (status : sdk_fn -> esp_err_t) (b : bool) : option httpd_server :=
  if decide (status Fn_httpd_start = ESP_OK) then Some (web_server b) else None.

(** The calls into the network stack and the Wi-Fi driver that the boot
    checks with [ESP_ERROR_CHECK]. *)
Definition driver_calls : list sdk_fn :=
  [ Fn_esp_netif_init; Fn_esp_event_loop_create_default;
    Fn_esp_event_handler_instance_register;
    Fn_esp_wifi_init; Fn_esp_wifi_set_mode; Fn_esp_wifi_set_config; Fn_esp_wifi_start ].

(** [c], run in [w], is aborted by the failure of a driver call, with no
    web server left. *)
Definition aborted_by_driver {A} (c : cmd A) (w : world) : Prop :=
  exists fn w', In fn driver_calls /\ sdk_status (sdk w) fn <> ESP_OK /\
    c w = Halted (Aborted (sdk_status (sdk w) fn)) w' /\ m_server (self w') = None.

(** ** Proof support *)

Ltac unfold_cmd :=
  unfold ESP_ERROR_CHECK, status_of, emit, modify, get, halt_with,
    mbind, cmd_bind, mret, cmd_ret in *.

(** ** C strings *)

Lemma c_str_nul_free s : nul_free s = true -> c_str s = s.
Proof.
  induction s as [|c r IH]; simpl; [reflexivity|].
  destruct (Ascii.eqb c NUL); simpl; [discriminate|].
  intros H. now rewrite IH.
Qed.

Lemma nul_free_c_str s : nul_free (c_str s) = true.
Proof.
  induction s as [|c r IH]; simpl; [reflexivity|].
  destruct (Ascii.eqb c NUL) eqn:E; simpl; [reflexivity|].
  now rewrite E, IH.
Qed.

Lemma c_str_idem s : c_str (c_str s) = c_str s.
Proof. apply c_str_nul_free, nul_free_c_str. Qed.

Lemma take_all n s : (String.length s <= n)%nat -> take n s = s.
Proof.
  revert n. induction s as [|c r IH]; intros [|n]; simpl; intros H;
    try reflexivity; try lia.
  rewrite IH; [reflexivity | lia].
Qed.

(** ** The credential store *)

Section CredentialStore.

Variable w : world.
Hypothesis open_ok : sdk_status (sdk w) Fn_nvs_open = ESP_OK.

Lemma nvs_open_readonly :
  nvs_open NVS_NAMESPACE NVS_READONLY w =
  match nvs_flash (sdk w) !! NVS_NAMESPACE with
  | Some es => Returned (ESP_OK, {| h_namespace := NVS_NAMESPACE;
                                    h_mode := NVS_READONLY; h_entries := es |}) w
  | None => Returned (ESP_ERR_NVS_NOT_FOUND, null_handle) w
  end.
Proof.
  unfold nvs_open. unfold_cmd. rewrite open_ok. simpl.
  destruct (nvs_flash (sdk w) !! NVS_NAMESPACE); reflexivity.
Qed.

(** What [loadCredentials] returns on a store that opens. *)
Lemma loadCredentials_spec ssid0 password0 :
  loadCredentials ssid0 password0 w =
  match stored_key w NVS_KEY_WIFI_SSID with
  | Some s =>
      Returned (ESP_OK, c_str s,
                match stored_key w NVS_KEY_WIFI_PASS with
                | Some p => c_str p
                | None => ""
                end) w
  | None => Returned (ESP_ERR_NVS_NOT_FOUND, ssid0, password0) w
  end.
Proof.
  unfold loadCredentials, stored_key.
  unfold mbind at 1. unfold cmd_bind. rewrite nvs_open_readonly.
  destruct (nvs_flash (sdk w) !! NVS_NAMESPACE) as [es|] eqn:Hns; simpl; [|reflexivity].
  unfold nvs_get_str_size, nvs_get_str; simpl.
  destruct (es !! NVS_KEY_WIFI_SSID) as [s|] eqn:Hs; simpl; [|reflexivity].
  rewrite Nat.leb_refl. simpl.
  destruct (es !! NVS_KEY_WIFI_PASS) as [p|] eqn:Hp; simpl; [|reflexivity].
  rewrite Nat.leb_refl. reflexivity.
Qed.

Hypothesis commit_ok : sdk_status (sdk w) Fn_nvs_commit = ESP_OK.

Lemma saveCredentials_spec ssid password :
  saveCredentials ssid password w =
  Returned ESP_OK
    (upd_sdk (fun s => set_nvs_flash
       (<[NVS_NAMESPACE :=
            <[NVS_KEY_WIFI_PASS := c_str password]>
              (<[NVS_KEY_WIFI_SSID := c_str ssid]> (stored w))]> (nvs_flash s)) s) w).
Proof.
  unfold saveCredentials, nvs_open, nvs_commit, nvs_close, stored. unfold_cmd.
  rewrite open_ok. simpl.
  destruct (nvs_flash (sdk w) !! NVS_NAMESPACE) as [es|]; simpl;
    rewrite commit_ok; simpl; rewrite !c_str_idem; reflexivity.
Qed.

End CredentialStore.

Lemma stored_key_after_save w ssid password key :
  stored_key
    (upd_sdk (fun s => set_nvs_flash
       (<[NVS_NAMESPACE :=
            <[NVS_KEY_WIFI_PASS := c_str password]>
              (<[NVS_KEY_WIFI_SSID := c_str ssid]> (stored w))]> (nvs_flash s)) s) w) key =
  if decide (key = NVS_KEY_WIFI_PASS) then Some (c_str password)
  else if decide (key = NVS_KEY_WIFI_SSID) then Some (c_str ssid)
  else stored_key w key.
Proof.
  unfold stored_key, stored, upd_sdk; simpl.
  rewrite lookup_insert_eq; simpl.
  destruct (decide (key = NVS_KEY_WIFI_PASS)) as [->|Hp].
  { now rewrite lookup_insert_eq. }
  rewrite lookup_insert_ne by congruence.
  destruct (decide (key = NVS_KEY_WIFI_SSID)) as [->|Hs].
  { now rewrite lookup_insert_eq. }
  rewrite lookup_insert_ne by congruence.
  destruct (nvs_flash (sdk w) !! NVS_NAMESPACE); simpl; [reflexivity|].
  apply lookup_empty.
Qed.

(** Saving and loading on a store that opens and commits: what comes back is
    what [c_str] hands to [nvs_set_str]. *)
Lemma save_then_load w ssid password :
  sdk_status (sdk w) Fn_nvs_open = ESP_OK ->
  sdk_status (sdk w) Fn_nvs_commit = ESP_OK ->
  exists w', saveCredentials ssid password w = Returned ESP_OK w' /\
    (forall key, key <> NVS_KEY_WIFI_SSID -> key <> NVS_KEY_WIFI_PASS ->
       stored_key w' key = stored_key w key) /\
    forall ssid0 password0,
      loadCredentials ssid0 password0 w' = Returned (ESP_OK, c_str ssid, c_str password) w'.
Proof.
  intros Hopen Hcommit. eexists. split; [apply saveCredentials_spec; assumption|].
  split.
  - intros key Hs Hp. rewrite stored_key_after_save.
    destruct (decide (key = NVS_KEY_WIFI_PASS)); [contradiction|].
    destruct (decide (key = NVS_KEY_WIFI_SSID)); [contradiction|reflexivity].
  - intros ssid0 password0. rewrite loadCredentials_spec by exact Hopen.
    rewrite !stored_key_after_save. simpl. now rewrite !c_str_idem.
Qed.

(** [saveCredentials] always returns, and returns [ESP_OK] exactly when the
    store opens and the commit goes through. *)
Lemma saveCredentials_returns w ssid password :
  exists e w', saveCredentials ssid password w = Returned e w' /\
    (e = ESP_OK <->
     sdk_status (sdk w) Fn_nvs_open = ESP_OK /\ sdk_status (sdk w) Fn_nvs_commit = ESP_OK).
Proof.
  destruct (decide (sdk_status (sdk w) Fn_nvs_open = ESP_OK)) as [Hopen|Hopen].
  - destruct (decide (sdk_status (sdk w) Fn_nvs_commit = ESP_OK)) as [Hcommit|Hcommit].
    + eexists _, _. split; [apply saveCredentials_spec; assumption | tauto].
    + exists (sdk_status (sdk w) Fn_nvs_commit), w. split; [|tauto].
      unfold saveCredentials, nvs_open, nvs_commit, nvs_close. unfold_cmd.
      rewrite Hopen. simpl.
      destruct (nvs_flash (sdk w) !! NVS_NAMESPACE); simpl;
        destruct (decide (sdk_status (sdk w) Fn_nvs_commit = ESP_OK));
        try contradiction; reflexivity.
  - exists (sdk_status (sdk w) Fn_nvs_open), w. split; [|tauto].
    unfold saveCredentials, nvs_open. unfold_cmd.
    destruct (decide (sdk_status (sdk w) Fn_nvs_open = ESP_OK)); [contradiction|].
    simpl. destruct (decide (sdk_status (sdk w) Fn_nvs_open <> ESP_OK)); [reflexivity|].
    contradiction.
Qed.

(** C6.  [saveCredentials] always returns, with [ESP_OK] exactly when the
    store opens and commits.  For every ssid [s] and password [p] that are C
    strings (no NUL byte inside: the store keeps NUL-terminated strings),
    after [saveCredentials s p] has returned [ESP_OK] a [loadCredentials]
    returns [(s, p)] byte for byte, the empty password included.  On a store
    that opens, [loadCredentials] returns [ESP_OK] exactly when the SSID key
    exists, and with the password key absent the password it returns is
    empty. *)
Theorem credential_roundtrip (w : world) (s p : string) :
  (exists e w', saveCredentials s p w = Returned e w' /\
     (e = ESP_OK <->
      sdk_status (sdk w) Fn_nvs_open = ESP_OK /\
      sdk_status (sdk w) Fn_nvs_commit = ESP_OK)) /\
  (nul_free s = true -> nul_free p = true ->
   forall w', saveCredentials s p w = Returned ESP_OK w' ->
   forall s0 p0, loadCredentials s0 p0 w' = Returned (ESP_OK, s, p) w') /\
  (sdk_status (sdk w) Fn_nvs_open = ESP_OK ->
   forall s0 p0,
     ((exists s' p' w', loadCredentials s0 p0 w = Returned (ESP_OK, s', p') w') <->
      is_Some (stored_key w NVS_KEY_WIFI_SSID)) /\
     (forall e s' p' w',
        loadCredentials s0 p0 w = Returned (e, s', p') w' ->
        is_Some (stored_key w NVS_KEY_WIFI_SSID) ->
        stored_key w NVS_KEY_WIFI_PASS = None ->
        e = ESP_OK /\ p' = "")).
Proof.
  split; [apply saveCredentials_returns|]. split.
  - intros Hs Hp w' Hsave s0 p0.
    destruct (saveCredentials_returns w s p) as (e & w1 & Hrun & Hiff).
    rewrite Hrun in Hsave. injection Hsave as -> ->.
    destruct (proj1 Hiff eq_refl) as [Hopen Hcommit].
    destruct (save_then_load w s p Hopen Hcommit) as (w2 & Hsave & _ & Hload).
    rewrite Hrun in Hsave. injection Hsave as <-.
    rewrite Hload, (c_str_nul_free s Hs), (c_str_nul_free p Hp). reflexivity.
  - intros Hopen s0 p0. rewrite (loadCredentials_spec w Hopen). split; [split|].
    + intros (s' & p' & w' & Hload).
      destruct (stored_key w NVS_KEY_WIFI_SSID); [eauto | discriminate].
    + intros [v ->]. eauto.
    + intros e s' p' w' Hload [v Hv] Hnone. rewrite Hv, Hnone in Hload.
      injection Hload as <- _ <- _. split; reflexivity.
Qed.

Lemma credential_roundtrip_witness :
  loadCredentials "" "" (final (saveCredentials "HomeNet" "" blank)) =
  Returned (ESP_OK, "HomeNet", "") (final (saveCredentials "HomeNet" "" blank)).
Proof.
  apply (proj1 (proj2 (credential_roundtrip blank "HomeNet" ""))); reflexivity.
Defined.

(** ** Commands and what they preserve *)

Lemma preserves_ret {A} P (a : A) : preserves P (mret a).
Proof. intros w H. exact H. Qed.

Lemma preserves_bind {A B} P (m : cmd A) (f : A -> cmd B) :
  preserves P m -> (forall a, preserves P (f a)) -> preserves P (m ≫= f).
Proof.
  intros Hm Hf w H. unfold mbind, cmd_bind. specialize (Hm w H).
  destruct (m w) as [a w'|h w']; simpl in *; [apply Hf; exact Hm | exact Hm].
Qed.

Lemma preserves_get {A} P (f : world -> A) : preserves P (get f).
Proof. intros w H. exact H. Qed.

Lemma preserves_halt {A} P h : preserves P (halt_with (A:=A) h).
Proof. intros w H. exact H. Qed.

Lemma preserves_modify P f : (forall w, P w -> P (f w)) -> preserves P (modify f).
Proof. intros Hf w H. apply Hf, H. Qed.

Ltac preserves_step :=
  lazymatch goal with
  | |- preserves _ (mret _) => apply preserves_ret
  | |- preserves _ (_ ≫= _) => apply preserves_bind; [|intros ?]
  | |- preserves _ (get _) => apply preserves_get
  | |- preserves _ (halt_with _) => apply preserves_halt
  | |- preserves _ (if ?b then _ else _) => destruct b
  | |- preserves _ (match ?x with _ => _ end) => destruct x
  end.

Lemma preserves_sdk_call P fn act : preserves P act -> preserves P (sdk_call fn act).
Proof. intros H. unfold sdk_call, status_of. repeat first [preserves_step | assumption]. Qed.

Lemma preserves_ERROR_CHECK P c : preserves P c -> preserves P (ESP_ERROR_CHECK c).
Proof. intros H. unfold ESP_ERROR_CHECK. repeat first [preserves_step | assumption]. Qed.

Section ManagerInvariants.

(** An invariant that reads the manager object only is kept by the radio
    commands as soon as the two web-server members keep it. *)
Variable P : world -> Prop.
Hypothesis P_self : forall w w', self w = self w' -> P w -> P w'.
Hypothesis P_startWebServer : forall b, preserves P (startWebServer b).
Hypothesis P_stopWebServer : preserves P stopWebServer.

Lemma preserves_upd_wifi f : preserves P (upd_wifi f).
Proof.
  unfold upd_wifi. apply preserves_modify. intros w H.
  apply (P_self w); [reflexivity | exact H].
Qed.

Local Ltac radio_go :=
  repeat first
    [ apply preserves_ERROR_CHECK | apply preserves_sdk_call | apply preserves_upd_wifi
    | apply P_startWebServer | apply P_stopWebServer | preserves_step ].

Lemma preserves_stopWifi : preserves P stopWifi.
Proof. unfold stopWifi, esp_wifi_stop, esp_wifi_deinit. radio_go. Qed.

Lemma preserves_connectToWifi s p : preserves P (connectToWifi s p).
Proof.
  unfold connectToWifi, esp_netif_create_default_wifi_sta, esp_wifi_init,
    esp_wifi_set_mode, esp_wifi_set_config_sta, esp_wifi_start.
  repeat first [apply preserves_stopWifi | radio_go].
Qed.

Lemma preserves_startProvisioning : preserves P startProvisioning.
Proof.
  unfold startProvisioning, esp_netif_create_default_wifi_ap, esp_wifi_init,
    esp_wifi_set_mode, esp_wifi_set_config_ap, esp_wifi_start.
  repeat first [apply preserves_stopWifi | radio_go].
Qed.

End ManagerInvariants.

Section Invariants.

(** An invariant that reads the manager object and the radio, and is kept
    by the members that write them, is kept by the whole boot sequence, by
    the request handler and so by every run of operations. *)
Variable P : world -> Prop.
Hypothesis P_reads : forall w w',
  self w = self w' -> wifi (sdk w) = wifi (sdk w') -> P w -> P w'.
Hypothesis P_await : forall script,
  preserves P (await (Z.lor WIFI_CONNECTED_BIT WIFI_FAIL_BIT) false script).
Hypothesis P_startWebServer : forall b, preserves P (startWebServer b).
Hypothesis P_stopWebServer : preserves P stopWebServer.
Hypothesis P_stopWifi : preserves P stopWifi.
Hypothesis P_connectToWifi : forall s p, preserves P (connectToWifi s p).
Hypothesis P_startProvisioning : preserves P startProvisioning.

Local Ltac frame :=
  apply preserves_modify; intros w H; apply (P_reads w); [reflexivity .. | exact H].

Local Ltac go :=
  repeat first
    [ apply preserves_ERROR_CHECK | apply preserves_sdk_call | preserves_step
    | assumption | frame ].

Lemma preserves_emit e : preserves P (emit e).
Proof. unfold emit. go. Qed.

Lemma preserves_saveCredentials s p : preserves P (saveCredentials s p).
Proof. unfold saveCredentials, nvs_open, nvs_commit, nvs_close, status_of. go. Qed.

Lemma preserves_loadCredentials s p : preserves P (loadCredentials s p).
Proof. unfold loadCredentials, nvs_open, nvs_close, status_of. go. Qed.

Lemma preserves_initialize : preserves P initialize.
Proof.
  unfold initialize, esp_netif_init, esp_event_loop_create_default,
    esp_event_handler_instance_register. go.
Qed.

Lemma preserves_wait_any :
  preserves P (xEventGroupWaitBits (Z.lor WIFI_CONNECTED_BIT WIFI_FAIL_BIT) false false).
Proof. unfold xEventGroupWaitBits. repeat first [apply P_await | preserves_step | frame]. Qed.

Lemma preserves_start : preserves P start.
Proof.
  unfold start.
  repeat first
    [ apply preserves_initialize | apply preserves_loadCredentials
    | apply P_connectToWifi | apply preserves_wait_any
    | apply P_startWebServer | apply P_startProvisioning | preserves_step ].
Qed.

Lemma preserves_connectPostHandler req : preserves P (connectPostHandler req).
Proof.
  unfold connectPostHandler, httpd_resp_send_408, httpd_resp_send_err, httpd_resp_send,
    vTaskDelay, esp_restart.
  repeat first [apply preserves_emit | apply preserves_saveCredentials | preserves_step].
Qed.

Lemma preserves_resetGetHandler : preserves P resetGetHandler.
Proof.
  unfold resetGetHandler, clearCredentialsAndRestart, httpd_resp_send, vTaskDelay,
    esp_restart, nvs_open, nvs_commit, nvs_close, status_of.
  repeat first [apply preserves_emit | preserves_step | frame].
Qed.

Lemma preserves_faviconGetHandler : preserves P faviconGetHandler.
Proof. unfold faviconGetHandler. repeat first [apply preserves_emit | preserves_step]. Qed.

Hypothesis P_eventHandler : forall ev, preserves P (eventHandler ev).

Lemma preserves_exec o : forall w, P w -> P (exec o w).
Proof.
  destruct o; simpl.
  - apply preserves_start.
  - apply P_eventHandler.
  - apply P_connectToWifi.
  - apply P_startProvisioning.
  - apply P_stopWifi.
  - apply P_startWebServer.
  - apply P_stopWebServer.
  - apply preserves_saveCredentials.
  - apply preserves_connectPostHandler.
  - apply preserves_resetGetHandler.
  - apply preserves_faviconGetHandler.
Qed.

Lemma preserves_exec_all ops : forall w, P w -> P (exec_all ops w).
Proof.
  induction ops as [|o ops IH]; intros w H; simpl; [exact H|].
  apply IH, preserves_exec, H.
Qed.

(** Holding of every freshly constructed manager, [P] holds of every
    reachable state. *)
Lemma invariant_reachable :
  (forall status flash script, P (power_on status flash script)) ->
  forall w, reachable w -> P w.
Proof.
  intros Hinit w (status & flash & script & ops & ->).
  apply preserves_exec_all, Hinit.
Qed.

End Invariants.

(** Events handled while waiting keep what every single event keeps. *)
Lemma preserves_await P mask all script :
  (forall ev, preserves P (eventHandler ev)) -> preserves P (await mask all script).
Proof.
  intros Hev. induction script as [|ev rest IH]; intros w H; simpl.
  - destruct (if all then _ else _); exact H.
  - destruct (if all then _ else _); [exact H|].
    pose proof (Hev ev w H) as H1.
    destruct (eventHandler ev w) as [[] w1|h w1]; simpl in *; [apply IH, H1 | exact H1].
Qed.

(** The forms used for the invariants of the manager object. *)
Lemma manager_invariant_exec (P : world -> Prop) :
  (forall w w', self w = self w' -> P w -> P w') ->
  (forall ev, preserves P (eventHandler ev)) ->
  (forall b, preserves P (startWebServer b)) ->
  preserves P stopWebServer ->
  forall o w, P w -> P (exec o w).
Proof.
  intros Hself Hev Hstart Hstop.
  apply preserves_exec; try assumption.
  - intros w w' Hs _. apply Hself, Hs.
  - intros script. apply preserves_await, Hev.
  - apply preserves_stopWifi; assumption.
  - intros s p. apply preserves_connectToWifi; assumption.
  - apply preserves_startProvisioning; assumption.
Qed.

Lemma manager_invariant_reachable (P : world -> Prop) :
  (forall w w', self w = self w' -> P w -> P w') ->
  (forall ev, preserves P (eventHandler ev)) ->
  (forall b, preserves P (startWebServer b)) ->
  preserves P stopWebServer ->
  (forall status flash script, P (power_on status flash script)) ->
  forall w, reachable w -> P w.
Proof.
  intros Hself Hev Hstart Hstop Hinit.
  apply invariant_reachable; try assumption.
  - intros w w' Hs _. apply Hself, Hs.
  - intros script. apply preserves_await, Hev.
  - apply preserves_stopWifi; assumption.
  - intros s p. apply preserves_connectToWifi; assumption.
  - apply preserves_startProvisioning; assumption.
Qed.

(** ** The event handler *)

Lemma eventHandler_returns ev w : eventHandler ev w = Returned tt (final (eventHandler ev w)).
Proof.
  destruct ev as [[]|addr]; try reflexivity.
  unfold eventHandler; unfold_cmd; simpl.
  destruct (m_retry_num (self w) <? MAX_RETRY); reflexivity.
Qed.

Lemma dispatch_cons ev rest w :
  final (dispatch (ev :: rest) w) = final (dispatch rest (final (eventHandler ev w))).
Proof. simpl. unfold mbind, cmd_bind. now rewrite eventHandler_returns. Qed.

Lemma count_in_snoc e x log :
  count_in e (log ++ [x]) = (count_in e log + if bool_decide (x = e) then 1 else 0)%nat.
Proof.
  unfold count_in. rewrite List.filter_app, List.length_app. simpl.
  destruct (bool_decide (x = e)); reflexivity.
Qed.

(** A disconnect below the bound: one more connection attempt, counter up. *)
Lemma disconnect_below w :
  m_retry_num (self w) < MAX_RETRY ->
  view_of (final (eventHandler STA_DISCONNECTED w)) =
  {| v_bits := event_bits w; v_retry := uint8_incr (m_retry_num (self w));
     v_connected := isConnected w; v_ip := getIpAddress w;
     v_fail_signals := fail_signals w;
     v_connect_requests := S (connect_requests w) |}.
Proof.
  intros H. apply Z.ltb_lt in H.
  unfold STA_DISCONNECTED, eventHandler, esp_wifi_connect; unfold_cmd; simpl. rewrite H. simpl.
  unfold view_of, fail_signals, connect_requests, count_effect, event_bits, isConnected, getIpAddress.
  simpl. rewrite !count_in_snoc. simpl. f_equal; lia.
Qed.

(** A disconnect at the bound: the connection is given up and the failure
    flag is raised. *)
Lemma disconnect_at_bound w :
  ~ m_retry_num (self w) < MAX_RETRY ->
  view_of (final (eventHandler STA_DISCONNECTED w)) =
  {| v_bits := Z.lor (event_bits w) WIFI_FAIL_BIT; v_retry := m_retry_num (self w);
     v_connected := false; v_ip := getIpAddress w;
     v_fail_signals := S (fail_signals w);
     v_connect_requests := connect_requests w |}.
Proof.
  intros H. apply Z.ltb_nlt in H.
  unfold STA_DISCONNECTED, eventHandler, xEventGroupSetBits; unfold_cmd; simpl. rewrite H. simpl.
  unfold view_of, fail_signals, connect_requests, count_effect, event_bits, isConnected, getIpAddress.
  simpl. rewrite !count_in_snoc. simpl. f_equal; lia.
Qed.

(** An address assignment: address stored, counter reset, flag raised. *)
Lemma got_ip_view addr w :
  view_of (final (eventHandler (IP_EVENT_STA_GOT_IP addr) w)) =
  {| v_bits := Z.lor (event_bits w) WIFI_CONNECTED_BIT; v_retry := 0;
     v_connected := true; v_ip := snprintf 16 (ip4_to_string addr);
     v_fail_signals := fail_signals w;
     v_connect_requests := connect_requests w |}.
Proof.
  unfold eventHandler, xEventGroupSetBits; unfold_cmd; simpl.
  unfold view_of, fail_signals, connect_requests, count_effect, event_bits, isConnected, getIpAddress.
  simpl. rewrite !count_in_snoc. simpl. f_equal; lia.
Qed.

(** [n] disconnects in a row, from a counter within its bound: the first
    [MAX_RETRY - m_retry_num] of them are retried, every later one raises
    the failure flag. *)
Lemma disconnect_run n : forall w,
  0 <= m_retry_num (self w) <= MAX_RETRY ->
  let k := Z.to_nat (MAX_RETRY - m_retry_num (self w)) in
  view_of (final (dispatch (disconnects n) w)) =
  {| v_bits := if (n <=? k)%nat then event_bits w else Z.lor (event_bits w) WIFI_FAIL_BIT;
     v_retry := Z.min (m_retry_num (self w) + Z.of_nat n) MAX_RETRY;
     v_connected := if (n <=? k)%nat then isConnected w else false;
     v_ip := getIpAddress w;
     v_fail_signals := (fail_signals w + (n - k))%nat;
     v_connect_requests := (connect_requests w + Nat.min n k)%nat |}.
Proof.
  unfold MAX_RETRY.
  induction n as [|n IH]; intros w Hr; cbv zeta.
  - simpl. unfold view_of. f_equal; lia.
  - change (disconnects (S n)) with (STA_DISCONNECTED :: disconnects n).
    rewrite dispatch_cons.
    destruct (Z_lt_dec (m_retry_num (self w)) MAX_RETRY) as [Hlt|Hge].
    + pose proof (disconnect_below w Hlt) as Hv. unfold MAX_RETRY in Hlt.
      set (w1 := final (eventHandler STA_DISCONNECTED w)) in *.
      assert (E : uint8_incr (m_retry_num (self w)) = m_retry_num (self w) + 1).
      { unfold uint8_incr. apply Z.mod_small. lia. }
      rewrite E in Hv.
      assert (Hr1 : m_retry_num (self w1) = m_retry_num (self w) + 1).
      { change (v_retry (view_of w1) = m_retry_num (self w) + 1). now rewrite Hv. }
      rewrite IH by lia. rewrite Hr1.
      replace (event_bits w1) with (v_bits (view_of w1)) by reflexivity.
      replace (isConnected w1) with (v_connected (view_of w1)) by reflexivity.
      replace (getIpAddress w1) with (v_ip (view_of w1)) by reflexivity.
      replace (fail_signals w1) with (v_fail_signals (view_of w1)) by reflexivity.
      replace (connect_requests w1) with (v_connect_requests (view_of w1)) by reflexivity.
      rewrite Hv. simpl.
      destruct (Z.to_nat (5 - m_retry_num (self w))) as [|k] eqn:Ek; [lia|].
      replace (Z.to_nat (5 - (m_retry_num (self w) + 1))) with k by lia.
      f_equal; lia.
    + pose proof (disconnect_at_bound w Hge) as Hv. unfold MAX_RETRY in Hge.
      set (w1 := final (eventHandler STA_DISCONNECTED w)) in *.
      assert (Hr1 : m_retry_num (self w1) = m_retry_num (self w)).
      { change (v_retry (view_of w1) = m_retry_num (self w)). now rewrite Hv. }
      rewrite IH by lia. rewrite Hr1.
      replace (event_bits w1) with (v_bits (view_of w1)) by reflexivity.
      replace (isConnected w1) with (v_connected (view_of w1)) by reflexivity.
      replace (getIpAddress w1) with (v_ip (view_of w1)) by reflexivity.
      replace (fail_signals w1) with (v_fail_signals (view_of w1)) by reflexivity.
      replace (connect_requests w1) with (v_connect_requests (view_of w1)) by reflexivity.
      rewrite Hv. simpl.
      replace (Z.to_nat (5 - m_retry_num (self w))) with O by lia.
      rewrite <- Z.lor_assoc, Z.lor_diag.
      destruct n; simpl; f_equal; lia.
Qed.

(** C1 (amended).  Counting from a retry counter of zero, each of the first
    [MAX_RETRY = 5] consecutive disconnects is answered by a new connection
    attempt and an increment of the counter, and raises no flag; the counter
    then stays at 5, and every disconnect from the 6th on signals
    [WIFI_FAIL_BIT], so that after [n] disconnects the flag has been
    signalled [n - 5] times: not at all after 5, once after 6, again at each
    later disconnect (the flag itself stays set). *)
Theorem retry_bound (w : world) (n : nat) :
  m_retry_num (self w) = 0 ->
  let w' := final (dispatch (disconnects n) w) in
  m_retry_num (self w') = Z.min (Z.of_nat n) MAX_RETRY /\
  connect_requests w' = (connect_requests w + Nat.min n 5)%nat /\
  fail_signals w' = (fail_signals w + (n - 5))%nat /\
  event_bits w' =
    (if (n <=? 5)%nat then event_bits w else Z.lor (event_bits w) WIFI_FAIL_BIT).
Proof.
  intros H0 w'.
  assert (Hr : 0 <= m_retry_num (self w) <= MAX_RETRY) by (rewrite H0; unfold MAX_RETRY; lia).
  pose proof (disconnect_run n w Hr) as Hv. cbv zeta in Hv. fold w' in Hv.
  rewrite H0 in Hv. change (Z.to_nat (MAX_RETRY - 0)) with 5%nat in Hv.
  repeat split.
  - change (v_retry (view_of w') = Z.min (Z.of_nat n) MAX_RETRY). now rewrite Hv.
  - change (v_connect_requests (view_of w') = (connect_requests w + Nat.min n 5)%nat).
    now rewrite Hv.
  - change (v_fail_signals (view_of w') = (fail_signals w + (n - 5))%nat). now rewrite Hv.
  - change (v_bits (view_of w') =
      (if (n <=? 5)%nat then event_bits w else Z.lor (event_bits w) WIFI_FAIL_BIT)).
    now rewrite Hv.
Qed.

Lemma retry_bound_witness :
  fail_signals (final (dispatch (disconnects 6) blank)) = 1%nat /\
  event_bits (final (dispatch (disconnects 6) blank)) = WIFI_FAIL_BIT.
Proof.
  pose proof (retry_bound blank 6 eq_refl) as H. cbv zeta in H.
  destruct H as (_ & _ & Hs & Hb). split; [exact Hs | exact Hb].
Defined.

(** C1 as stated fails: after 5 consecutive disconnects on a fresh manager
    the counter is 5 and the failure flag has not been signalled; it is the
    6th disconnect that signals it, and the 7th signals it again. *)
Lemma retry_bound_as_stated_fails :
  (m_retry_num (self (final (dispatch (disconnects 5) blank))) = MAX_RETRY /\
   fail_signals (final (dispatch (disconnects 5) blank)) = 0%nat /\
   bit_set WIFI_FAIL_BIT (final (dispatch (disconnects 5) blank)) = false /\
   fail_signals (final (dispatch (disconnects 6) blank)) = 1%nat /\
   fail_signals (final (dispatch (disconnects 7) blank)) = 2%nat) /\
  ~ (fail_signals (final (dispatch (disconnects 5) blank)) = 1%nat /\
     fail_signals (final (dispatch (disconnects 6) blank)) =
     fail_signals (final (dispatch (disconnects 5) blank))).
Proof.
  split; [vm_compute; repeat split; reflexivity|].
  intros [H _]. vm_compute in H. discriminate H.
Qed.

(** C4 (amended).  An address assignment resets the retry counter to zero,
    whatever it was; of the consecutive disconnects that follow, the first 5
    are retried without any failure signal (after exactly 5 the counter is
    5 and no signal was added), and every one from the 6th on signals
    [WIFI_FAIL_BIT]. *)
Theorem retry_reset (w : world) (addr : Z) (n : nat) :
  let w1 := final (eventHandler (IP_EVENT_STA_GOT_IP addr) w) in
  let w' := final (dispatch (disconnects n) w1) in
  m_retry_num (self w1) = 0 /\
  m_retry_num (self w') = Z.min (Z.of_nat n) MAX_RETRY /\
  fail_signals w' = (fail_signals w + (n - 5))%nat /\
  event_bits w' =
    (if (n <=? 5)%nat then Z.lor (event_bits w) WIFI_CONNECTED_BIT
     else Z.lor (Z.lor (event_bits w) WIFI_CONNECTED_BIT) WIFI_FAIL_BIT).
Proof.
  intros w1 w'. pose proof (got_ip_view addr w) as Hg. fold w1 in Hg.
  assert (H0 : m_retry_num (self w1) = 0).
  { change (v_retry (view_of w1) = 0). now rewrite Hg. }
  assert (Hr : 0 <= m_retry_num (self w1) <= MAX_RETRY) by (rewrite H0; unfold MAX_RETRY; lia).
  pose proof (disconnect_run n w1 Hr) as Hv. cbv zeta in Hv. fold w' in Hv.
  rewrite H0 in Hv. change (Z.to_nat (MAX_RETRY - 0)) with 5%nat in Hv.
  replace (event_bits w1) with (v_bits (view_of w1)) in Hv by reflexivity.
  replace (fail_signals w1) with (v_fail_signals (view_of w1)) in Hv by reflexivity.
  rewrite Hg in Hv. simpl in Hv.
  split; [exact H0|]. repeat split.
  - change (v_retry (view_of w') = Z.min (Z.of_nat n) MAX_RETRY). now rewrite Hv.
  - change (v_fail_signals (view_of w') = (fail_signals w + (n - 5))%nat). now rewrite Hv.
  - change (v_bits (view_of w') =
      (if (n <=? 5)%nat then Z.lor (event_bits w) WIFI_CONNECTED_BIT
       else Z.lor (Z.lor (event_bits w) WIFI_CONNECTED_BIT) WIFI_FAIL_BIT)).
    now rewrite Hv.
Qed.

(** C4 as stated fails: a disconnect, an address event and 5 more
    disconnects leave the counter at 5 with no failure signal and the
    failure flag clear; a 6th disconnect is what raises it. *)
Lemma retry_reset_as_stated_fails :
  (fail_signals
     (final (dispatch (STA_DISCONNECTED :: IP_EVENT_STA_GOT_IP HOME_ADDR :: disconnects 5)
               blank)) = 0%nat /\
   m_retry_num (self
     (final (dispatch (STA_DISCONNECTED :: IP_EVENT_STA_GOT_IP HOME_ADDR :: disconnects 5)
               blank))) = MAX_RETRY /\
   bit_set WIFI_FAIL_BIT
     (final (dispatch (STA_DISCONNECTED :: IP_EVENT_STA_GOT_IP HOME_ADDR :: disconnects 6)
               blank)) = true) /\
  ~ bit_set WIFI_FAIL_BIT
      (final (dispatch (STA_DISCONNECTED :: IP_EVENT_STA_GOT_IP HOME_ADDR :: disconnects 5)
                blank)) = true.
Proof.
  split; [vm_compute; repeat split; reflexivity|].
  intros H. vm_compute in H. discriminate H.
Qed.

(** ** The web server *)

(** The configuration [startWebServer] starts the server with. *)
Lemma startWebServer_spec b w :
  startWebServer b w = Returned tt
    match m_server (self w) with
    | Some _ => w
    | None =>
        if decide (sdk_status (sdk w) Fn_httpd_start = ESP_OK) then
          upd_self (set_server (Some
            {| srv_config := {| uri_match_wildcard := true; lru_purge_enable := true;
                                max_uri_handlers := 8 |};
               srv_handlers := if b then provisioning_endpoints
                               else operational_endpoints |})) w
        else w
    end.
Proof.
  destruct w as [[g srv c r ip] s]. unfold startWebServer, httpd_start, sdk_call.
  unfold_cmd. cbv beta iota zeta delta [self sdk m_server].
  destruct srv as [srv|]; [reflexivity|].
  repeat case_decide; try contradiction; [|reflexivity].
  destruct b; vm_compute; reflexivity.
Qed.

Lemma stopWebServer_spec w :
  stopWebServer w = Returned tt
    match m_server (self w) with
    | Some _ => upd_self (set_server None) w
    | None => w
    end.
Proof.
  unfold stopWebServer. unfold_cmd. destruct (m_server (self w)); reflexivity.
Qed.

Lemma eventHandler_keeps_server ev w :
  m_server (self (final (eventHandler ev w))) = m_server (self w).
Proof.
  destruct ev as [[]|addr]; try reflexivity.
  unfold eventHandler; unfold_cmd; simpl.
  destruct (m_retry_num (self w) <? MAX_RETRY); reflexivity.
Qed.

Lemma unmixed_reachable w : reachable w -> unmixed w.
Proof.
  apply manager_invariant_reachable.
  - intros w1 w2 Hs. unfold unmixed. now rewrite Hs.
  - intros ev w1. unfold unmixed. now rewrite eventHandler_keeps_server.
  - intros b w1 H. rewrite startWebServer_spec. simpl. unfold unmixed in *.
    destruct (m_server (self w1)) as [s|] eqn:E; [now rewrite E|].
    destruct (decide _); [|now rewrite E]. simpl. destruct b; auto.
  - intros w1 H. rewrite stopWebServer_spec. simpl. unfold unmixed in *.
    destruct (m_server (self w1)) as [s|] eqn:E; [exact I|now rewrite E].
  - intros status flash script. exact I.
Qed.

Lemma eventHandler_retry_in_bound ev : preserves retry_in_bound (eventHandler ev).
Proof.
  intros w H. unfold retry_in_bound in *.
  destruct ev as [[]|addr]; try exact H.
  - change (WIFI_EVENT WIFI_EVENT_STA_DISCONNECTED) with STA_DISCONNECTED.
    destruct (Z_lt_dec (m_retry_num (self w)) MAX_RETRY) as [Hlt|Hge].
    + pose proof (f_equal v_retry (disconnect_below w Hlt)) as E.
      cbn [v_retry view_of] in E. rewrite E. unfold uint8_incr, MAX_RETRY in *.
      rewrite Z.mod_small; lia.
    + pose proof (f_equal v_retry (disconnect_at_bound w Hge)) as E.
      cbn [v_retry view_of] in E. rewrite E. exact H.
  - pose proof (f_equal v_retry (got_ip_view addr w)) as E.
    cbn [v_retry view_of] in E. rewrite E. unfold MAX_RETRY. lia.
Qed.

Lemma startWebServer_self_fields b w :
  let w' := final (startWebServer b w) in
  m_wifi_event_group (self w') = m_wifi_event_group (self w) /\
  m_is_connected (self w') = m_is_connected (self w) /\
  m_retry_num (self w') = m_retry_num (self w) /\
  m_current_ip (self w') = m_current_ip (self w) /\
  sdk w' = sdk w.
Proof.
  rewrite startWebServer_spec. simpl.
  destruct (m_server (self w)); [repeat split|].
  destruct (decide _); repeat split.
Qed.

Lemma stopWebServer_self_fields w :
  let w' := final (stopWebServer w) in
  m_wifi_event_group (self w') = m_wifi_event_group (self w) /\
  m_is_connected (self w') = m_is_connected (self w) /\
  m_retry_num (self w') = m_retry_num (self w) /\
  m_current_ip (self w') = m_current_ip (self w) /\
  sdk w' = sdk w.
Proof. rewrite stopWebServer_spec. simpl. destruct (m_server (self w)); repeat split. Qed.

(** C9.  The retry counter starts at zero; in every reachable state it is
    between 0 and [MAX_RETRY = 5]; an event changes it only by adding one on
    a disconnect that finds it strictly below [MAX_RETRY], or by resetting it
    to zero on an address assignment; and every address assignment resets
    it. *)
Theorem retry_counter_bounded :
  (forall status flash script, m_retry_num (self (power_on status flash script)) = 0) /\
  (forall w, reachable w -> 0 <= m_retry_num (self w) <= MAX_RETRY) /\
  (forall w ev, 0 <= m_retry_num (self w) <= MAX_RETRY ->
     let r' := m_retry_num (self (final (eventHandler ev w))) in
     r' = m_retry_num (self w) \/
     (ev = STA_DISCONNECTED /\ m_retry_num (self w) < MAX_RETRY /\
      r' = m_retry_num (self w) + 1) \/
     (exists addr, ev = IP_EVENT_STA_GOT_IP addr /\ r' = 0)) /\
  (forall w addr, m_retry_num (self (final (eventHandler (IP_EVENT_STA_GOT_IP addr) w))) = 0).
Proof.
  split; [reflexivity|]. split; [|split].
  - apply (manager_invariant_reachable retry_in_bound).
    + intros w w' Hs. unfold retry_in_bound. now rewrite Hs.
    + apply eventHandler_retry_in_bound.
    + intros b w H. unfold retry_in_bound in *.
      destruct (startWebServer_self_fields b w) as (_ & _ & -> & _). exact H.
    + intros w H. unfold retry_in_bound in *.
      destruct (stopWebServer_self_fields w) as (_ & _ & -> & _). exact H.
    + intros status flash script. unfold retry_in_bound, MAX_RETRY. simpl. lia.
  - intros w ev H r'. subst r'.
    destruct ev as [[]|addr]; try (left; reflexivity).
    + change (WIFI_EVENT WIFI_EVENT_STA_DISCONNECTED) with STA_DISCONNECTED.
      destruct (Z_lt_dec (m_retry_num (self w)) MAX_RETRY) as [Hlt|Hge].
      * right; left. split; [reflexivity|]. split; [exact Hlt|].
        pose proof (f_equal v_retry (disconnect_below w Hlt)) as E.
        cbn [v_retry view_of] in E. rewrite E. unfold uint8_incr, MAX_RETRY in *.
        rewrite Z.mod_small; lia.
      * left. pose proof (f_equal v_retry (disconnect_at_bound w Hge)) as E.
        cbn [v_retry view_of] in E. exact E.
    + right; right. exists addr. split; [reflexivity|].
      pose proof (f_equal v_retry (got_ip_view addr w)) as E.
      cbn [v_retry view_of] in E. exact E.
  - intros w addr.
    pose proof (f_equal v_retry (got_ip_view addr w)) as E.
    cbn [v_retry view_of] in E. exact E.
Qed.

Lemma retry_counter_bounded_witness :
  0 <= m_retry_num (self (exec_all (map OpEvent (disconnects 7)) blank)) <= MAX_RETRY.
Proof.
  apply (proj1 (proj2 retry_counter_bounded)).
  exists all_ok, ∅, [], (map OpEvent (disconnects 7)). reflexivity.
Defined.

(** C10.  [startWebServer] changes nothing when a server handle exists;
    [stopWebServer] changes nothing when none exists, leaves none, and so
    does nothing more when repeated; and in every reachable state the
    handler table, if there is a server, is the provisioning table or the
    operational table, whole: never [GET /] or [POST /connect] together with
    [GET /reset]. *)
Theorem web_server_guard :
  (forall b w, is_Some (m_server (self w)) -> startWebServer b w = Returned tt w) /\
  (forall w, m_server (self w) = None -> stopWebServer w = Returned tt w) /\
  (forall w, exists w1, stopWebServer w = Returned tt w1 /\
     m_server (self w1) = None /\ stopWebServer w1 = Returned tt w1) /\
  (forall w, reachable w ->
     (endpoints w = [] \/ endpoints w = provisioning_endpoints \/
      endpoints w = operational_endpoints) /\
     ((serves "/" HTTP_GET w || serves "/connect" HTTP_POST w) &&
      serves "/reset" HTTP_GET w = false)).
Proof.
  split; [|split; [|split]].
  - intros b w [s Hs]. rewrite startWebServer_spec, Hs. reflexivity.
  - intros w H. rewrite stopWebServer_spec, H. reflexivity.
  - intros w. rewrite (stopWebServer_spec w). eexists. split; [reflexivity|].
    destruct (m_server (self w)) eqn:E; simpl.
    + split; [reflexivity|]. rewrite stopWebServer_spec. reflexivity.
    + split; [exact E|]. rewrite stopWebServer_spec, E. reflexivity.
  - intros w H. apply unmixed_reachable in H. unfold unmixed, serves, endpoints in *.
    destruct (m_server (self w)) as [s|]; [|split; [tauto|reflexivity]].
    destruct H as [-> | ->]; split; try tauto; reflexivity.
Qed.

Lemma web_server_guard_witness :
  startWebServer false (exec (OpStartWebServer true) blank) =
    Returned tt (exec (OpStartWebServer true) blank) /\
  endpoints (exec (OpStartWebServer true) blank) = provisioning_endpoints.
Proof.
  split.
  - apply (proj1 web_server_guard). vm_compute. eexists. reflexivity.
  - reflexivity.
Defined.

(** C2 at its failing input.  Boot with stored credentials, the radio
    starts and gets the address 192.168.1.42 (the supervisor reaches the
    connected path), then six disconnects in a row: the state is reachable,
    [isConnected] is false, and [getIpAddress] still returns the address. *)
Theorem address_outlives_connection :
  let w := exec_all (OpStart :: map OpEvent (disconnects 6))
             (provisioned "HomeNet" "hunter2" [STA_START; IP_EVENT_STA_GOT_IP HOME_ADDR]) in
  reachable w /\ isConnected w = false /\ getIpAddress w = "192.168.1.42".
Proof.
  split; [|split; vm_compute; reflexivity].
  eexists _, _, _, _. reflexivity.
Qed.

(** Disconnects never touch the stored address: after an address assignment
    and any number of disconnects beyond the bound, the manager reports "not
    connected" together with the address it was given. *)
Lemma address_kept_after_loss w addr n :
  (5 < n)%nat ->
  let w' := final (dispatch (IP_EVENT_STA_GOT_IP addr :: disconnects n) w) in
  isConnected w' = false /\ getIpAddress w' = snprintf 16 (ip4_to_string addr).
Proof.
  intros Hn w'. subst w'. rewrite dispatch_cons.
  pose proof (got_ip_view addr w) as Hg.
  set (w1 := final (eventHandler (IP_EVENT_STA_GOT_IP addr) w)) in *.
  assert (H0 : m_retry_num (self w1) = 0).
  { change (v_retry (view_of w1) = 0). now rewrite Hg. }
  assert (Hr : 0 <= m_retry_num (self w1) <= MAX_RETRY) by (rewrite H0; unfold MAX_RETRY; lia).
  pose proof (disconnect_run n w1 Hr) as Hv. cbv zeta in Hv.
  rewrite H0 in Hv. change (Z.to_nat (MAX_RETRY - 0)) with 5%nat in Hv.
  replace (getIpAddress w1) with (v_ip (view_of w1)) in Hv by reflexivity.
  rewrite Hg in Hv. simpl in Hv.
  destruct (n <=? 5)%nat eqn:E; [apply Nat.leb_le in E; lia|].
  split.
  - change (v_connected (view_of (final (dispatch (disconnects n) w1))) = false).
    now rewrite Hv.
  - change (v_ip (view_of (final (dispatch (disconnects n) w1))) =
            snprintf 16 (ip4_to_string addr)).
    now rewrite Hv.
Qed.

(** ** Radio commands *)

Lemma bind_returned {A B} (m : cmd A) (f : A -> cmd B) w a w' :
  m w = Returned a w' -> (m ≫= f) w = f a w'.
Proof. intros H. unfold mbind, cmd_bind. now rewrite H. Qed.

Lemma stopWifi_spec w : stopWifi w = Returned tt (torn_down w).
Proof.
  destruct w as [[g srv c r ip] [st fl [ini sta mo sc ac ns na] scr lg]].
  unfold stopWifi, stopWebServer, esp_wifi_stop, esp_wifi_deinit, upd_wifi. unfold_cmd.
  destruct srv, ns, na; reflexivity.
Qed.

(** A checked driver call on a healthy SDK does its action. *)
Lemma checked_call_ok fn act w w' :
  sdk_status (sdk w) fn = ESP_OK -> act w = Returned tt w' ->
  ESP_ERROR_CHECK (sdk_call fn act) w = Returned tt w'.
Proof.
  intros Hok Hact. unfold ESP_ERROR_CHECK, sdk_call, status_of. unfold_cmd.
  rewrite Hok. simpl. rewrite Hact. reflexivity.
Qed.

Lemma connectToWifi_spec ssid password w :
  healthy w -> ssid <> "" ->
  connectToWifi ssid password w =
  Returned ESP_OK {| self := set_server None (self w);
                     sdk := set_wifi (sta_radio ssid password) (sdk w) |}.
Proof.
  intros H Hne. unfold connectToWifi.
  rewrite bool_decide_eq_false_2 by exact Hne.
  rewrite (bind_returned _ _ _ _ _ (stopWifi_spec w)).
  unfold esp_netif_create_default_wifi_sta, esp_wifi_init, esp_wifi_set_mode,
    esp_wifi_set_config_sta, esp_wifi_start.
  erewrite bind_returned by reflexivity.
  erewrite bind_returned by (apply checked_call_ok; [apply H | reflexivity]).
  erewrite bind_returned by (apply checked_call_ok; [apply H | reflexivity]).
  erewrite bind_returned by (apply checked_call_ok; [apply H | reflexivity]).
  erewrite bind_returned by (apply checked_call_ok; [apply H | reflexivity]).
  reflexivity.
Qed.

Lemma connectToWifi_empty password w :
  connectToWifi "" password w = Returned ESP_ERR_INVALID_ARG w.
Proof. reflexivity. Qed.

Lemma startProvisioning_spec w :
  healthy w ->
  startProvisioning w =
  Returned tt {| self := set_server (Some (web_server true)) (self w);
                 sdk := set_wifi ap_radio (sdk w) |}.
Proof.
  intros H. unfold startProvisioning.
  rewrite (bind_returned _ _ _ _ _ (stopWifi_spec w)).
  unfold esp_netif_create_default_wifi_ap, esp_wifi_init, esp_wifi_set_mode,
    esp_wifi_set_config_ap, esp_wifi_start.
  erewrite bind_returned by reflexivity.
  erewrite bind_returned by (apply checked_call_ok; [apply H | reflexivity]).
  erewrite bind_returned by (apply checked_call_ok; [apply H | reflexivity]).
  erewrite bind_returned by (apply checked_call_ok; [apply H | reflexivity]).
  erewrite bind_returned by (apply checked_call_ok; [apply H | reflexivity]).
  rewrite startWebServer_spec. simpl.
  destruct (decide _) as [_|Hko]; [reflexivity|]. elim Hko. apply H.
Qed.

(** ** Mode exclusivity *)

Lemma establishes_bind {A B} Q (m : cmd A) (f : A -> cmd B) :
  establishes Q m -> (forall a, preserves Q (f a)) -> establishes Q (m ≫= f).
Proof.
  intros Hm Hf w. unfold mbind, cmd_bind. specialize (Hm w).
  destruct (m w) as [a w'|h w']; simpl in *; [apply Hf; exact Hm | exact Hm].
Qed.

Lemma preserves_upd_wifi_radio (Q : radio -> Prop) f :
  (forall r, Q r -> Q (f r)) -> preserves (fun w => Q (wifi (sdk w))) (upd_wifi f).
Proof. intros Hf w H. simpl. apply Hf, H. Qed.

Lemma stopWifi_establishes_free : establishes (fun w => sta_free w /\ ap_free w) stopWifi.
Proof. intros w. rewrite stopWifi_spec. split; reflexivity. Qed.

Local Ltac radio_steps Q :=
  repeat first
    [ apply preserves_ERROR_CHECK | apply preserves_sdk_call
    | apply (preserves_upd_wifi_radio Q) | preserves_step ].

(** After its [stopWifi], [connectToWifi] touches the station side only:
    wherever it ends, nothing of the access point is configured. *)
Lemma connectToWifi_ap_free ssid password w :
  ssid <> "" -> ap_free (final (connectToWifi ssid password w)).
Proof.
  intros Hne. unfold connectToWifi. rewrite bool_decide_eq_false_2 by exact Hne.
  revert w. apply (establishes_bind ap_free).
  { intros w. apply stopWifi_establishes_free. }
  intros _. unfold ap_free, esp_netif_create_default_wifi_sta, esp_wifi_init,
    esp_wifi_set_mode, esp_wifi_set_config_sta, esp_wifi_start.
  radio_steps (fun r => ap_side r = false);
    intros [ini sta mo sc ac ns na]; unfold ap_side; simpl; try tauto;
    destruct mo, na; simpl; intros; try discriminate; try assumption.
Qed.

(** After its [stopWifi], [startProvisioning] touches the access-point side
    only. *)
Lemma startProvisioning_sta_free w : sta_free (final (startProvisioning w)).
Proof.
  unfold startProvisioning.
  revert w. apply (establishes_bind sta_free).
  { intros w. apply stopWifi_establishes_free. }
  intros _. unfold sta_free, esp_netif_create_default_wifi_ap, esp_wifi_init,
    esp_wifi_set_mode, esp_wifi_set_config_ap, esp_wifi_start.
  radio_steps (fun r => sta_side r = false);
    try (intros [ini sta mo sc ac ns na]; unfold sta_side; simpl; try tauto;
         destruct mo, ns; simpl; intros; try discriminate; assumption).
  intros w H. destruct (startWebServer_self_fields true w) as (_ & _ & _ & _ & E).
  simpl in E. rewrite E. exact H.
Qed.

Lemma sta_free_exclusive w : sta_free w -> exclusive w.
Proof. unfold sta_free, exclusive. intros ->. reflexivity. Qed.

Lemma ap_free_exclusive w : ap_free w -> exclusive w.
Proof. unfold ap_free, exclusive. intros ->. apply andb_false_r. Qed.

Lemma eventHandler_keeps_radio ev w :
  wifi (sdk (final (eventHandler ev w))) = wifi (sdk w).
Proof.
  destruct ev as [[]|addr]; try reflexivity.
  unfold eventHandler; unfold_cmd; simpl.
  destruct (m_retry_num (self w) <? MAX_RETRY); reflexivity.
Qed.

Lemma exclusive_reachable w : reachable w -> exclusive w.
Proof.
  apply invariant_reachable.
  - intros w1 w2 _ Hr. unfold exclusive. now rewrite Hr.
  - intros script. apply preserves_await. intros ev w1. unfold exclusive.
    now rewrite eventHandler_keeps_radio.
  - intros b w1 H. destruct (startWebServer_self_fields b w1) as (_ & _ & _ & _ & E).
    unfold exclusive in *. simpl in E. now rewrite E.
  - intros w1 H. destruct (stopWebServer_self_fields w1) as (_ & _ & _ & _ & E).
    unfold exclusive in *. simpl in E. now rewrite E.
  - intros w1 _. apply sta_free_exclusive, stopWifi_establishes_free.
  - intros s p w1 H. destruct (decide (s = "")) as [->|Hne]; [exact H|].
    apply ap_free_exclusive, connectToWifi_ap_free, Hne.
  - intros w1 _. apply sta_free_exclusive, startProvisioning_sta_free.
  - intros ev w1. unfold exclusive. now rewrite eventHandler_keeps_radio.
  - intros status flash script. reflexivity.
Qed.

(** ** The supervisor *)

Lemma eventHandler_same_frame ev w : same_frame w (final (eventHandler ev w)).
Proof.
  destruct ev as [[]|addr]; try (repeat split; reflexivity).
  unfold eventHandler; unfold_cmd; simpl.
  destruct (m_retry_num (self w) <? MAX_RETRY); repeat split; reflexivity.
Qed.

Lemma same_frame_trans w1 w2 w3 : same_frame w1 w2 -> same_frame w2 w3 -> same_frame w1 w3.
Proof. unfold same_frame. intros (?&?&?&?) (?&?&?&?). repeat split; congruence. Qed.

Lemma eventHandler_settles ev w : event_bits w = 0 -> settled (final (eventHandler ev w)).
Proof.
  intros H0. unfold settled.
  destruct ev as [[]|addr]; try (left; exact H0).
  - change (WIFI_EVENT WIFI_EVENT_STA_DISCONNECTED) with STA_DISCONNECTED.
    destruct (Z_lt_dec (m_retry_num (self w)) MAX_RETRY) as [Hlt|Hge].
    + left. pose proof (f_equal v_bits (disconnect_below w Hlt)) as E.
      cbn [v_bits view_of] in E. congruence.
    + right; right.
      pose proof (f_equal v_bits (disconnect_at_bound w Hge)) as E.
      pose proof (f_equal v_connected (disconnect_at_bound w Hge)) as Ec.
      cbn [v_bits v_connected view_of] in E, Ec. rewrite E, Ec, H0. split; reflexivity.
  - right; left.
    pose proof (f_equal v_bits (got_ip_view addr w)) as E.
    pose proof (f_equal v_connected (got_ip_view addr w)) as Ec.
    cbn [v_bits v_connected view_of] in E, Ec. rewrite E, Ec, H0. split; reflexivity.
Qed.

(** The wait of [start]: it returns; it leaves storage, radio and server
    alone; and from agreeing flags it ends with agreeing flags, because it
    handles no further event once a flag is up. *)
Lemma await_spec script : forall w,
  settled w ->
  exists rest w', await EITHER_BIT false script w = Returned rest w' /\
    same_frame w w' /\ settled w'.
Proof.
  induction script as [|ev script IH]; intros w Hs; simpl.
  - exists [], w. destruct (negb _); repeat split; assumption.
  - destruct (negb (Z.land (event_bits w) EITHER_BIT =? 0)) eqn:Hhit.
    { exists (ev :: script), w. repeat split; assumption. }
    assert (H0 : event_bits w = 0).
    { apply negb_false_iff, Z.eqb_eq in Hhit.
      destruct Hs as [H|[[H _]|[H _]]]; rewrite H in *; [reflexivity | discriminate ..]. }
    rewrite eventHandler_returns.
    destruct (IH (final (eventHandler ev w)) (eventHandler_settles ev w H0))
      as (rest & w' & Hrun & Hfr & Hst).
    exists rest, w'. split; [exact Hrun|]. split; [|exact Hst].
    eapply same_frame_trans; [apply eventHandler_same_frame | exact Hfr].
Qed.


Lemma initialize_ok w : healthy w -> initialize w = Returned tt w.
Proof.
  intros H. unfold initialize, esp_netif_init, esp_event_loop_create_default,
    esp_event_handler_instance_register.
  erewrite bind_returned by (apply checked_call_ok; [apply H | reflexivity]).
  erewrite bind_returned by (apply checked_call_ok; [apply H | reflexivity]).
  erewrite bind_returned by (apply checked_call_ok; [apply H | reflexivity]).
  apply checked_call_ok; [apply H | reflexivity].
Qed.

(** The wait on a started radio, in terms of the events it handles. *)
Lemma wait_run w rest w1 :
  wifi_started (wifi (sdk w)) = true ->
  await EITHER_BIT false (radio_script (sdk w)) w = Returned rest w1 ->
  xEventGroupWaitBits EITHER_BIT false false w =
  Returned (event_bits w1) (upd_sdk (set_radio_script rest) w1).
Proof.
  intros Hst Hrun. unfold xEventGroupWaitBits.
  erewrite bind_returned by reflexivity. rewrite Hst.
  erewrite bind_returned by reflexivity.
  erewrite bind_returned by exact Hrun.
  reflexivity.
Qed.

(** The wait as [start] issues it, on a started radio with no flag up. *)
Lemma wait_spec w :
  wifi_started (wifi (sdk w)) = true -> event_bits w = 0 ->
  exists w', xEventGroupWaitBits EITHER_BIT false false w = Returned (event_bits w') w' /\
    same_frame w w' /\ settled w'.
Proof.
  intros Hst H0.
  destruct (await_spec (radio_script (sdk w)) w (or_introl H0)) as (rest & w1 & Hrun & Hfr & Hs).
  rewrite (wait_run w rest w1 Hst Hrun).
  exists (upd_sdk (set_radio_script rest) w1).
  split; [reflexivity|]. split; [exact Hfr | exact Hs].
Qed.

(** The wait on a radio that was never started: the timeout. *)
Lemma wait_silent w :
  wifi_started (wifi (sdk w)) = false ->
  xEventGroupWaitBits EITHER_BIT false false w =
  Returned (event_bits w) (upd_sdk (set_radio_script (radio_script (sdk w))) w).
Proof. intros Hst. unfold xEventGroupWaitBits. unfold_cmd. rewrite Hst. reflexivity. Qed.

(** A boot on a healthy SDK: [start] returns, on one of two paths. *)
Lemma start_boot status flash script :
  (forall fn, status fn = ESP_OK) ->
  let w0 := power_on status flash script in
  exists w', start w0 = Returned tt w' /\ settled w' /\
    ((wifi (sdk w') = ap_radio /\ m_server (self w') = Some (web_server true) /\
      bit_set WIFI_CONNECTED_BIT w' = false)
     \/
     (exists ssid password,
        stored_key w0 NVS_KEY_WIFI_SSID = Some ssid /\ c_str ssid <> "" /\
        wifi (sdk w') = sta_radio (c_str ssid) password /\
        m_server (self w') = Some (web_server false) /\
        event_bits w' = WIFI_CONNECTED_BIT /\ isConnected w' = true)) /\
    (stored_key w0 NVS_KEY_WIFI_SSID = None -> wifi (sdk w') = ap_radio).
Proof.
  intros Hst w0.
  assert (H : healthy w0) by exact Hst.
  unfold start.
  rewrite (bind_returned _ _ _ _ _ (initialize_ok w0 H)).
  pose proof (loadCredentials_spec w0 (H Fn_nvs_open) "" "") as Hload.
  destruct (stored_key w0 NVS_KEY_WIFI_SSID) as [ssid|] eqn:Hssid.
  2:{ rewrite (bind_returned _ _ _ _ _ Hload). simpl.
      rewrite (startProvisioning_spec w0 H).
      eexists. split; [reflexivity|]. split; [left; reflexivity|].
      split; [left; repeat split|intros _; reflexivity]. }
  rewrite (bind_returned _ _ _ _ _ Hload). simpl.
  set (password := match stored_key w0 NVS_KEY_WIFI_PASS with
                   | Some p => c_str p | None => "" end) in *.
  destruct (decide (c_str ssid = "")) as [Hempty|Hne].
  - rewrite Hempty.
    rewrite (bind_returned _ _ _ _ _ (connectToWifi_empty password w0)).
    erewrite bind_returned by (apply (wait_silent w0); reflexivity).
    simpl. rewrite startProvisioning_spec by exact H.
    eexists. split; [reflexivity|]. split; [left; reflexivity|].
    split; [left; repeat split|intros; discriminate].
  - rewrite (bind_returned _ _ _ _ _ (connectToWifi_spec (c_str ssid) password w0 H Hne)).
    set (w2 := {| self := set_server None (self w0);
                  sdk := set_wifi (sta_radio (c_str ssid) password) (sdk w0) |}).
    destruct (wait_spec w2 eq_refl eq_refl) as (w3 & Hwait & Hfr & Hs).
    erewrite bind_returned by exact Hwait.
    destruct Hfr as (Hstat & Hflash & Hwifi & Hsrv).
    destruct Hs as [Hb|[[Hb Hc]|[Hb Hc]]]; rewrite Hb; simpl.
    + rewrite startProvisioning_spec by (intros fn; rewrite Hstat; apply H).
      eexists. split; [reflexivity|]. split; [left; exact Hb|].
      split; [left; repeat split; unfold bit_set, event_bits in *; simpl; now rewrite Hb
             |intros; discriminate].
    + rewrite startWebServer_spec, Hsrv. simpl.
      destruct (decide _) as [_|Hko]; [|elim Hko; rewrite Hstat; apply H].
      eexists. split; [reflexivity|]. split; [right; left; split; assumption|].
      split; [|intros; discriminate].
      right. exists ssid, password. repeat split; first [assumption | exact Hwifi].
    + rewrite startProvisioning_spec by (intros fn; rewrite Hstat; apply H).
      eexists. split; [reflexivity|]. split; [right; right; split; assumption|].
      split; [left; repeat split; unfold bit_set, event_bits in *; simpl; now rewrite Hb
             |intros; discriminate].
Qed.

(** A wait that finds a flag up handles nothing. *)
Lemma await_hit mask script w :
  negb (Z.land (event_bits w) mask =? 0) = true ->
  await mask false script w = Returned script w.
Proof. intros H. destruct script; simpl; rewrite H; reflexivity. Qed.

(** Events that raise no flag are all handled by the wait. *)
Lemma await_quiet pre : forall w rest,
  event_bits w = 0 -> 0 <= m_retry_num (self w) ->
  quiet (m_retry_num (self w)) pre = true ->
  await EITHER_BIT false (pre ++ rest) w =
    await EITHER_BIT false rest (final (dispatch pre w)) /\
  event_bits (final (dispatch pre w)) = 0 /\
  same_frame w (final (dispatch pre w)).
Proof.
  induction pre as [|ev pre IH]; intros w rest H0 Hr Hq.
  { split; [reflexivity|]. split; [exact H0 | repeat split]. }
  rewrite dispatch_cons. rewrite <- app_comm_cons. cbn [await].
  rewrite H0. cbn [Z.land Z.eqb negb]. rewrite eventHandler_returns.
  set (w1 := final (eventHandler ev w)).
  assert (H1 : event_bits w1 = 0 /\ 0 <= m_retry_num (self w1) /\
               quiet (m_retry_num (self w1)) pre = true).
  { subst w1. destruct ev as [[]|addr]; simpl in Hq; try discriminate Hq;
      try (repeat split; assumption).
    change (WIFI_EVENT WIFI_EVENT_STA_DISCONNECTED) with STA_DISCONNECTED.
    apply andb_true_iff in Hq as [Hlt Hq]. apply Z.ltb_lt in Hlt.
    pose proof (f_equal v_bits (disconnect_below w Hlt)) as Eb.
    pose proof (f_equal v_retry (disconnect_below w Hlt)) as Er.
    cbn [v_bits v_retry view_of] in Eb, Er.
    unfold uint8_incr, MAX_RETRY in *. rewrite Z.mod_small in Er by lia.
    rewrite Eb, Er. repeat split; [assumption | lia | assumption]. }
  destruct H1 as (Hb1 & Hr1 & Hq1).
  destruct (IH w1 rest Hb1 Hr1 Hq1) as (Hrun & Hb & Hfr).
  split; [exact Hrun|]. split; [exact Hb|].
  eapply same_frame_trans; [apply eventHandler_same_frame | exact Hfr].
Qed.

(** A warm boot: credentials stored, and the radio delivers an address
    before anything raises a flag.  [start] returns on the connected path,
    with that address. *)
Lemma start_warm status flash pre addr post ssid :
  (forall fn, status fn = ESP_OK) ->
  let w0 := power_on status flash (pre ++ IP_EVENT_STA_GOT_IP addr :: post) in
  stored_key w0 NVS_KEY_WIFI_SSID = Some ssid -> c_str ssid <> "" ->
  quiet 0 pre = true ->
  exists w', start w0 = Returned tt w' /\
    wifi_started (wifi (sdk w')) = true /\ wifi_mode (wifi (sdk w')) = WIFI_MODE_STA /\
    m_server (self w') = Some (web_server false) /\
    isConnected w' = true /\ getIpAddress w' = snprintf 16 (ip4_to_string addr) /\
    radio_script (sdk w') = post.
Proof.
  intros Hst w0 Hssid Hne Hq.
  assert (H : healthy w0) by exact Hst.
  unfold start.
  rewrite (bind_returned _ _ _ _ _ (initialize_ok w0 H)).
  pose proof (loadCredentials_spec w0 (H Fn_nvs_open) "" "") as Hload.
  rewrite Hssid in Hload.
  rewrite (bind_returned _ _ _ _ _ Hload). simpl.
  set (password := match stored_key w0 NVS_KEY_WIFI_PASS with
                   | Some p => c_str p | None => "" end) in *.
  rewrite (bind_returned _ _ _ _ _ (connectToWifi_spec (c_str ssid) password w0 H Hne)).
  set (w2 := {| self := set_server None (self w0);
                sdk := set_wifi (sta_radio (c_str ssid) password) (sdk w0) |}).
  destruct (await_quiet pre w2 (IP_EVENT_STA_GOT_IP addr :: post) eq_refl (Z.le_refl 0) Hq)
    as (Hrun & Hb & Hfr).
  set (wd := final (dispatch pre w2)) in *.
  pose proof (got_ip_view addr wd) as Hg.
  set (w3 := final (eventHandler (IP_EVENT_STA_GOT_IP addr) wd)) in *.
  pose proof (eventHandler_same_frame (IP_EVENT_STA_GOT_IP addr) wd) as Hfr3.
  fold w3 in Hfr3.
  destruct (same_frame_trans _ _ _ Hfr Hfr3) as (Hstat & _ & Hwifi & Hsrv).
  assert (Hb3 : event_bits w3 = WIFI_CONNECTED_BIT).
  { pose proof (f_equal v_bits Hg) as E. cbn [v_bits view_of] in E. now rewrite E, Hb. }
  assert (Hwait : xEventGroupWaitBits EITHER_BIT false false w2 =
                  Returned (event_bits w3) (upd_sdk (set_radio_script post) w3)).
  { apply wait_run; [reflexivity|].
    change (radio_script (sdk w2)) with (pre ++ IP_EVENT_STA_GOT_IP addr :: post)%list.
    rewrite Hrun. cbn [await].
    fold wd. rewrite Hb. cbn [Z.land Z.eqb negb]. rewrite eventHandler_returns. fold w3.
    apply await_hit. rewrite Hb3. reflexivity. }
  rewrite Hb3 in Hwait.
  change (Z.lor WIFI_CONNECTED_BIT WIFI_FAIL_BIT) with EITHER_BIT.
  erewrite bind_returned by exact Hwait.
  change (negb (Z.land WIFI_CONNECTED_BIT WIFI_CONNECTED_BIT =? 0)) with true. cbv iota.
  rewrite startWebServer_spec. cbn [self upd_sdk]. rewrite Hsrv. cbn [m_server self w2 set_server].
  destruct (decide _) as [_|Hko]; [|elim Hko; cbn [sdk upd_sdk set_radio_script sdk_status];
                                    rewrite Hstat; apply H].
  eexists. split; [reflexivity|].
  cbn [wifi sdk upd_self upd_sdk set_radio_script self set_server isConnected getIpAddress
       m_is_connected m_current_ip radio_script].
  rewrite Hwifi.
  pose proof (f_equal v_connected Hg) as Ec. pose proof (f_equal v_ip Hg) as Ei.
  cbn [v_connected v_ip view_of] in Ec, Ei. unfold isConnected, getIpAddress in Ec, Ei.
  repeat split; assumption.
Qed.

(** C7.  A boot on a healthy SDK: [start] returns, either on the
    provisioning path, with the radio started as access point and exactly
    [GET /], [POST /connect] and [GET /favicon.ico] registered (no
    [GET /reset]), or on the connected path, with the radio started as
    station, [isConnected] true and exactly [GET /reset] and
    [GET /favicon.ico] registered (no [GET /]).  With no stored SSID it is
    the provisioning path; with a stored SSID and a radio that delivers an
    address before any flag is raised it is the connected path, and
    [getIpAddress] returns that address. *)
Theorem endpoints_by_mode status flash script :
  (forall fn, status fn = ESP_OK) ->
  exists w', start (power_on status flash script) = Returned tt w' /\
    (provisioning_path w' \/ connected_path w') /\
    (stored_key (power_on status flash script) NVS_KEY_WIFI_SSID = None ->
     provisioning_path w') /\
    (forall ssid pre addr post,
       stored_key (power_on status flash script) NVS_KEY_WIFI_SSID = Some ssid ->
       c_str ssid <> "" ->
       script = (pre ++ IP_EVENT_STA_GOT_IP addr :: post)%list -> quiet 0 pre = true ->
       connected_path w' /\ getIpAddress w' = snprintf 16 (ip4_to_string addr)).
Proof.
  intros H.
  destruct (start_boot status flash script H) as (w' & Hrun & _ & Hpath & Hcold).
  assert (Hprov : wifi (sdk w') = ap_radio ->
                  m_server (self w') = Some (web_server true) -> provisioning_path w').
  { intros Hw Hs. unfold provisioning_path, serves, endpoints. rewrite Hw, Hs. repeat split. }
  exists w'. split; [exact Hrun|]. split; [|split].
  - destruct Hpath as [(Hw & Hs & _) | (ssid & password & _ & _ & Hw & Hs & _ & Hc)].
    + left. apply Hprov; assumption.
    + right. unfold connected_path, serves, endpoints. rewrite Hw, Hs. repeat split. exact Hc.
  - intros Hnone. destruct Hpath as [(Hw & Hs & _) | (ssid & _ & Hsome & _)].
    + apply Hprov; assumption.
    + rewrite Hnone in Hsome. discriminate Hsome.
  - intros ssid pre addr post Hssid Hne -> Hq.
    destruct (start_warm status flash pre addr post ssid H Hssid Hne Hq)
      as (w2 & Hrun2 & Hst & Hmode & Hsrv & Hc & Hip & _).
    rewrite Hrun in Hrun2. injection Hrun2 as <-.
    split; [|exact Hip].
    unfold connected_path, serves, endpoints. rewrite Hsrv. repeat split; assumption.
Qed.

Lemma endpoints_by_mode_witness :
  exists w',
    start (provisioned "HomeNet" "hunter2" [STA_START; IP_EVENT_STA_GOT_IP HOME_ADDR]) =
      Returned tt w' /\
    connected_path w' /\ getIpAddress w' = "192.168.1.42".
Proof.
  destruct (endpoints_by_mode all_ok
              {[ NVS_NAMESPACE := {[ NVS_KEY_WIFI_SSID := "HomeNet";
                                     NVS_KEY_WIFI_PASS := "hunter2" ]} ]}
              [STA_START; IP_EVENT_STA_GOT_IP HOME_ADDR] (fun _ => eq_refl))
    as (w' & Hrun & _ & _ & Hwarm).
  exists w'. split; [exact Hrun|].
  apply (Hwarm "HomeNet" [STA_START] HOME_ADDR []); [reflexivity | discriminate | reflexivity ..].
Defined.

Lemma bit_set_lor bit bits x :
  negb (Z.land bits bit =? 0) = true -> negb (Z.land (Z.lor bits x) bit =? 0) = true.
Proof.
  rewrite !negb_true_iff, !Z.eqb_neq. intros H E. apply H.
  rewrite Z.land_lor_distr_l in E. apply Z.lor_eq_0_iff in E. apply E.
Qed.

Lemma eventHandler_bits ev w :
  event_bits (final (eventHandler ev w)) = event_bits w \/
  exists x, event_bits (final (eventHandler ev w)) = Z.lor (event_bits w) x.
Proof.
  destruct ev as [[]|addr]; try (left; reflexivity).
  - change (WIFI_EVENT WIFI_EVENT_STA_DISCONNECTED) with STA_DISCONNECTED.
    destruct (Z_lt_dec (m_retry_num (self w)) MAX_RETRY) as [Hlt|Hge].
    + left. exact (f_equal v_bits (disconnect_below w Hlt)).
    + right. eexists. exact (f_equal v_bits (disconnect_at_bound w Hge)).
  - right. eexists. exact (f_equal v_bits (got_ip_view addr w)).
Qed.

Lemma web_server_keeps (f : WifiManager -> Prop) :
  (forall m v, f (set_server v m) <-> f m) ->
  (forall b, preserves (fun w => f (self w)) (startWebServer b)) /\
  preserves (fun w => f (self w)) stopWebServer.
Proof.
  intros Hf. split.
  - intros b w H. rewrite startWebServer_spec. simpl.
    destruct (m_server (self w)); [exact H|].
    destruct (decide _); [|exact H]. simpl. apply Hf, H.
  - intros w H. rewrite stopWebServer_spec. simpl.
    destruct (m_server (self w)); [|exact H]. simpl. apply Hf, H.
Qed.

(** No operation clears a flag: one that is set stays set. *)
Lemma bit_set_exec o w bit : bit_set bit w = true -> bit_set bit (exec o w) = true.
Proof.
  destruct (web_server_keeps (fun m => negb (Z.land (m_wifi_event_group m) bit =? 0) = true))
    as [Hstart Hstop]; [reflexivity|].
  apply (manager_invariant_exec (fun w => bit_set bit w = true)).
  - intros w1 w2 Hs. unfold bit_set, event_bits. now rewrite Hs.
  - intros ev w1 H. unfold bit_set in *.
    destruct (eventHandler_bits ev w1) as [-> | [x ->]]; [exact H|].
    apply bit_set_lor, H.
  - exact Hstart.
  - exact Hstop.
Qed.



(** C8.  [stopWifi] always returns and leaves no server, the driver stopped
    and deinitialised and neither network interface; run again it changes
    nothing.  [connectToWifi] with an SSID and [startProvisioning] begin
    with it, so their outcome is the same from the torn-down state, and
    wherever they end the other role is not configured; an empty SSID makes
    no switch.  Hence in every reachable state the radio has at most one of
    the two roles configured. *)
Theorem mode_exclusivity :
  (forall w, stopWifi w = Returned tt (torn_down w) /\
     m_server (self (torn_down w)) = None /\ wifi (sdk (torn_down w)) = radio_off /\
     stopWifi (torn_down w) = Returned tt (torn_down w)) /\
  (forall w ssid password, ssid <> "" ->
     connectToWifi ssid password w = connectToWifi ssid password (torn_down w) /\
     ap_free (final (connectToWifi ssid password w)) /\
     (healthy w -> exists w', connectToWifi ssid password w = Returned ESP_OK w' /\
        wifi (sdk w') = sta_radio ssid password)) /\
  (forall w password, connectToWifi "" password w = Returned ESP_ERR_INVALID_ARG w) /\
  (forall w,
     startProvisioning w = startProvisioning (torn_down w) /\
     sta_free (final (startProvisioning w)) /\
     (healthy w -> exists w', startProvisioning w = Returned tt w' /\
        wifi (sdk w') = ap_radio)) /\
  (forall w, reachable w -> exclusive w).
Proof.
  split; [|split; [|split; [|split]]].
  - intros w. rewrite stopWifi_spec. repeat split.
  - intros w ssid password Hne. split; [|split].
    + unfold connectToWifi. rewrite bool_decide_eq_false_2 by exact Hne.
      rewrite !(bind_returned _ _ _ _ _ (stopWifi_spec _)). reflexivity.
    + apply connectToWifi_ap_free, Hne.
    + intros H. eexists. split; [apply connectToWifi_spec; assumption | reflexivity].
  - reflexivity.
  - intros w. split; [|split].
    + unfold startProvisioning.
      rewrite !(bind_returned _ _ _ _ _ (stopWifi_spec _)). reflexivity.
    + apply startProvisioning_sta_free.
    + intros H. eexists. split; [apply startProvisioning_spec; assumption | reflexivity].
  - apply exclusive_reachable.
Qed.

Lemma mode_exclusivity_witness :
  ap_free (final (connectToWifi "HomeNet" "hunter2" (exec OpStartProvisioning blank))) /\
  exclusive (exec_all [OpStartProvisioning; OpConnectToWifi "HomeNet" "hunter2"] blank).
Proof.
  split.
  - apply (proj1 (proj2 mode_exclusivity)). discriminate.
  - apply (proj2 (proj2 (proj2 (proj2 mode_exclusivity)))).
    exists all_ok, ∅, [], [OpStartProvisioning; OpConnectToWifi "HomeNet" "hunter2"].
    reflexivity.
Defined.

(** ** Form bodies and [httpd_query_key_value] *)

Lemma append_cons c a b : String c a +:+ b = String c (a +:+ b).
Proof. reflexivity. Qed.

Lemma append_nil b : "" +:+ b = b.
Proof. reflexivity. Qed.

Lemma length_app_str a b : String.length (a +:+ b) = (String.length a + String.length b)%nat.
Proof.
  induction a as [|c a IH]; [reflexivity|].
  rewrite append_cons. simpl. now rewrite IH.
Qed.

Lemma app_nil_r_str a : a +:+ "" = a.
Proof. induction a as [|c a IH]; [reflexivity|]. rewrite append_cons. now f_equal. Qed.

Lemma strchr_found c a b :
  has_char c a = false -> strchr c (a +:+ String c b) = Some (a, b).
Proof.
  induction a as [|x a IH]; [rewrite append_nil|rewrite append_cons]; simpl.
  - now rewrite Ascii.eqb_refl.
  - intros H. apply orb_false_iff in H as [Hx Ha]. rewrite Hx, (IH Ha). reflexivity.
Qed.

Lemma strchr_absent c a : has_char c a = false -> strchr c a = None.
Proof.
  induction a as [|x a IH]; simpl; [reflexivity|].
  intros H. apply orb_false_iff in H as [Hx Ha]. rewrite Hx, (IH Ha). reflexivity.
Qed.

Lemma nul_free_app a b : nul_free (a +:+ b) = nul_free a && nul_free b.
Proof.
  induction a as [|x a IH]; [reflexivity|].
  rewrite append_cons. simpl. now rewrite IH, andb_assoc.
Qed.

(** The separators spelled out. *)
Lemma form_body_cons k v rest :
  form_body ((k, v) :: rest) =
  k +:+ String "=" (v +:+ match rest with
                          | [] => ""
                          | _ :: _ => String "&" (form_body rest)
                          end).
Proof. destruct rest; reflexivity. Qed.

Lemma form_body_nul_free fields : Forall field_ok fields -> nul_free (form_body fields) = true.
Proof.
  induction 1 as [|[k v] rest (_ & _ & Hk & _ & Hv) _ IH]; [reflexivity|].
  rewrite form_body_cons. simpl in Hk, Hv.
  rewrite nul_free_app, Hk. simpl. rewrite nul_free_app, Hv. simpl.
  destruct rest; [reflexivity | exact IH].
Qed.

Lemma form_lookup_field_ok key fields v :
  Forall field_ok fields -> form_lookup key fields = Some v ->
  has_char "&" v = false /\ nul_free v = true.
Proof.
  unfold form_lookup. induction 1 as [|[k x] rest (_ & _ & _ & Ha & Hn) _ IH]; simpl.
  - discriminate.
  - destruct (names key (k, x)); simpl; [intros [= <-]; split; assumption | exact IH].
Qed.

(** What the caller's buffer of [n] bytes receives for the value [v]. *)
Lemma query_form key n fields :
  Forall field_ok fields ->
  forall fuel, (String.length (form_body fields) < fuel)%nat ->
  query_loop fuel (form_body fields) key n =
  match form_lookup key fields with
  | None => (ESP_ERR_NOT_FOUND, None)
  | Some v =>
      if (n <? S (String.length v))%nat
      then (ESP_ERR_HTTPD_RESULT_TRUNC, Some (take (Nat.pred n) v))
      else (ESP_OK, Some v)
  end.
Proof.
  unfold form_lookup.
  induction 1 as [|[k v] rest (Hke & Hka & Hkn & Hva & Hvn) Hrest IH]; intros fuel Hfuel.
  { destruct fuel; reflexivity. }
  destruct fuel as [|fuel]; [lia|].
  rewrite form_body_cons in *. simpl in Hke, Hka, Hkn, Hva, Hvn.
  set (tail := match rest with [] => "" | _ :: _ => String "&" (form_body rest) end) in *.
  cbn [query_loop].
  rewrite length_app_str in *. cbn [String.length] in *.
  replace (String.length k + S (String.length (v +:+ tail)) =? 0)%nat with false
    by (symmetry; apply Nat.eqb_neq; lia).
  rewrite (strchr_found "=" k _ Hke).
  cbn [List.find]. unfold names at 1. cbn [fst snd].
  rewrite <- negb_andb.
  destruct ((String.length k =? String.length key)%nat && strcaseeq k key); cbn [negb].
  - (* the field is the one asked for *)
    assert (Hval : match strchr "&" (v +:+ tail) with Some (x, _) => x | None => v +:+ tail end = v).
    { subst tail. destruct rest.
      - rewrite app_nil_r_str, (strchr_absent _ _ Hva). reflexivity.
      - now rewrite (strchr_found "&" v _ Hva). }
    rewrite Hval. simpl fmap. unfold strlcpy.
    destruct (n <? S (String.length v))%nat eqn:Hn.
    + apply Nat.ltb_lt in Hn. rewrite Nat.min_r by lia. reflexivity.
    + apply Nat.ltb_ge in Hn. rewrite Nat.min_l by lia. simpl.
      rewrite take_all by lia. reflexivity.
  - (* another field: on to the text after the next [&] *)
    subst tail. destruct rest as [|f rest].
    + rewrite app_nil_r_str, (strchr_absent _ _ Hva). reflexivity.
    + rewrite (strchr_found "&" v _ Hva).
      apply IH. rewrite length_app_str in Hfuel. cbn [String.length] in Hfuel. lia.
Qed.

Lemma httpd_query_key_value_form key n fields :
  Forall field_ok fields ->
  httpd_query_key_value (form_body fields) key n =
  match form_lookup key fields with
  | None => (ESP_ERR_NOT_FOUND, None)
  | Some v =>
      if (n <? S (String.length v))%nat
      then (ESP_ERR_HTTPD_RESULT_TRUNC, Some (take (Nat.pred n) v))
      else (ESP_OK, Some v)
  end.
Proof. intros H. apply query_form; [exact H | lia]. Qed.

(** ** The submit handler *)

Lemma recv_form fields :
  Forall field_ok fields ->
  (String.length (form_body fields) <= 127)%nat ->
  httpd_req_recv (post (form_body fields)) (128 - 1) =
    (Z.of_nat (String.length (form_body fields)), form_body fields) /\
  c_str (form_body fields) = form_body fields.
Proof.
  intros Hok Hlen. split.
  - unfold httpd_req_recv, post. cbn [req_sock_err req_content].
    change (128 - 1)%nat with 127%nat. rewrite take_all by exact Hlen. reflexivity.
  - apply c_str_nul_free, form_body_nul_free, Hok.
Qed.

(** A form without a field named ssid: 400, nothing else. *)
Lemma connectPostHandler_no_ssid w fields :
  Forall field_ok fields ->
  (0 < String.length (form_body fields) <= 127)%nat ->
  form_lookup "ssid" fields = None ->
  connectPostHandler (post (form_body fields)) w =
  Returned ESP_FAIL
    (upd_sdk (fun s => set_sdk_log
       (sdk_log s ++ [Eff_httpd_resp 400 "Missing 'ssid' parameter"]) s) w).
Proof.
  intros Hok [Hpos Hlen] Hnone. unfold connectPostHandler.
  destruct (recv_form fields Hok Hlen) as [-> Hc].
  replace (Z.of_nat (String.length (form_body fields)) <=? 0) with false
    by (symmetry; apply Z.leb_gt; lia).
  rewrite Hc, (httpd_query_key_value_form "ssid" 33 fields Hok), Hnone.
  reflexivity.
Qed.

(** A form with a field named ssid that fits the buffers: the confirmation
    page, the credentials saved, the restart. *)
Lemma connectPostHandler_ssid w fields s :
  Forall field_ok fields ->
  (String.length (form_body fields) <= 127)%nat ->
  form_lookup "ssid" fields = Some s -> (String.length s <= 32)%nat ->
  (String.length (default "" (form_lookup "password" fields)) <= 64)%nat ->
  connectPostHandler (post (form_body fields)) w =
  (httpd_resp_send connect_resp_str;;
   _ ← saveCredentials s (default "" (form_lookup "password" fields));
   vTaskDelay 1000;;
   esp_restart;;
   mret ESP_OK) w.
Proof.
  intros Hok Hlen Hs Hs32 Hp64. unfold connectPostHandler.
  destruct (recv_form fields Hok Hlen) as [-> Hc].
  assert (Hpos : (0 < String.length (form_body fields))%nat).
  { destruct fields as [|[k v] rest]; [discriminate Hs|].
    rewrite form_body_cons, length_app_str. simpl. lia. }
  replace (Z.of_nat (String.length (form_body fields)) <=? 0) with false
    by (symmetry; apply Z.leb_gt; lia).
  rewrite Hc, (httpd_query_key_value_form "ssid" 33 fields Hok), Hs.
  replace (33 <? S (String.length s))%nat with false by (symmetry; apply Nat.ltb_ge; lia).
  rewrite (httpd_query_key_value_form "password" 65 fields Hok).
  destruct (form_lookup "password" fields) as [p|]; simpl in *.
  - replace (65 <? S (String.length p))%nat with false by (symmetry; apply Nat.ltb_ge; lia).
    reflexivity.
  - reflexivity.
Qed.

(** C5 (amended).  For a form body of at most 127 bytes whose fields the
    form syntax carries as they are, on a store that opens and commits, with
    the ssid value within 32 bytes and the password value within 64: when a
    field named ssid is present the handler answers 200, writes exactly the
    pair (ssid value, password value) under the two credential keys, leaving
    every other key as it was, and restarts; the password is the empty
    string when no field named password is present.  When the body is not
    empty and has no field named ssid the handler answers 400 and returns
    [ESP_FAIL], with storage as it was and no restart.  On an empty body the
    handler returns [ESP_FAIL] with no response at all, again with no write
    and no restart. *)
Theorem post_contract (w : world) (fields : list (string * string)) :
  Forall field_ok fields ->
  (String.length (form_body fields) <= 127)%nat ->
  (forall s, form_lookup "ssid" fields = Some s ->
     let p := default "" (form_lookup "password" fields) in
     (String.length s <= 32)%nat -> (String.length p <= 64)%nat ->
     sdk_status (sdk w) Fn_nvs_open = ESP_OK ->
     sdk_status (sdk w) Fn_nvs_commit = ESP_OK ->
     exists w', connectPostHandler (post (form_body fields)) w = Halted Restarted w' /\
       stored_key w' NVS_KEY_WIFI_SSID = Some s /\
       stored_key w' NVS_KEY_WIFI_PASS = Some p /\
       (forall key, key <> NVS_KEY_WIFI_SSID -> key <> NVS_KEY_WIFI_PASS ->
          stored_key w' key = stored_key w key) /\
       sdk_log (sdk w') =
         (sdk_log (sdk w) ++ [Eff_httpd_resp 200 connect_resp_str; Eff_esp_restart])%list) /\
  (form_lookup "ssid" fields = None -> fields <> [] ->
     exists w', connectPostHandler (post (form_body fields)) w = Returned ESP_FAIL w' /\
       nvs_flash (sdk w') = nvs_flash (sdk w) /\
       sdk_log (sdk w') =
         (sdk_log (sdk w) ++ [Eff_httpd_resp 400 "Missing 'ssid' parameter"])%list) /\
  connectPostHandler (post "") w = Returned ESP_FAIL w.
Proof.
  intros Hok Hlen. split; [|split; [|reflexivity]].
  - intros s Hs p Hs32 Hp64 Hopen Hcommit.
    rewrite (connectPostHandler_ssid w fields s Hok Hlen Hs Hs32 Hp64). fold p.
    unfold httpd_resp_send. erewrite bind_returned by reflexivity.
    set (w1 := upd_sdk _ w).
    erewrite bind_returned by (apply (saveCredentials_spec w1); assumption).
    unfold vTaskDelay, esp_restart. unfold_cmd. simpl.
    eexists. split; [reflexivity|].
    assert (Hsn : c_str s = s).
    { apply c_str_nul_free. eapply form_lookup_field_ok; eassumption. }
    assert (Hpn : c_str p = p).
    { subst p. destruct (form_lookup "password" fields) as [q|] eqn:Hq; [|reflexivity].
      apply c_str_nul_free. eapply form_lookup_field_ok; eassumption. }
    pose proof (stored_key_after_save w1 s p) as Hkey.
    repeat split.
    + etransitivity; [exact (Hkey NVS_KEY_WIFI_SSID)|]. simpl. now rewrite Hsn.
    + etransitivity; [exact (Hkey NVS_KEY_WIFI_PASS)|]. simpl. now rewrite Hpn.
    + intros key H1 H2. etransitivity; [exact (Hkey key)|].
      destruct (decide (key = NVS_KEY_WIFI_PASS)); [contradiction|].
      destruct (decide (key = NVS_KEY_WIFI_SSID)); [contradiction|]. reflexivity.
    + subst w1. simpl. now rewrite <- List.app_assoc.
  - intros Hnone Hne.
    rewrite (connectPostHandler_no_ssid w fields Hok); [| |exact Hnone].
    + eexists. split; [reflexivity|]. split; reflexivity.
    + split; [|exact Hlen]. destruct fields as [|[k v] rest]; [contradiction|].
      rewrite form_body_cons, length_app_str. simpl. lia.
Qed.

Lemma post_contract_witness :
  exists w',
    connectPostHandler (post "ssid=Foo&password=Bar") blank = Halted Restarted w' /\
    stored_key w' NVS_KEY_WIFI_SSID = Some "Foo" /\
    stored_key w' NVS_KEY_WIFI_PASS = Some "Bar".
Proof.
  assert (Hok : Forall field_ok [("ssid", "Foo"); ("password", "Bar")]).
  { repeat constructor. }
  destruct (post_contract blank [("ssid", "Foo"); ("password", "Bar")] Hok) as [H _].
  { vm_compute. lia. }
  destruct (H "Foo" eq_refl) as (w' & Hrun & Hs & Hp & _); try reflexivity.
  { vm_compute. lia. }
  { vm_compute. lia. }
  exists w'. repeat split; assumption.
Defined.

(** C5 as stated fails: the empty body has no ssid key, and the handler
    answers nothing at all to it: it returns [ESP_FAIL] with the state
    untouched, so no 400 has been sent. *)
Lemma post_contract_as_stated_fails :
  form_lookup "ssid" [] = None /\ form_body [] = "" /\
  connectPostHandler (post "") blank = Returned ESP_FAIL blank /\
  ~ answered_400 (final (connectPostHandler (post "") blank)) = true.
Proof.
  repeat split. intros H. vm_compute in H. discriminate H.
Qed.

(** ** The provisioning page *)

Lemma take_skip n s : take n s +:+ skip n s = s.
Proof.
  revert s. induction n as [|n IH]; intros [|c s]; try reflexivity.
  simpl. rewrite append_cons. now rewrite IH.
Qed.

Lemma length_take n s : String.length (take n s) = Nat.min n (String.length s).
Proof.
  revert s. induction n as [|n IH]; intros [|c s]; try reflexivity.
  simpl. now rewrite IH.
Qed.

Lemma length_skip n s : String.length (skip n s) = (String.length s - n)%nat.
Proof.
  revert s. induction n as [|n IH]; intros [|c s]; try reflexivity.
  simpl. apply IH.
Qed.

Lemma take_more n m s : take n s +:+ take m (skip n s) = take (n + m) s.
Proof.
  revert s. induction n as [|n IH]; intros s.
  - reflexivity.
  - destruct s as [|c s]; [destruct m; reflexivity|].
    simpl. rewrite append_cons. now rewrite IH.
Qed.

Lemma take_empty_iff n s : (0 < n)%nat -> String.length (take n s) = O -> s = "".
Proof.
  intros Hn. destruct n; [lia|]. destruct s; [reflexivity|]. simpl. discriminate.
Qed.

(** A sound file on a sound connection: every byte goes out, in chunks of at
    most 256 bytes, none of them empty, and the empty chunk closes the
    response. *)
Lemma send_file_sound fuel : forall data,
  (String.length data < fuel)%nat ->
  exists cs,
    send_file fuel {| fd_rest := data; fd_good_reads := None |} None =
      Some (ESP_OK, (map Out_chunk cs ++ [Out_chunk ""])%list) /\
    body_of (map Out_chunk cs) = data /\
    Forall (fun c => (0 < String.length c <= 256)%nat) cs.
Proof.
  induction fuel as [|fuel IH]; intros data Hfuel; [lia|].
  cbn [send_file read fd_good_reads fd_rest spend fmap option_fmap option_map].
  destruct (0 <? Z.of_nat (String.length (take 256 data))) eqn:Hread.
  - apply Z.ltb_lt in Hread.
    assert (Hlen : (String.length (skip 256 data) < fuel)%nat).
    { rewrite length_skip. rewrite length_take in Hread. lia. }
    destruct (IH (skip 256 data) Hlen) as (cs & Hrun & Hbody & Hall).
    exists (take 256 data :: cs). rewrite Hrun. split; [reflexivity|]. split.
    + cbn [map body_of]. rewrite Hbody. apply take_skip.
    + constructor; [|exact Hall]. rewrite length_take in *. lia.
  - apply Z.ltb_ge in Hread. exists []. split; [reflexivity|]. split; [|constructor].
    symmetry. apply (take_empty_iff 256); lia.
Qed.

Lemma take_nil n : take n "" = "".
Proof. destruct n; reflexivity. Qed.

(** The medium fails after [k] reads: the loop ends there as at the end of
    the file. *)
Lemma send_file_read_fault fuel : forall rest k,
  (String.length rest < fuel)%nat ->
  exists out,
    send_file fuel {| fd_rest := rest; fd_good_reads := Some k |} None =
      Some (ESP_OK, (out ++ [Out_chunk ""])%list) /\
    body_of out = take (256 * k) rest.
Proof.
  induction fuel as [|fuel IH]; intros rest k Hfuel; [lia|].
  cbn [send_file]. unfold read. cbn [fd_good_reads fd_rest].
  destruct k as [|k].
  - exists []. split; [reflexivity|]. rewrite Nat.mul_0_r. destruct rest; reflexivity.
  - cbn [spend fmap option_fmap option_map Nat.pred].
    destruct (0 <? Z.of_nat (String.length (take 256 rest))) eqn:Hread.
    + apply Z.ltb_lt in Hread.
      assert (Hlen : (String.length (skip 256 rest) < fuel)%nat).
      { rewrite length_skip. rewrite length_take in Hread. lia. }
      destruct (IH (skip 256 rest) k Hlen) as (out & Hrun & Hbody).
      rewrite Hrun. exists (Out_chunk (take 256 rest) :: out). split; [reflexivity|].
      cbn [body_of]. rewrite Hbody, take_more. f_equal. lia.
    + apply Z.ltb_ge in Hread. exists []. split; [reflexivity|].
      assert (rest = "") as -> by (apply (take_empty_iff 256); lia).
      now rewrite take_nil.
Qed.

(** The connection fails after [k] chunks, with more of the file to come:
    the handler gives up, [k] full chunks out and no closing chunk. *)
Lemma send_file_send_fault fuel : forall rest k,
  (String.length rest < fuel)%nat -> (256 * k < String.length rest)%nat ->
  exists cs,
    send_file fuel {| fd_rest := rest; fd_good_reads := None |} (Some k) =
      Some (ESP_FAIL, map Out_chunk cs) /\
    body_of (map Out_chunk cs) = take (256 * k) rest /\
    List.length cs = k /\ Forall (fun c => String.length c = 256%nat) cs.
Proof.
  induction fuel as [|fuel IH]; intros rest k Hfuel Hk; [lia|].
  cbn [send_file]. unfold read. cbn [fd_good_reads fd_rest spend fmap option_fmap option_map].
  assert (Hread : (0 <? Z.of_nat (String.length (take 256 rest))) = true).
  { apply Z.ltb_lt. rewrite length_take. lia. }
  rewrite Hread.
  destruct k as [|k].
  - exists []. split; [reflexivity|]. rewrite Nat.mul_0_r.
    split; [destruct rest; reflexivity|]. split; [reflexivity | constructor].
  - cbn [Nat.pred].
    assert (Hlen : (String.length (skip 256 rest) < fuel)%nat).
    { rewrite length_skip. lia. }
    assert (Hk' : (256 * k < String.length (skip 256 rest))%nat).
    { rewrite length_skip. lia. }
    destruct (IH (skip 256 rest) k Hlen Hk') as (cs & Hrun & Hbody & Hn & Hall).
    rewrite Hrun. exists (take 256 rest :: cs). split; [reflexivity|]. split; [|split].
    + cbn [map body_of]. rewrite Hbody, take_more. f_equal. lia.
    + cbn [List.length]. now rewrite Hn.
    + constructor; [|exact Hall]. rewrite length_take. lia.
Qed.

(** X1.  With the page on a sound file system and a client that takes every
    chunk, [provisioningGetHandler] returns [ESP_OK] after announcing
    [text/html] and sending the whole file, byte for byte and in order, in
    chunks of 1 to 256 bytes, followed by the empty chunk that closes the
    response. *)
Theorem page_streamed (fs : gmap string file) (f : file) :
  fs !! "/littlefs/index.html" = Some f ->
  f_openable f = true -> f_good_reads f = None ->
  exists cs,
    provisioningGetHandler fs None =
      Some (ESP_OK, (Out_set_type "text/html" :: map Out_chunk cs ++ [Out_chunk ""])%list) /\
    body_of (map Out_chunk cs) = f_data f /\
    Forall (fun c => (0 < String.length c <= 256)%nat) cs.
Proof.
  intros Hf Hopen Hreads. unfold provisioningGetHandler.
  change (LFS_BASE_PATH +:+ "/index.html") with "/littlefs/index.html".
  rewrite Hf, Hopen, Hreads. cbn [negb].
  destruct (send_file_sound (S (String.length (f_data f))) (f_data f) (Nat.lt_succ_diag_r _))
    as (cs & -> & Hbody & Hall).
  exists cs. repeat split; assumption.
Qed.

Lemma page_streamed_witness :
  exists cs,
    provisioningGetHandler (page_fs "<form></form>") None =
      Some (ESP_OK, (Out_set_type "text/html" :: map Out_chunk cs ++ [Out_chunk ""])%list) /\
    body_of (map Out_chunk cs) = "<form></form>".
Proof.
  destruct (page_streamed (page_fs "<form></form>")
              {| f_data := "<form></form>"; f_openable := true; f_good_reads := None |}
              eq_refl eq_refl eq_refl) as (cs & Hrun & Hbody & _).
  exists cs. split; assumption.
Defined.

Lemma take_take a : forall b s, take a (take b s) = take (Nat.min a b) s.
Proof.
  induction a as [|a IH]; intros [|b] [|c s]; try reflexivity.
  simpl. now rewrite IH.
Qed.

Lemma take_app_plus a n b : take (String.length a + n) (a +:+ b) = a +:+ take n b.
Proof.
  induction a as [|c a IH]; [now rewrite append_nil, append_nil|].
  rewrite !append_cons. simpl. now rewrite IH.
Qed.

Lemma readable_nil reads : readable "" reads = "".
Proof. destruct reads; [apply take_nil | reflexivity]. Qed.

Lemma accepted_nil sends : accepted sends "" = "".
Proof. destruct sends; [apply take_nil | reflexivity]. Qed.

Lemma refuses_nil sends : refuses sends "" = false.
Proof. destruct sends; [apply Nat.ltb_ge; simpl; lia | reflexivity]. Qed.

(** What is read after a first chunk is what is readable of the rest. *)
Lemma readable_step rest reads :
  reads <> Some O ->
  readable rest reads = take 256 rest +:+ readable (skip 256 rest) (spend reads).
Proof.
  destruct reads as [[|r]|]; intros Hr; [now elim Hr| |].
  - cbn [readable spend fmap option_fmap option_map Nat.pred].
    rewrite take_more. f_equal. lia.
  - cbn [readable spend fmap option_fmap option_map]. symmetry. apply take_skip.
Qed.

(** The loop of the handler, for every file, medium and connection: it
    comes to an end, fails exactly when the connection refuses a chunk, and
    has sent what the connection took of what was readable. *)
Lemma send_file_spec fuel : forall rest reads sends,
  (String.length rest < fuel)%nat ->
  exists out,
    send_file fuel {| fd_rest := rest; fd_good_reads := reads |} sends =
      Some (if refuses sends (readable rest reads) then ESP_FAIL else ESP_OK, out) /\
    body_of out = accepted sends (readable rest reads).
Proof.
  induction fuel as [|fuel IH]; intros rest reads sends Hfuel; [lia|].
  cbn [send_file]. unfold read. cbn [fd_good_reads fd_rest].
  destruct (decide (reads = Some O)) as [->|Hreads].
  { cbn [readable]. rewrite Nat.mul_0_r.
    assert (E : take 0 rest = "") by (destruct rest; reflexivity). rewrite E.
    rewrite refuses_nil, accepted_nil.
    change (0 <? -1) with false. cbv iota.
    destruct sends as [[|k]|]; eexists; split; reflexivity. }
  assert (Hread : match reads with
                  | Some O => (-1, "", {| fd_rest := rest; fd_good_reads := reads |})
                  | _ => (Z.of_nat (String.length (take 256 rest)), take 256 rest,
                          {| fd_rest := skip 256 rest; fd_good_reads := spend reads |})
                  end =
                  (Z.of_nat (String.length (take 256 rest)), take 256 rest,
                   {| fd_rest := skip 256 rest; fd_good_reads := spend reads |})).
  { destruct reads as [[|r]|]; [now elim Hreads | reflexivity | reflexivity]. }
  rewrite Hread. clear Hread.
  rewrite (readable_step rest reads Hreads).
  set (chunk := take 256 rest). set (avail' := readable (skip 256 rest) (spend reads)).
  pose proof (length_take 256 rest) as Hchunk. fold chunk in Hchunk.
  destruct (0 <? Z.of_nat (String.length chunk)) eqn:Hpos.
  2:{ apply Z.ltb_ge in Hpos.
      assert (rest = "") as -> by (apply (take_empty_iff 256); [lia | fold chunk; lia]).
      subst chunk avail'. cbn [take skip]. rewrite readable_nil, append_nil.
      rewrite refuses_nil, accepted_nil.
      destruct sends as [[|k]|]; eexists; split; reflexivity. }
  apply Z.ltb_lt in Hpos.
  destruct sends as [[|k]|].
  - exists []. cbn [refuses accepted]. rewrite Nat.mul_0_r.
    replace (0 <? String.length (chunk +:+ avail'))%nat with true
      by (symmetry; apply Nat.ltb_lt; rewrite length_app_str; lia).
    split; [reflexivity|]. destruct (chunk +:+ avail'); reflexivity.
  - assert (Hlen : (String.length (skip 256 rest) < fuel)%nat).
    { rewrite length_skip. lia. }
    destruct (IH (skip 256 rest) (spend reads) (Some k) Hlen) as (out & Hrun & Hbody).
    fold avail' in Hrun, Hbody.
    cbn [spend fmap option_fmap option_map Nat.pred]. rewrite Hrun.
    exists (Out_chunk chunk :: out). cbn [body_of refuses accepted] in *. rewrite Hbody.
    destruct (decide (String.length chunk = 256%nat)) as [Hfull|Hshort].
    + split.
      * do 2 f_equal. rewrite length_app_str, Hfull.
        destruct (256 * k <? String.length avail')%nat eqn:E.
        -- apply Nat.ltb_lt in E.
           replace (256 * S k <? 256 + String.length avail')%nat with true
             by (symmetry; apply Nat.ltb_lt; lia). reflexivity.
        -- apply Nat.ltb_ge in E.
           replace (256 * S k <? 256 + String.length avail')%nat with false
             by (symmetry; apply Nat.ltb_ge; lia). reflexivity.
      * replace (256 * S k)%nat with (String.length chunk + 256 * k)%nat by lia.
        symmetry. apply take_app_plus.
    + assert (Hrest : skip 256 rest = "").
      { assert (String.length (skip 256 rest) = O) by (rewrite length_skip; lia).
        destruct (skip 256 rest); [reflexivity | discriminate]. }
      subst avail'. rewrite Hrest, readable_nil in *.
      rewrite take_nil, app_nil_r_str.
      replace (256 * k <? String.length "")%nat with false
        by (symmetry; apply Nat.ltb_ge; simpl; lia).
      replace (256 * S k <? String.length chunk)%nat with false
        by (symmetry; apply Nat.ltb_ge; lia).
      split; [reflexivity|]. symmetry. apply take_all. lia.
  - assert (Hlen : (String.length (skip 256 rest) < fuel)%nat).
    { rewrite length_skip. lia. }
    destruct (IH (skip 256 rest) (spend reads) None Hlen) as (out & Hrun & Hbody).
    fold avail' in Hrun, Hbody.
    cbn [spend fmap option_fmap option_map]. rewrite Hrun.
    exists (Out_chunk chunk :: out). cbn [body_of refuses accepted] in *.
    rewrite Hbody. split; reflexivity.
Qed.

Lemma accepted_readable_prefix sends reads data :
  exists m, accepted sends (readable data reads) = take m data.
Proof.
  destruct sends as [k|], reads as [r|]; cbn [accepted readable].
  - eexists. apply take_take.
  - eexists. reflexivity.
  - eexists. reflexivity.
  - exists (String.length data). symmetry. apply take_all. lia.
Qed.

(** X2.  [provisioningGetHandler] always comes to an end.  Without the file
    it answers 404 and nothing else, with a file it cannot open 500 and
    nothing else, both with [ESP_FAIL].  Otherwise, whatever fails on the
    way, it announces [text/html] and sends in order exactly the bytes the
    connection takes of what the medium lets it read, a beginning of the
    file; and it returns [ESP_FAIL] when the connection refuses a chunk, and
    [ESP_OK] when it does not. *)
Theorem page_never_garbled (fs : gmap string file) (sends : option nat) :
  exists e out,
    provisioningGetHandler fs sends = Some (e, out) /\
    match fs !! "/littlefs/index.html" with
    | None => e = ESP_FAIL /\ out = [Out_status 404]
    | Some f =>
        if f_openable f
        then
          let avail := readable (f_data f) (f_good_reads f) in
          e = (if refuses sends avail then ESP_FAIL else ESP_OK) /\
          (exists chunks, out = Out_set_type "text/html" :: chunks /\
             body_of chunks = accepted sends avail) /\
          (exists m, body_of out = take m (f_data f))
        else e = ESP_FAIL /\ out = [Out_status 500]
    end.
Proof.
  unfold provisioningGetHandler.
  change (LFS_BASE_PATH +:+ "/index.html") with "/littlefs/index.html".
  destruct (fs !! "/littlefs/index.html") as [f|]; [|eexists _, _; repeat split].
  destruct (f_openable f); cbn [negb]; [|eexists _, _; repeat split].
  destruct (send_file_spec (S (String.length (f_data f))) (f_data f) (f_good_reads f) sends
              (Nat.lt_succ_diag_r _)) as (out & -> & Hbody).
  eexists _, _. split; [reflexivity|]. cbv zeta.
  split; [reflexivity|]. split.
  - exists out. split; [reflexivity | exact Hbody].
  - cbn [body_of]. rewrite Hbody. apply accepted_readable_prefix.
Qed.

Lemma page_never_garbled_witness :
  exists out,
    provisioningGetHandler (page_fs "<form></form>") (Some 5%nat) = Some (ESP_OK, out) /\
    body_of out = "<form></form>".
Proof.
  destruct (page_never_garbled (page_fs "<form></form>") (Some 5%nat))
    as (e & out & Hrun & Hpage).
  vm_compute in Hpage. destruct Hpage as (-> & (chunks & -> & Hbody) & _).
  exists (Out_set_type "text/html" :: chunks). split; [exact Hrun | exact Hbody].
Defined.

(** X3.  When the medium fails after [k] good reads, the handler treats the
    failure as the end of the file: it sends what it has read, the first
    [256 * k] bytes of the file (all of it when it is shorter), closes the
    response and returns [ESP_OK]. *)
Theorem page_read_error (fs : gmap string file) (f : file) (k : nat) :
  fs !! "/littlefs/index.html" = Some f ->
  f_openable f = true -> f_good_reads f = Some k ->
  exists out,
    provisioningGetHandler fs None =
      Some (ESP_OK, (Out_set_type "text/html" :: out ++ [Out_chunk ""])%list) /\
    body_of out = take (256 * k) (f_data f).
Proof.
  intros Hf Hopen Hreads. unfold provisioningGetHandler.
  change (LFS_BASE_PATH +:+ "/index.html") with "/littlefs/index.html".
  rewrite Hf, Hopen, Hreads. cbn [negb].
  destruct (send_file_read_fault (S (String.length (f_data f))) (f_data f) k
              (Nat.lt_succ_diag_r _)) as (out & -> & Hbody).
  exists out. split; [reflexivity | exact Hbody].
Qed.

Lemma page_read_error_witness :
  exists out,
    provisioningGetHandler
      {[ "/littlefs/index.html" :=
           {| f_data := "<form></form>"; f_openable := true; f_good_reads := Some O |} ]}
      None = Some (ESP_OK, (Out_set_type "text/html" :: out ++ [Out_chunk ""])%list) /\
    body_of out = "".
Proof.
  exact (page_read_error
           {[ "/littlefs/index.html" :=
                {| f_data := "<form></form>"; f_openable := true; f_good_reads := Some O |} ]}
           {| f_data := "<form></form>"; f_openable := true;
                              f_good_reads := Some O |} O eq_refl eq_refl eq_refl).
Defined.

(** X4.  When the connection refuses the chunk after [k] chunks and the file
    has more than [256 * k] bytes, the handler returns [ESP_FAIL] with
    exactly [k] chunks of 256 bytes sent, the first [256 * k] bytes of the
    file, and without the closing chunk. *)
Theorem page_client_gone (fs : gmap string file) (f : file) (k : nat) :
  fs !! "/littlefs/index.html" = Some f ->
  f_openable f = true -> f_good_reads f = None ->
  (256 * k < String.length (f_data f))%nat ->
  exists cs,
    provisioningGetHandler fs (Some k) =
      Some (ESP_FAIL, Out_set_type "text/html" :: map Out_chunk cs) /\
    body_of (map Out_chunk cs) = take (256 * k) (f_data f) /\
    List.length cs = k /\ Forall (fun c => String.length c = 256%nat) cs.
Proof.
  intros Hf Hopen Hreads Hk. unfold provisioningGetHandler.
  change (LFS_BASE_PATH +:+ "/index.html") with "/littlefs/index.html".
  rewrite Hf, Hopen, Hreads. cbn [negb].
  destruct (send_file_send_fault (S (String.length (f_data f))) (f_data f) k
              (Nat.lt_succ_diag_r _) Hk) as (cs & -> & Hbody & Hn & Hall).
  exists cs. repeat split; assumption.
Qed.

Lemma page_client_gone_witness :
  exists cs,
    provisioningGetHandler (page_fs "<form></form>") (Some O) =
      Some (ESP_FAIL, Out_set_type "text/html" :: map Out_chunk cs) /\
    List.length cs = O.
Proof.
  destruct (page_client_gone (page_fs "<form></form>")
              {| f_data := "<form></form>"; f_openable := true; f_good_reads := None |} O
              eq_refl eq_refl eq_refl) as (cs & Hrun & _ & Hn & _).
  { vm_compute. lia. }
  exists cs. split; assumption.
Defined.

(** ** Boot with parts of the SDK failing *)

Lemma radio_ok_healthy w : healthy w -> radio_ok w.
Proof. intros H fn _ _ _. apply H. Qed.

Lemma radio_ok_status w w' : sdk_status (sdk w') = sdk_status (sdk w) -> radio_ok w -> radio_ok w'.
Proof. intros E H fn H1 H2 H3. rewrite E. now apply H. Qed.

Local Ltac radio_call H := apply checked_call_ok; [apply H; discriminate | reflexivity].

Lemma initialize_radio_ok w : radio_ok w -> initialize w = Returned tt w.
Proof.
  intros H. unfold initialize, esp_netif_init, esp_event_loop_create_default,
    esp_event_handler_instance_register.
  erewrite bind_returned by radio_call H.
  erewrite bind_returned by radio_call H.
  erewrite bind_returned by radio_call H.
  radio_call H.
Qed.

Lemma connectToWifi_radio_ok ssid password w :
  radio_ok w -> ssid <> "" ->
  connectToWifi ssid password w =
  Returned ESP_OK {| self := set_server None (self w);
                     sdk := set_wifi (sta_radio ssid password) (sdk w) |}.
Proof.
  intros H Hne. unfold connectToWifi.
  rewrite bool_decide_eq_false_2 by exact Hne.
  rewrite (bind_returned _ _ _ _ _ (stopWifi_spec w)).
  unfold esp_netif_create_default_wifi_sta, esp_wifi_init, esp_wifi_set_mode,
    esp_wifi_set_config_sta, esp_wifi_start.
  erewrite bind_returned by reflexivity.
  erewrite bind_returned by radio_call H.
  erewrite bind_returned by radio_call H.
  erewrite bind_returned by radio_call H.
  erewrite bind_returned by radio_call H.
  reflexivity.
Qed.

Lemma startProvisioning_radio_ok w :
  radio_ok w ->
  startProvisioning w =
  Returned tt {| self := set_server (server_or_none (sdk_status (sdk w)) true) (self w);
                 sdk := set_wifi ap_radio (sdk w) |}.
Proof.
  intros H. unfold startProvisioning.
  rewrite (bind_returned _ _ _ _ _ (stopWifi_spec w)).
  unfold esp_netif_create_default_wifi_ap, esp_wifi_init, esp_wifi_set_mode,
    esp_wifi_set_config_ap, esp_wifi_start.
  erewrite bind_returned by reflexivity.
  erewrite bind_returned by radio_call H.
  erewrite bind_returned by radio_call H.
  erewrite bind_returned by radio_call H.
  erewrite bind_returned by radio_call H.
  rewrite startWebServer_spec. unfold server_or_none. simpl.
  destruct (decide _); reflexivity.
Qed.

Lemma loadCredentials_closed w ssid0 password0 :
  sdk_status (sdk w) Fn_nvs_open <> ESP_OK ->
  loadCredentials ssid0 password0 w =
  Returned (sdk_status (sdk w) Fn_nvs_open, ssid0, password0) w.
Proof.
  intros Hopen. unfold loadCredentials, nvs_open. unfold_cmd.
  destruct (decide (sdk_status (sdk w) Fn_nvs_open = ESP_OK)); [contradiction|].
  simpl. destruct (decide _); [reflexivity | contradiction].
Qed.

(** Without credentials to load, the boot goes straight to provisioning. *)
Lemma start_without_credentials w :
  radio_ok w ->
  sdk_status (sdk w) Fn_nvs_open <> ESP_OK \/ stored_key w NVS_KEY_WIFI_SSID = None ->
  start w =
  Returned tt {| self := set_server (server_or_none (sdk_status (sdk w)) true) (self w);
                 sdk := set_wifi ap_radio (sdk w) |}.
Proof.
  intros H Hno. rewrite <- (startProvisioning_radio_ok w H). unfold start.
  rewrite (bind_returned _ _ _ _ _ (initialize_radio_ok w H)).
  destruct (decide (sdk_status (sdk w) Fn_nvs_open = ESP_OK)) as [Hopen|Hopen].
  - destruct Hno as [Hno|Hnone]; [contradiction|].
    pose proof (loadCredentials_spec w Hopen "" "") as Hload. rewrite Hnone in Hload.
    rewrite (bind_returned _ _ _ _ _ Hload). reflexivity.
  - rewrite (bind_returned _ _ _ _ _ (loadCredentials_closed w "" "" Hopen)).
    simpl. destruct (decide _); [contradiction | reflexivity].
Qed.

(** A stored SSID that is empty as a C string: [connectToWifi] refuses it,
    the wait on a radio that was never started returns at once, and the boot
    ends in provisioning; the radio's events are left for later. *)
Lemma start_empty_ssid status flash script ssid :
  let w0 := power_on status flash script in
  radio_ok w0 -> status Fn_nvs_open = ESP_OK ->
  stored_key w0 NVS_KEY_WIFI_SSID = Some ssid -> c_str ssid = "" ->
  start w0 =
  Returned tt {| self := set_server (server_or_none status true) (self w0);
                 sdk := set_wifi ap_radio (sdk w0) |}.
Proof.
  intros w0 H Hopen Hssid Hempty. unfold start.
  rewrite (bind_returned _ _ _ _ _ (initialize_radio_ok w0 H)).
  pose proof (loadCredentials_spec w0 Hopen "" "") as Hload. rewrite Hssid, Hempty in Hload.
  rewrite (bind_returned _ _ _ _ _ Hload). simpl.
  rewrite (bind_returned _ _ _ _ _ (connectToWifi_empty _ w0)).
  erewrite bind_returned by (apply (wait_silent w0); reflexivity).
  simpl. erewrite startProvisioning_radio_ok by exact H. reflexivity.
Qed.

(** A boot whose driver calls go through returns, whatever the store and
    the HTTP server report. *)
Lemma start_radio_ok status flash script :
  let w0 := power_on status flash script in
  radio_ok w0 ->
  exists w' b,
    start w0 = Returned tt w' /\
    m_server (self w') = server_or_none status b /\
    wifi_started (wifi (sdk w')) = true /\
    wifi_mode (wifi (sdk w')) = (if b then WIFI_MODE_AP else WIFI_MODE_STA) /\
    (if b then bit_set WIFI_CONNECTED_BIT w' = false else isConnected w' = true) /\
    nvs_flash (sdk w') = flash /\ settled w'.
Proof.
  intros w0 H.
  destruct (decide (status Fn_nvs_open = ESP_OK)) as [Hopen|Hopen].
  2:{ eexists _, true. split; [apply start_without_credentials; [exact H | left; exact Hopen]|].
      repeat split. left. reflexivity. }
  destruct (stored_key w0 NVS_KEY_WIFI_SSID) as [ssid|] eqn:Hssid.
  2:{ eexists _, true. split; [apply start_without_credentials; [exact H | right; exact Hssid]|].
      repeat split. left. reflexivity. }
  destruct (decide (c_str ssid = "")) as [Hempty|Hne].
  { eexists _, true. split; [apply (start_empty_ssid status flash script ssid); assumption|].
    repeat split. left. reflexivity. }
  unfold start.
  rewrite (bind_returned _ _ _ _ _ (initialize_radio_ok w0 H)).
  pose proof (loadCredentials_spec w0 Hopen "" "") as Hload. rewrite Hssid in Hload.
  rewrite (bind_returned _ _ _ _ _ Hload). simpl.
  set (password := match stored_key w0 NVS_KEY_WIFI_PASS with
                   | Some p => c_str p | None => "" end) in *.
  rewrite (bind_returned _ _ _ _ _ (connectToWifi_radio_ok (c_str ssid) password w0 H Hne)).
  set (w2 := {| self := set_server None (self w0);
                sdk := set_wifi (sta_radio (c_str ssid) password) (sdk w0) |}).
  destruct (wait_spec w2 eq_refl eq_refl) as (w3 & Hwait & Hfr & Hs).
  erewrite bind_returned by exact Hwait.
  destruct Hfr as (Hstat & Hflash & Hwifi & Hsrv).
  assert (H3 : radio_ok w3) by (apply (radio_ok_status w2); [exact Hstat | exact H]).
  destruct Hs as [Hb|[[Hb Hc]|[Hb Hc]]]; rewrite Hb; simpl.
  - rewrite (startProvisioning_radio_ok w3 H3). rewrite Hstat.
    eexists _, true. split; [reflexivity|]. repeat split.
    + unfold bit_set, event_bits in *. simpl. now rewrite Hb.
    + simpl. exact Hflash.
    + left. exact Hb.
  - rewrite startWebServer_spec, Hsrv. simpl.
    eexists _, false. split; [reflexivity|]. unfold server_or_none. rewrite Hstat. simpl.
    destruct (decide (status Fn_httpd_start = ESP_OK)); simpl;
      (split; [first [reflexivity | exact Hsrv]|]); rewrite ?Hwifi; repeat split;
      first [exact Hc | exact Hflash | right; left; split; assumption].
  - rewrite (startProvisioning_radio_ok w3 H3). rewrite Hstat.
    eexists _, true. split; [reflexivity|]. repeat split.
    + unfold bit_set, event_bits in *. simpl. now rewrite Hb.
    + simpl. exact Hflash.
    + right; right. split; assumption.
Qed.

(** ** Clearing the credentials *)

Lemma provisioning_path_intro w :
  wifi (sdk w) = ap_radio -> m_server (self w) = Some (web_server true) ->
  provisioning_path w.
Proof.
  intros Hw Hs. unfold provisioning_path, serves, endpoints. rewrite Hw, Hs. repeat split.
Qed.

Lemma connected_path_intro w ssid password :
  wifi (sdk w) = sta_radio ssid password -> m_server (self w) = Some (web_server false) ->
  isConnected w = true -> connected_path w.
Proof.
  intros Hw Hs Hc. unfold connected_path, serves, endpoints. rewrite Hw, Hs.
  repeat split. exact Hc.
Qed.

Lemma nvs_erase_key_entries h key :
  h_mode h = NVS_READWRITE ->
  h_mode (snd (nvs_erase_key h key)) = NVS_READWRITE /\
  h_namespace (snd (nvs_erase_key h key)) = h_namespace h /\
  h_entries (snd (nvs_erase_key h key)) = delete key (h_entries h).
Proof.
  intros Hm. unfold nvs_erase_key. rewrite Hm.
  destruct (h_entries h !! key) eqn:Hk; cbn [snd h_mode h_namespace h_entries].
  - repeat split.
  - repeat split; [exact Hm|]. symmetry. now apply delete_id.
Qed.

(** What [clearCredentialsAndRestart] does on a store that opens and
    commits. *)
Lemma clearCredentialsAndRestart_spec w :
  sdk_status (sdk w) Fn_nvs_open = ESP_OK ->
  sdk_status (sdk w) Fn_nvs_commit = ESP_OK ->
  clearCredentialsAndRestart w =
  Halted Restarted
    (upd_sdk (fun s => set_sdk_log (sdk_log s ++ [Eff_esp_restart]) s)
       (upd_sdk (fun s => set_nvs_flash
          (<[NVS_NAMESPACE :=
               delete NVS_KEY_WIFI_PASS (delete NVS_KEY_WIFI_SSID (stored w))]>
             (nvs_flash s)) s) w)).
Proof.
  intros Hopen Hcommit.
  unfold clearCredentialsAndRestart, nvs_open, nvs_commit, nvs_close, esp_restart, stored.
  unfold_cmd. rewrite Hopen. simpl.
  destruct (nvs_flash (sdk w) !! NVS_NAMESPACE) as [es|]; simpl.
  - unfold nvs_erase_key; simpl.
    destruct (es !! NVS_KEY_WIFI_SSID) eqn:Hs; simpl.
    + destruct (delete NVS_KEY_WIFI_SSID es !! NVS_KEY_WIFI_PASS) eqn:Hp; simpl;
        rewrite Hcommit; simpl; [reflexivity|].
      now rewrite (delete_id _ _ Hp).
    + rewrite (delete_id _ _ Hs).
      destruct (es !! NVS_KEY_WIFI_PASS) eqn:Hp; simpl; rewrite Hcommit; simpl;
        [reflexivity|].
      now rewrite (delete_id _ _ Hp).
  - unfold nvs_erase_key; simpl. repeat (rewrite lookup_empty; simpl). rewrite Hcommit. simpl.
    now rewrite !delete_empty.
Qed.

(** On a store that does not open, or does not commit, flash stays as it
    is. *)
Lemma clearCredentialsAndRestart_failed w :
  sdk_status (sdk w) Fn_nvs_open <> ESP_OK \/ sdk_status (sdk w) Fn_nvs_commit <> ESP_OK ->
  clearCredentialsAndRestart w =
  Halted Restarted (upd_sdk (fun s => set_sdk_log (sdk_log s ++ [Eff_esp_restart]) s) w).
Proof.
  intros Hfail.
  unfold clearCredentialsAndRestart, nvs_open, nvs_commit, nvs_close, esp_restart.
  unfold_cmd.
  destruct (decide (sdk_status (sdk w) Fn_nvs_open = ESP_OK)) as [Hopen|Hopen].
  - destruct Hfail as [Hfail|Hcommit]; [contradiction|]. simpl.
    destruct (nvs_flash (sdk w) !! NVS_NAMESPACE) as [es|]; simpl;
      repeat case_decide; try contradiction; try congruence;
      unfold nvs_erase_key; simpl;
      repeat (match goal with |- context [match ?m !! ?k with _ => _ end] =>
                destruct (m !! k) end; simpl);
      repeat case_decide; try contradiction; reflexivity.
  - simpl. repeat case_decide; try contradiction; congruence.
Qed.

Lemma resetGetHandler_unfold w :
  resetGetHandler w =
  match clearCredentialsAndRestart
          (upd_sdk (fun s => set_sdk_log (sdk_log s ++ [Eff_httpd_resp 200 reset_resp_str]) s) w)
  with
  | Returned _ w' => Returned ESP_OK w'
  | Halted h w' => Halted h w'
  end.
Proof. reflexivity. Qed.

(** X5.  [resetGetHandler] never returns to the server: whatever the state
    of the store, it answers 200 with the confirmation page and then
    restarts the device, with nothing else sent and the manager and the
    radio as they were. *)
Theorem reset_always_restarts (w : world) :
  exists w', resetGetHandler w = Halted Restarted w' /\
    sdk_log (sdk w') =
      (sdk_log (sdk w) ++ [Eff_httpd_resp 200 reset_resp_str; Eff_esp_restart])%list /\
    self w' = self w /\ wifi (sdk w') = wifi (sdk w).
Proof.
  rewrite resetGetHandler_unfold.
  set (w1 := upd_sdk _ w).
  destruct (decide (sdk_status (sdk w1) Fn_nvs_open = ESP_OK)) as [Hopen|Hopen];
    [destruct (decide (sdk_status (sdk w1) Fn_nvs_commit = ESP_OK)) as [Hcommit|Hcommit]|].
  - rewrite (clearCredentialsAndRestart_spec w1 Hopen Hcommit).
    eexists. split; [reflexivity|]. cbn. rewrite <- app_assoc. repeat split.
  - rewrite (clearCredentialsAndRestart_failed w1 (or_intror Hcommit)).
    eexists. split; [reflexivity|]. cbn. rewrite <- app_assoc. repeat split.
  - rewrite (clearCredentialsAndRestart_failed w1 (or_introl Hopen)).
    eexists. split; [reflexivity|]. cbn. rewrite <- app_assoc. repeat split.
Qed.

(** X6.  On a store that opens and commits, [resetGetHandler] leaves flash
    without the SSID and the password entry, with every other entry of the
    namespace and every other namespace as before; a [loadCredentials] after
    it reports [ESP_ERR_NVS_NOT_FOUND] and leaves its output parameters
    alone. *)
Theorem reset_erases_credentials (w : world) :
  sdk_status (sdk w) Fn_nvs_open = ESP_OK ->
  sdk_status (sdk w) Fn_nvs_commit = ESP_OK ->
  let w' := final (resetGetHandler w) in
  stored_key w' NVS_KEY_WIFI_SSID = None /\
  stored_key w' NVS_KEY_WIFI_PASS = None /\
  (forall key, key <> NVS_KEY_WIFI_SSID -> key <> NVS_KEY_WIFI_PASS ->
     stored_key w' key = stored_key w key) /\
  (forall ns, ns <> NVS_NAMESPACE -> nvs_flash (sdk w') !! ns = nvs_flash (sdk w) !! ns) /\
  forall s0 p0, loadCredentials s0 p0 w' = Returned (ESP_ERR_NVS_NOT_FOUND, s0, p0) w'.
Proof.
  intros Hopen Hcommit w'. subst w'. rewrite resetGetHandler_unfold.
  set (w1 := upd_sdk _ w).
  rewrite (clearCredentialsAndRestart_spec w1 Hopen Hcommit). cbn [final].
  set (w2 := upd_sdk _ (upd_sdk _ w1)).
  assert (Hkey : forall key, stored_key w2 key =
            delete NVS_KEY_WIFI_PASS (delete NVS_KEY_WIFI_SSID (stored w)) !! key).
  { intros key. unfold stored_key, w2, w1, stored. cbn. now rewrite lookup_insert_eq. }
  assert (Hssid : stored_key w2 NVS_KEY_WIFI_SSID = None).
  { rewrite Hkey. rewrite lookup_delete_ne by discriminate. apply lookup_delete_eq. }
  split; [exact Hssid|]. split; [|split; [|split]].
  - rewrite Hkey. apply lookup_delete_eq.
  - intros key Hs Hp. rewrite Hkey, !lookup_delete_ne by congruence.
    unfold stored, stored_key. destruct (nvs_flash (sdk w) !! NVS_NAMESPACE); cbn;
      [reflexivity | apply lookup_empty].
  - intros ns Hns. unfold w2, w1. cbn. now rewrite lookup_insert_ne by congruence.
  - intros s0 p0. rewrite (loadCredentials_spec w2 Hopen), Hssid. reflexivity.
Qed.

Lemma reset_erases_credentials_witness :
  stored_key (final (resetGetHandler (provisioned "HomeNet" "hunter2" [])))
    NVS_KEY_WIFI_SSID = None /\
  loadCredentials "" "" (final (resetGetHandler (provisioned "HomeNet" "hunter2" []))) =
    Returned (ESP_ERR_NVS_NOT_FOUND, "", "")
      (final (resetGetHandler (provisioned "HomeNet" "hunter2" []))).
Proof.
  destruct (reset_erases_credentials (provisioned "HomeNet" "hunter2" []) eq_refl eq_refl)
    as (Hssid & _ & _ & _ & Hload).
  split; [exact Hssid | exact (Hload "" "")].
Defined.

(** X7.  When the store does not open, or the commit fails,
    [resetGetHandler] has answered that the credentials are cleared and
    restarts the device, yet flash is as before: the credentials are still
    there at the next boot. *)
Theorem reset_failure_keeps_credentials (w : world) :
  sdk_status (sdk w) Fn_nvs_open <> ESP_OK \/ sdk_status (sdk w) Fn_nvs_commit <> ESP_OK ->
  exists w', resetGetHandler w = Halted Restarted w' /\
    nvs_flash (sdk w') = nvs_flash (sdk w) /\
    In (Eff_httpd_resp 200 reset_resp_str) (sdk_log (sdk w')).
Proof.
  intros Hfail. rewrite resetGetHandler_unfold.
  set (w1 := upd_sdk _ w).
  rewrite (clearCredentialsAndRestart_failed w1 Hfail).
  eexists. split; [reflexivity|]. split; [reflexivity|].
  cbn. apply in_or_app. left. apply in_or_app. right. now left.
Qed.

Lemma reset_failure_keeps_credentials_witness :
  exists w',
    resetGetHandler
      (power_on (fun fn => match fn with Fn_nvs_commit => ESP_FAIL | _ => ESP_OK end)
         {[ NVS_NAMESPACE := {[ NVS_KEY_WIFI_SSID := "HomeNet" ]} ]} []) =
      Halted Restarted w' /\
    stored_key w' NVS_KEY_WIFI_SSID = Some "HomeNet".
Proof.
  destruct (reset_failure_keeps_credentials
              (power_on (fun fn => match fn with Fn_nvs_commit => ESP_FAIL | _ => ESP_OK end)
                 {[ NVS_NAMESPACE := {[ NVS_KEY_WIFI_SSID := "HomeNet" ]} ]} []))
    as (w' & Hrun & Hflash & _).
  { right. vm_compute. discriminate. }
  exists w'. split; [exact Hrun|]. unfold stored_key. rewrite Hflash. reflexivity.
Defined.

(** X8.  Reset, then boot: after a [GET /reset] on a store that opens and
    commits, the next boot on a healthy SDK takes the provisioning path,
    whatever credentials were stored and whatever the radio does. *)
Theorem reset_then_boot_provisions (w : world) status script :
  sdk_status (sdk w) Fn_nvs_open = ESP_OK ->
  sdk_status (sdk w) Fn_nvs_commit = ESP_OK ->
  (forall fn, status fn = ESP_OK) ->
  exists w',
    start (power_on status (nvs_flash (sdk (final (resetGetHandler w)))) script) =
      Returned tt w' /\
    provisioning_path w' /\ isConnected w' = false.
Proof.
  intros Hopen Hcommit Hok.
  assert (Hnone : stored_key
            (power_on status (nvs_flash (sdk (final (resetGetHandler w)))) script)
            NVS_KEY_WIFI_SSID = None).
  { rewrite resetGetHandler_unfold. set (w1 := upd_sdk _ w).
    rewrite (clearCredentialsAndRestart_spec w1 Hopen Hcommit).
    unfold stored_key. cbn. rewrite lookup_insert_eq. cbn.
    rewrite lookup_delete_ne by discriminate. apply lookup_delete_eq. }
  eexists. split.
  { apply start_without_credentials; [apply radio_ok_healthy; exact Hok | right; exact Hnone]. }
  split; [|reflexivity].
  apply provisioning_path_intro; [reflexivity|].
  cbn. unfold server_or_none. cbn. rewrite Hok. reflexivity.
Qed.

Lemma reset_then_boot_provisions_witness :
  exists w',
    start (power_on all_ok
             (nvs_flash (sdk (final (resetGetHandler (provisioned "HomeNet" "hunter2" [])))))
             [STA_START; IP_EVENT_STA_GOT_IP HOME_ADDR]) = Returned tt w' /\
    provisioning_path w' /\ isConnected w' = false.
Proof.
  apply (reset_then_boot_provisions (provisioned "HomeNet" "hunter2" []) all_ok
           [STA_START; IP_EVENT_STA_GOT_IP HOME_ADDR]); reflexivity.
Defined.

(** ** What saving leaves alone *)

(** When the store does not open, or the commit fails, [saveCredentials]
    returns the error and has changed nothing. *)
Lemma saveCredentials_failed w ssid password :
  sdk_status (sdk w) Fn_nvs_open <> ESP_OK \/ sdk_status (sdk w) Fn_nvs_commit <> ESP_OK ->
  exists e, e <> ESP_OK /\ saveCredentials ssid password w = Returned e w.
Proof.
  intros Hfail.
  destruct (decide (sdk_status (sdk w) Fn_nvs_open = ESP_OK)) as [Hopen|Hopen].
  - destruct Hfail as [Hfail|Hcommit]; [contradiction|].
    exists (sdk_status (sdk w) Fn_nvs_commit). split; [exact Hcommit|].
    unfold saveCredentials, nvs_open, nvs_commit, nvs_close. unfold_cmd.
    rewrite Hopen. simpl.
    destruct (nvs_flash (sdk w) !! NVS_NAMESPACE); simpl;
      destruct (decide (sdk_status (sdk w) Fn_nvs_commit = ESP_OK));
      try contradiction; reflexivity.
  - exists (sdk_status (sdk w) Fn_nvs_open). split; [exact Hopen|].
    unfold saveCredentials, nvs_open. unfold_cmd.
    destruct (decide (sdk_status (sdk w) Fn_nvs_open = ESP_OK)); [contradiction|].
    simpl. destruct (decide (sdk_status (sdk w) Fn_nvs_open <> ESP_OK)); [reflexivity|].
    contradiction.
Qed.

(** [saveCredentials] always returns, with the manager and the responses
    sent so far as they were. *)
Lemma saveCredentials_keeps_manager w ssid password :
  exists e w', saveCredentials ssid password w = Returned e w' /\
    self w' = self w /\ sdk_log (sdk w') = sdk_log (sdk w).
Proof.
  destruct (decide (sdk_status (sdk w) Fn_nvs_open = ESP_OK /\
                    sdk_status (sdk w) Fn_nvs_commit = ESP_OK)) as [[Hopen Hcommit]|Hno].
  - eexists _, _. split; [apply saveCredentials_spec; assumption|]. split; reflexivity.
  - destruct (saveCredentials_failed w ssid password) as (e & _ & ->).
    + destruct (decide (sdk_status (sdk w) Fn_nvs_open = ESP_OK)); [|now left].
      right. intros Hc. apply Hno. now split.
    + exists e, w. repeat split.
Qed.

(** X9.  Whatever the store reports, [saveCredentials] returns, and it
    touches nothing but the two credential entries: the manager, the radio,
    the events still to come and everything sent so far are as before, and
    so are every other namespace and every other entry of the credential
    namespace. *)
Theorem saveCredentials_frame (w : world) (ssid password : string) :
  exists e w', saveCredentials ssid password w = Returned e w' /\
    self w' = self w /\ wifi (sdk w') = wifi (sdk w) /\
    radio_script (sdk w') = radio_script (sdk w) /\ sdk_log (sdk w') = sdk_log (sdk w) /\
    sdk_status (sdk w') = sdk_status (sdk w) /\
    (forall ns, ns <> NVS_NAMESPACE -> nvs_flash (sdk w') !! ns = nvs_flash (sdk w) !! ns) /\
    (forall key, key <> NVS_KEY_WIFI_SSID -> key <> NVS_KEY_WIFI_PASS ->
       stored_key w' key = stored_key w key) /\
    (e <> ESP_OK -> w' = w).
Proof.
  destruct (decide (sdk_status (sdk w) Fn_nvs_open = ESP_OK)) as [Hopen|Hopen];
    [destruct (decide (sdk_status (sdk w) Fn_nvs_commit = ESP_OK)) as [Hcommit|Hcommit]|].
  - eexists _, _. split; [apply saveCredentials_spec; assumption|].
    repeat split.
    + intros ns Hns. cbn. now rewrite lookup_insert_ne by congruence.
    + intros key Hs Hp. rewrite stored_key_after_save.
      destruct (decide (key = NVS_KEY_WIFI_PASS)); [contradiction|].
      destruct (decide (key = NVS_KEY_WIFI_SSID)); [contradiction|reflexivity].
    + intros He. now elim He.
  - destruct (saveCredentials_failed w ssid password (or_intror Hcommit)) as (e & He & ->).
    exists e, w. repeat split.
  - destruct (saveCredentials_failed w ssid password (or_introl Hopen)) as (e & He & ->).
    exists e, w. repeat split.
Qed.

Lemma saveCredentials_frame_witness :
  exists e w', saveCredentials "HomeNet" "hunter2" (provisioned "Old" "" []) = Returned e w' /\
    self w' = self (provisioned "Old" "" []) /\
    stored_key w' "boot_count" = stored_key (provisioned "Old" "" []) "boot_count".
Proof.
  destruct (saveCredentials_frame (provisioned "Old" "" []) "HomeNet" "hunter2")
    as (e & w' & Hrun & Hself & _ & _ & _ & _ & _ & Hkeys & _).
  exists e, w'. split; [exact Hrun|]. split; [exact Hself|].
  apply Hkeys; discriminate.
Defined.

(** ** The submit handler at its edges *)

Lemma nul_free_take n : forall s, nul_free s = true -> nul_free (take n s) = true.
Proof.
  induction n as [|n IH]; intros [|c r]; simpl; try reflexivity.
  destruct (Ascii.eqb c NUL); simpl; [discriminate|]. apply IH.
Qed.

Lemma take_app_length a b : take (String.length a) (a +:+ b) = a.
Proof.
  induction a as [|c a IH]; [reflexivity|].
  rewrite append_cons. simpl. now rewrite IH.
Qed.

Lemma form_body_pos fields : fields <> [] -> (0 < String.length (form_body fields))%nat.
Proof.
  destruct fields as [|[k v] rest]; [contradiction|]. intros _.
  rewrite form_body_cons, length_app_str. simpl. lia.
Qed.

(** What the handler does with a form: the buffer of 33 bytes takes an ssid
    value of at most 32, a longer one fails the lookup as a missing one
    does; the buffer of 65 bytes keeps the first 64 bytes of the password
    value. *)
Lemma connectPostHandler_form w fields :
  Forall field_ok fields -> fields <> [] ->
  (String.length (form_body fields) <= 127)%nat ->
  connectPostHandler (post (form_body fields)) w =
  match form_lookup "ssid" fields with
  | Some s =>
      if (32 <? String.length s)%nat then
        (httpd_resp_send_err 400 "Missing 'ssid' parameter";; mret ESP_FAIL) w
      else
        (httpd_resp_send connect_resp_str;;
         _ ← saveCredentials s (take 64 (default "" (form_lookup "password" fields)));
         vTaskDelay 1000;;
         esp_restart;;
         mret ESP_OK) w
  | None => (httpd_resp_send_err 400 "Missing 'ssid' parameter";; mret ESP_FAIL) w
  end.
Proof.
  intros Hok Hne Hlen. unfold connectPostHandler.
  destruct (recv_form fields Hok Hlen) as [-> Hc].
  pose proof (form_body_pos fields Hne) as Hpos.
  replace (Z.of_nat (String.length (form_body fields)) <=? 0) with false
    by (symmetry; apply Z.leb_gt; lia).
  rewrite Hc, (httpd_query_key_value_form "ssid" 33 fields Hok).
  destruct (form_lookup "ssid" fields) as [s|]; [|reflexivity].
  change (33 <? S (String.length s))%nat with (32 <? String.length s)%nat.
  destruct (32 <? String.length s)%nat; [reflexivity|].
  rewrite (httpd_query_key_value_form "password" 65 fields Hok).
  destruct (form_lookup "password" fields) as [p|]; [|reflexivity].
  destruct (65 <? S (String.length p))%nat eqn:Hp; [reflexivity|].
  apply Nat.ltb_ge in Hp.
  change (take 64 (default "" (Some p))) with (take 64 p).
  rewrite (take_all 64 p) by lia. reflexivity.
Qed.

(** X10.  An ssid value of more than 32 bytes does not fit the handler's
    buffer: the handler answers 400 with the message of a missing ssid and
    returns [ESP_FAIL]; nothing is written and the device does not
    restart. *)
Theorem post_long_ssid_rejected (w : world) (fields : list (string * string)) (s : string) :
  Forall field_ok fields ->
  (String.length (form_body fields) <= 127)%nat ->
  form_lookup "ssid" fields = Some s -> (32 < String.length s)%nat ->
  exists w', connectPostHandler (post (form_body fields)) w = Returned ESP_FAIL w' /\
    nvs_flash (sdk w') = nvs_flash (sdk w) /\
    sdk_log (sdk w') =
      (sdk_log (sdk w) ++ [Eff_httpd_resp 400 "Missing 'ssid' parameter"])%list.
Proof.
  intros Hok Hlen Hs Hlong.
  assert (Hne : fields <> []) by (intros ->; discriminate Hs).
  rewrite (connectPostHandler_form w fields Hok Hne Hlen), Hs.
  replace (32 <? String.length s)%nat with true by (symmetry; apply Nat.ltb_lt; lia).
  eexists. split; [reflexivity|]. split; reflexivity.
Qed.

Lemma post_long_ssid_rejected_witness :
  exists w',
    connectPostHandler
      (post (form_body [("ssid", "ThisNetworkNameHasThirtyThreeBytes")])) blank =
      Returned ESP_FAIL w' /\
    nvs_flash (sdk w') = nvs_flash (sdk blank).
Proof.
  destruct (post_long_ssid_rejected blank [("ssid", "ThisNetworkNameHasThirtyThreeBytes")]
              "ThisNetworkNameHasThirtyThreeBytes") as (w' & Hrun & Hflash & _).
  - repeat constructor.
  - vm_compute. lia.
  - reflexivity.
  - vm_compute. lia.
  - exists w'. split; assumption.
Defined.

(** X11.  A password value of more than 64 bytes is cut to its first 64
    bytes: on a store that opens and commits the handler answers 200, saves
    the ssid with the shortened password and restarts. *)
Theorem post_long_password_cut (w : world) (fields : list (string * string)) (s p : string) :
  Forall field_ok fields ->
  (String.length (form_body fields) <= 127)%nat ->
  form_lookup "ssid" fields = Some s -> (String.length s <= 32)%nat ->
  form_lookup "password" fields = Some p -> (64 < String.length p)%nat ->
  sdk_status (sdk w) Fn_nvs_open = ESP_OK ->
  sdk_status (sdk w) Fn_nvs_commit = ESP_OK ->
  exists w', connectPostHandler (post (form_body fields)) w = Halted Restarted w' /\
    stored_key w' NVS_KEY_WIFI_SSID = Some s /\
    stored_key w' NVS_KEY_WIFI_PASS = Some (take 64 p) /\
    String.length (take 64 p) = 64%nat.
Proof.
  intros Hok Hlen Hs Hs32 Hp Hlong Hopen Hcommit.
  assert (Hne : fields <> []) by (intros ->; discriminate Hs).
  rewrite (connectPostHandler_form w fields Hok Hne Hlen), Hs, Hp.
  replace (32 <? String.length s)%nat with false by (symmetry; apply Nat.ltb_ge; lia).
  change (default "" (Some p)) with p.
  assert (Hsn : c_str s = s).
  { apply c_str_nul_free. eapply form_lookup_field_ok; eassumption. }
  assert (Hpn : c_str (take 64 p) = take 64 p).
  { apply c_str_nul_free, nul_free_take. eapply form_lookup_field_ok; eassumption. }
  assert (Hcut : String.length (take 64 p) = 64%nat) by (rewrite length_take; lia).
  set (p64 := take 64 p) in *.
  unfold httpd_resp_send. erewrite bind_returned by reflexivity.
  set (w1 := upd_sdk _ w).
  erewrite bind_returned by (apply (saveCredentials_spec w1); assumption).
  unfold vTaskDelay, esp_restart. unfold_cmd. simpl.
  eexists. split; [reflexivity|].
  pose proof (stored_key_after_save w1 s p64) as Hkey.
  split; [|split; [|exact Hcut]].
  - etransitivity; [exact (Hkey NVS_KEY_WIFI_SSID)|]. rewrite Hsn. reflexivity.
  - etransitivity; [exact (Hkey NVS_KEY_WIFI_PASS)|]. rewrite Hpn. reflexivity.
Qed.

Lemma post_long_password_cut_witness :
  exists w',
    connectPostHandler
      (post (form_body
         [("ssid", "HomeNet");
          ("password",
           "0123456789012345678901234567890123456789012345678901234567890123456789")]))
      blank = Halted Restarted w' /\
    stored_key w' NVS_KEY_WIFI_PASS =
      Some "0123456789012345678901234567890123456789012345678901234567890123".
Proof.
  destruct (post_long_password_cut blank
              [("ssid", "HomeNet");
               ("password",
                "0123456789012345678901234567890123456789012345678901234567890123456789")]
              "HomeNet"
              "0123456789012345678901234567890123456789012345678901234567890123456789")
    as (w' & Hrun & _ & Hpass & _).
  - repeat constructor.
  - vm_compute. lia.
  - reflexivity.
  - vm_compute. lia.
  - reflexivity.
  - vm_compute. lia.
  - reflexivity.
  - reflexivity.
  - exists w'. split; [exact Hrun | exact Hpass].
Defined.

(** X12.  When reading the body fails with a socket error, the handler
    returns [ESP_FAIL] without touching the store and without a restart; it
    answers 408 when the error is the timeout and sends nothing for any
    other error. *)
Theorem post_socket_error (w : world) (req : httpd_req_t) (e : Z) :
  req_sock_err req = Some e -> e <= 0 ->
  exists w', connectPostHandler req w = Returned ESP_FAIL w' /\
    self w' = self w /\ nvs_flash (sdk w') = nvs_flash (sdk w) /\
    sdk_log (sdk w') =
      (sdk_log (sdk w) ++
       if decide (e = HTTPD_SOCK_ERR_TIMEOUT) then [Eff_httpd_resp 408 ""] else [])%list.
Proof.
  intros Hreq He. unfold connectPostHandler, httpd_req_recv. rewrite Hreq.
  replace (e <=? 0) with true by (symmetry; apply Z.leb_le; exact He).
  unfold httpd_resp_send_408. unfold_cmd.
  destruct (decide (e = HTTPD_SOCK_ERR_TIMEOUT)); simpl.
  - eexists. repeat split.
  - exists w. repeat split. now rewrite app_nil_r.
Qed.

Lemma post_socket_error_witness :
  exists w', connectPostHandler (broken HTTPD_SOCK_ERR_FAIL) blank = Returned ESP_FAIL w' /\
    sdk_log (sdk w') = [].
Proof.
  destruct (post_socket_error blank (broken HTTPD_SOCK_ERR_FAIL) HTTPD_SOCK_ERR_FAIL)
    as (w' & Hrun & _ & _ & Hlog).
  - reflexivity.
  - vm_compute. discriminate.
  - exists w'. split; [exact Hrun | exact Hlog].
Defined.

(** X13.  The handler does not look at what [saveCredentials] returns: with
    an ssid in the form and a store that does not open, or does not commit,
    it has answered 200 with the confirmation page and restarts the device,
    and flash is as it was. *)
Theorem post_store_down (w : world) (fields : list (string * string)) (s : string) :
  Forall field_ok fields ->
  (String.length (form_body fields) <= 127)%nat ->
  form_lookup "ssid" fields = Some s -> (String.length s <= 32)%nat ->
  sdk_status (sdk w) Fn_nvs_open <> ESP_OK \/ sdk_status (sdk w) Fn_nvs_commit <> ESP_OK ->
  exists w', connectPostHandler (post (form_body fields)) w = Halted Restarted w' /\
    nvs_flash (sdk w') = nvs_flash (sdk w) /\
    sdk_log (sdk w') =
      (sdk_log (sdk w) ++ [Eff_httpd_resp 200 connect_resp_str; Eff_esp_restart])%list.
Proof.
  intros Hok Hlen Hs Hs32 Hfail.
  assert (Hne : fields <> []) by (intros ->; discriminate Hs).
  rewrite (connectPostHandler_form w fields Hok Hne Hlen), Hs.
  replace (32 <? String.length s)%nat with false by (symmetry; apply Nat.ltb_ge; lia).
  unfold httpd_resp_send. erewrite bind_returned by reflexivity.
  set (w1 := upd_sdk _ w).
  destruct (saveCredentials_failed w1 s
              (take 64 (default "" (form_lookup "password" fields))) Hfail)
    as (e & _ & Hsave).
  erewrite bind_returned by exact Hsave.
  unfold vTaskDelay, esp_restart. unfold_cmd. simpl.
  eexists. split; [reflexivity|]. split; [reflexivity|].
  subst w1. simpl. now rewrite <- List.app_assoc.
Qed.

Lemma post_store_down_witness :
  exists w',
    connectPostHandler (post (form_body [("ssid", "HomeNet")]))
      (power_on (fun fn => match fn with Fn_nvs_open => ESP_FAIL | _ => ESP_OK end) ∅ []) =
      Halted Restarted w' /\
    nvs_flash (sdk w') = ∅.
Proof.
  destruct (post_store_down
              (power_on (fun fn => match fn with Fn_nvs_open => ESP_FAIL | _ => ESP_OK end)
                 ∅ [])
              [("ssid", "HomeNet")] "HomeNet") as (w' & Hrun & Hflash & _).
  - repeat constructor.
  - vm_compute. lia.
  - reflexivity.
  - vm_compute. lia.
  - left. vm_compute. discriminate.
  - exists w'. split; [exact Hrun | exact Hflash].
Defined.

(** X14.  For every request and every state, [connectPostHandler] ends in
    one of two ways.  Either it returns [ESP_FAIL], with the manager and
    flash as they were, no restart, and at most one response sent, which is
    a 400 or a 408; or it answers 200 and restarts the device.  It never
    returns [ESP_OK]. *)
Theorem post_never_returns_ok (w : world) (req : httpd_req_t) :
  (exists w', connectPostHandler req w = Returned ESP_FAIL w' /\
     self w' = self w /\ nvs_flash (sdk w') = nvs_flash (sdk w) /\
     (sdk_log (sdk w') = sdk_log (sdk w) \/
      exists code msg, (code = 400%nat \/ code = 408%nat) /\
        sdk_log (sdk w') = (sdk_log (sdk w) ++ [Eff_httpd_resp code msg])%list)) \/
  (exists w', connectPostHandler req w = Halted Restarted w' /\
     self w' = self w /\
     sdk_log (sdk w') =
       (sdk_log (sdk w) ++ [Eff_httpd_resp 200 connect_resp_str; Eff_esp_restart])%list).
Proof.
  unfold connectPostHandler.
  destruct (httpd_req_recv req (128 - 1)) as [ret buf].
  destruct (ret <=? 0).
  { left. unfold httpd_resp_send_408. unfold_cmd.
    destruct (decide (ret = HTTPD_SOCK_ERR_TIMEOUT)); simpl.
    - eexists. split; [reflexivity|]. split; [reflexivity|]. split; [reflexivity|].
      right. exists 408%nat, "". split; [now right | reflexivity].
    - exists w. repeat split. now left. }
  destruct (httpd_query_key_value (c_str buf) "ssid" 33) as [err ssid_val].
  destruct (decide (err <> ESP_OK)).
  { left. eexists. split; [reflexivity|]. split; [reflexivity|]. split; [reflexivity|].
    right. exists 400%nat, "Missing 'ssid' parameter". split; [now left | reflexivity]. }
  right.
  destruct (httpd_query_key_value (c_str buf) "password" 65) as [err' pass_val].
  unfold httpd_resp_send. erewrite bind_returned by reflexivity.
  set (w1 := upd_sdk _ w).
  destruct (saveCredentials_keeps_manager w1 (default "" ssid_val) (default "" pass_val))
    as (e & w2 & Hsave & Hself & Hlog).
  erewrite bind_returned by exact Hsave.
  unfold vTaskDelay, esp_restart. unfold_cmd. simpl.
  eexists. split; [reflexivity|]. split; [exact Hself|].
  simpl. rewrite Hlog. subst w1. simpl. now rewrite <- List.app_assoc.
Qed.

(** X15.  The handler reads at most 127 bytes of the body: whatever follows
    them makes no difference to what it does. *)
Theorem post_body_cut_at_127 (w : world) (a b : string) :
  String.length a = 127%nat ->
  connectPostHandler (post (a +:+ b)) w = connectPostHandler (post a) w.
Proof.
  intros Hlen.
  assert (E : take 127 (a +:+ b) = take 127 a).
  { rewrite (take_all 127 a) by lia. rewrite <- Hlen. apply take_app_length. }
  unfold connectPostHandler, httpd_req_recv, post.
  cbn [req_sock_err req_content]. change (128 - 1)%nat with 127%nat.
  rewrite E. reflexivity.
Qed.

Lemma post_body_cut_at_127_witness :
  connectPostHandler
    (post ("ssid=HomeNet&password=012345678901234567890123456789012345678901234567890123456789012345678901234567890123456789012345678901234" +:+ "56789"))
    blank =
  connectPostHandler
    (post "ssid=HomeNet&password=012345678901234567890123456789012345678901234567890123456789012345678901234567890123456789012345678901234")
    blank.
Proof. apply post_body_cut_at_127. reflexivity. Defined.

(** ** The connection status and its flag *)

Lemma connected_bit_raised bits :
  negb (Z.land (Z.lor bits WIFI_CONNECTED_BIT) WIFI_CONNECTED_BIT =? 0) = true.
Proof.
  rewrite negb_true_iff, Z.eqb_neq, Z.land_lor_distr_l. intros E.
  apply Z.lor_eq_0_iff in E. destruct E as [_ E]. vm_compute in E. discriminate E.
Qed.

Lemma eventHandler_connected_is_flagged ev : preserves connected_is_flagged (eventHandler ev).
Proof.
  intros w H. unfold connected_is_flagged, bit_set in *.
  destruct ev as [[]|addr]; try exact H.
  - change (WIFI_EVENT WIFI_EVENT_STA_DISCONNECTED) with STA_DISCONNECTED.
    destruct (Z_lt_dec (m_retry_num (self w)) MAX_RETRY) as [Hlt|Hge].
    + pose proof (f_equal v_bits (disconnect_below w Hlt)) as Eb.
      pose proof (f_equal v_connected (disconnect_below w Hlt)) as Ec.
      cbn [v_bits v_connected view_of] in Eb, Ec. rewrite Eb, Ec. exact H.
    + pose proof (f_equal v_connected (disconnect_at_bound w Hge)) as Ec.
      cbn [v_connected view_of] in Ec. rewrite Ec. discriminate.
  - pose proof (f_equal v_bits (got_ip_view addr w)) as Eb.
    cbn [v_bits view_of] in Eb. rewrite Eb. intros _. apply connected_bit_raised.
Qed.

Lemma connected_is_flagged_exec o w : connected_is_flagged w -> connected_is_flagged (exec o w).
Proof.
  apply (manager_invariant_exec connected_is_flagged).
  - intros w1 w2 Hs. unfold connected_is_flagged, isConnected, bit_set, event_bits.
    now rewrite Hs.
  - apply eventHandler_connected_is_flagged.
  - intros b w1 H1. unfold connected_is_flagged, isConnected, bit_set, event_bits in *.
    destruct (startWebServer_self_fields b w1) as (-> & -> & _). exact H1.
  - intros w1 H1. unfold connected_is_flagged, isConnected, bit_set, event_bits in *.
    destruct (stopWebServer_self_fields w1) as (-> & -> & _). exact H1.
Qed.

(** X16.  In every reachable state, [isConnected] is backed by the
    connected flag: whenever it returns true, [WIFI_CONNECTED_BIT] is set.
    So while no flag is set the device does not report a connection. *)
Theorem connection_is_flagged (w : world) :
  reachable w -> isConnected w = true -> bit_set WIFI_CONNECTED_BIT w = true.
Proof.
  intros (status & flash & script & ops & ->).
  change (connected_is_flagged (exec_all ops (power_on status flash script))).
  assert (H0 : connected_is_flagged (power_on status flash script)) by discriminate.
  revert H0. generalize (power_on status flash script).
  induction ops as [|o ops IH]; intros w H; simpl; [exact H|].
  apply IH, connected_is_flagged_exec, H.
Qed.

Lemma connection_is_flagged_witness :
  bit_set WIFI_CONNECTED_BIT
    (exec_all [OpStart]
       (provisioned "HomeNet" "hunter2" [STA_START; IP_EVENT_STA_GOT_IP HOME_ADDR])) = true.
Proof.
  apply connection_is_flagged.
  - exists all_ok,
      {[ NVS_NAMESPACE := {[ NVS_KEY_WIFI_SSID := "HomeNet"; NVS_KEY_WIFI_PASS := "hunter2" ]} ]},
      [STA_START; IP_EVENT_STA_GOT_IP HOME_ADDR], [OpStart]. reflexivity.
  - vm_compute. reflexivity.
Defined.

(** ** Boot: the paths not taken by a healthy warm start *)

(** X17.  With the credential store out of order (it does not open) and
    everything else in order, [start] returns on the provisioning path,
    whatever flash holds: no connection is attempted, none of the radio's
    events is consumed, nothing is written. *)
Theorem boot_without_storage status flash script :
  (forall fn, fn <> Fn_nvs_open -> status fn = ESP_OK) -> status Fn_nvs_open <> ESP_OK ->
  exists w', start (power_on status flash script) = Returned tt w' /\
    provisioning_path w' /\ isConnected w' = false /\
    nvs_flash (sdk w') = flash /\ radio_script (sdk w') = script /\ sdk_log (sdk w') = [].
Proof.
  intros Hok Hopen. eexists. split.
  { apply start_without_credentials; [|left; exact Hopen].
    intros fn H1 _ _. apply Hok, H1. }
  split; [|repeat split].
  apply provisioning_path_intro; [reflexivity|].
  cbn. unfold server_or_none. cbn. rewrite Hok by discriminate. reflexivity.
Qed.

Lemma boot_without_storage_witness :
  exists w',
    start (power_on (fun fn => match fn with Fn_nvs_open => ESP_FAIL | _ => ESP_OK end)
             {[ NVS_NAMESPACE := {[ NVS_KEY_WIFI_SSID := "HomeNet" ]} ]}
             [STA_START; IP_EVENT_STA_GOT_IP HOME_ADDR]) = Returned tt w' /\
    provisioning_path w' /\ radio_script (sdk w') = [STA_START; IP_EVENT_STA_GOT_IP HOME_ADDR].
Proof.
  destruct (boot_without_storage
              (fun fn => match fn with Fn_nvs_open => ESP_FAIL | _ => ESP_OK end)
              {[ NVS_NAMESPACE := {[ NVS_KEY_WIFI_SSID := "HomeNet" ]} ]}
              [STA_START; IP_EVENT_STA_GOT_IP HOME_ADDR])
    as (w' & Hrun & Hpath & _ & _ & Hscript & _).
  - intros fn Hfn. destruct fn; try reflexivity. now elim Hfn.
  - discriminate.
  - exists w'. split; [exact Hrun | split; [exact Hpath | exact Hscript]].
Defined.

(** X18.  A stored SSID that is empty as a C string is loaded with
    [ESP_OK], refused by [connectToWifi], and the boot ends on the
    provisioning path without the radio ever having been started as a
    station: its events are all still to come. *)
Theorem boot_empty_ssid status flash script ssid :
  (forall fn, status fn = ESP_OK) ->
  stored_key (power_on status flash script) NVS_KEY_WIFI_SSID = Some ssid ->
  c_str ssid = "" ->
  exists w', start (power_on status flash script) = Returned tt w' /\
    provisioning_path w' /\ isConnected w' = false /\
    radio_script (sdk w') = script /\ sdk_log (sdk w') = [].
Proof.
  intros Hok Hssid Hempty. eexists. split.
  { apply (start_empty_ssid status flash script ssid); try assumption.
    - apply radio_ok_healthy. exact Hok.
    - apply Hok. }
  split; [|repeat split].
  apply provisioning_path_intro; [reflexivity|].
  cbn. unfold server_or_none. rewrite Hok. reflexivity.
Qed.

Lemma boot_empty_ssid_witness :
  exists w',
    start (provisioned "" "hunter2" [STA_START; IP_EVENT_STA_GOT_IP HOME_ADDR]) =
      Returned tt w' /\
    provisioning_path w' /\ radio_script (sdk w') = [STA_START; IP_EVENT_STA_GOT_IP HOME_ADDR].
Proof.
  destruct (boot_empty_ssid all_ok
              {[ NVS_NAMESPACE := {[ NVS_KEY_WIFI_SSID := ""; NVS_KEY_WIFI_PASS := "hunter2" ]} ]}
              [STA_START; IP_EVENT_STA_GOT_IP HOME_ADDR] "")
    as (w' & Hrun & Hpath & _ & Hscript & _); try reflexivity.
  exists w'. split; [exact Hrun | split; [exact Hpath | exact Hscript]].
Defined.

(** X19.  As long as the calls into the network stack and the Wi-Fi driver
    go through, [start] returns, whatever the credential store and the HTTP
    server report: the radio is started, as access point or as station, and
    as station only with [isConnected] true; flash is as it was; the routes
    are those of the mode when [httpd_start] succeeds, and there are none
    when it fails. *)
Theorem boot_survives_store_and_server_faults status flash script :
  (forall fn, fn <> Fn_nvs_open -> fn <> Fn_nvs_commit -> fn <> Fn_httpd_start ->
     status fn = ESP_OK) ->
  exists w', start (power_on status flash script) = Returned tt w' /\
    wifi_started (wifi (sdk w')) = true /\
    (wifi_mode (wifi (sdk w')) = WIFI_MODE_AP \/
     (wifi_mode (wifi (sdk w')) = WIFI_MODE_STA /\ isConnected w' = true)) /\
    nvs_flash (sdk w') = flash /\
    (status Fn_httpd_start = ESP_OK ->
     endpoints w' = if bool_decide (wifi_mode (wifi (sdk w')) = WIFI_MODE_AP)
                    then provisioning_endpoints else operational_endpoints) /\
    (status Fn_httpd_start <> ESP_OK -> endpoints w' = []).
Proof.
  intros Hok.
  destruct (start_radio_ok status flash script Hok)
    as (w' & b & Hrun & Hsrv & Hst & Hmode & Hc & Hflash & _).
  exists w'. split; [exact Hrun|]. split; [exact Hst|].
  unfold endpoints, server_or_none in *. rewrite Hsrv, Hmode.
  split; [destruct b; [left; reflexivity | right; split; [reflexivity | exact Hc]]|].
  split; [exact Hflash|]. split; intros Hh.
  - destruct (decide (status Fn_httpd_start = ESP_OK)); [|contradiction].
    destruct b; reflexivity.
  - destruct (decide (status Fn_httpd_start = ESP_OK)); [contradiction | reflexivity].
Qed.

Lemma boot_survives_store_and_server_faults_witness :
  exists w',
    start (power_on (fun fn => match fn with Fn_httpd_start => ESP_FAIL | _ => ESP_OK end)
             ∅ []) = Returned tt w' /\
    wifi_started (wifi (sdk w')) = true /\ endpoints w' = [].
Proof.
  destruct (boot_survives_store_and_server_faults
              (fun fn => match fn with Fn_httpd_start => ESP_FAIL | _ => ESP_OK end) ∅ [])
    as (w' & Hrun & Hst & _ & _ & _ & Hnone).
  - intros fn H1 H2 H3. destruct fn; try reflexivity. now elim H3.
  - exists w'. repeat split; [exact Hrun | exact Hst | apply Hnone; discriminate].
Defined.

(** Where the retry counter stands after events that raise no flag decides
    whether one more disconnect is quiet too. *)
Lemma quiet_snoc pre : forall w,
  0 <= m_retry_num (self w) ->
  quiet (m_retry_num (self w)) pre = true ->
  quiet (m_retry_num (self w)) (pre ++ [STA_DISCONNECTED]) =
    (m_retry_num (self (final (dispatch pre w))) <? MAX_RETRY).
Proof.
  induction pre as [|ev pre IH]; intros w Hr Hq.
  { cbn [app quiet STA_DISCONNECTED]. now rewrite andb_true_r. }
  rewrite dispatch_cons. rewrite <- app_comm_cons.
  destruct ev as [[]|addr]; cbn [quiet] in *; try discriminate Hq;
    try (match goal with
         | |- quiet _ _ = (m_retry_num (self (final (dispatch pre ?w1))) <? _) =>
             exact (IH w1 Hr Hq)
         end).
  change (WIFI_EVENT WIFI_EVENT_STA_DISCONNECTED) with STA_DISCONNECTED.
  apply andb_true_iff in Hq as [Hlt Hq]. rewrite Hlt. cbn [andb].
  apply Z.ltb_lt in Hlt.
  pose proof (f_equal v_retry (disconnect_below w Hlt)) as Er.
  cbn [v_retry view_of] in Er.
  unfold uint8_incr, MAX_RETRY in *. rewrite Z.mod_small in Er by lia.
  rewrite <- Er in Hq |- *. apply IH; [rewrite Er; lia | exact Hq].
Qed.

(** The wait of [start] on a freshly configured station whose radio stays
    quiet to the end of its script, or whose first flag is the failure
    flag. *)
Lemma wait_gives_up w script :
  wifi_started (wifi (sdk w)) = true -> radio_script (sdk w) = script ->
  event_bits w = 0 -> m_retry_num (self w) = 0 ->
  quiet 0 script = true \/
  (exists pre rest, script = (pre ++ STA_DISCONNECTED :: rest)%list /\
     quiet 0 pre = true /\ quiet 0 (pre ++ [STA_DISCONNECTED]) = false) ->
  exists w', xEventGroupWaitBits EITHER_BIT false false w = Returned (event_bits w') w' /\
    same_frame w w' /\ Z.land (event_bits w') WIFI_CONNECTED_BIT = 0.
Proof.
  intros Hst Hscript Hb Hr [Hq | (pre & rest & -> & Hq & Hfail)].
  - rewrite <- Hr in Hq.
    destruct (await_quiet script w [] Hb ltac:(lia) Hq) as (Hrun & Hb' & Hfr).
    rewrite app_nil_r in Hrun.
    set (wd := final (dispatch script w)) in *.
    assert (Hend : await EITHER_BIT false (radio_script (sdk w)) w = Returned [] wd).
    { rewrite Hscript, Hrun. cbn [await]. now rewrite Hb'. }
    rewrite (wait_run w [] wd Hst Hend).
    exists (upd_sdk (set_radio_script []) wd). split; [reflexivity|].
    split; [exact Hfr|]. change (event_bits (upd_sdk _ wd)) with (event_bits wd).
    now rewrite Hb'.
  - rewrite <- Hr in Hq, Hfail.
    destruct (await_quiet pre w (STA_DISCONNECTED :: rest) Hb ltac:(lia) Hq)
      as (Hrun & Hb' & Hfr).
    rewrite (quiet_snoc pre w ltac:(lia) Hq) in Hfail. apply Z.ltb_ge in Hfail.
    set (wd := final (dispatch pre w)) in *.
    assert (Hge : ~ m_retry_num (self wd) < MAX_RETRY) by lia.
    pose proof (f_equal v_bits (disconnect_at_bound wd Hge)) as Eb.
    cbn [v_bits view_of] in Eb. rewrite Hb' in Eb.
    set (w3 := final (eventHandler STA_DISCONNECTED wd)) in *.
    assert (Hend : await EITHER_BIT false (radio_script (sdk w)) w = Returned rest w3).
    { rewrite Hscript, Hrun. cbn [await]. rewrite Hb'. cbn [Z.land Z.eqb negb].
      rewrite eventHandler_returns. fold w3. apply await_hit. rewrite Eb. reflexivity. }
    rewrite (wait_run w rest w3 Hst Hend).
    exists (upd_sdk (set_radio_script rest) w3). split; [reflexivity|]. split.
    + eapply same_frame_trans; [exact Hfr | apply eventHandler_same_frame].
    + change (event_bits (upd_sdk _ w3)) with (event_bits w3). rewrite Eb. reflexivity.
Qed.

(** X20.  A boot that finds credentials but no network: when the radio's
    events run out without any flag raised (the wait times out), or the
    first flag raised is the failure flag (a disconnect that finds the retry
    budget used up), [start] ends on the provisioning path, with
    [isConnected] false. *)
Theorem boot_falls_back status flash script ssid :
  (forall fn, status fn = ESP_OK) ->
  stored_key (power_on status flash script) NVS_KEY_WIFI_SSID = Some ssid ->
  c_str ssid <> "" ->
  quiet 0 script = true \/
  (exists pre rest, script = (pre ++ STA_DISCONNECTED :: rest)%list /\
     quiet 0 pre = true /\ quiet 0 (pre ++ [STA_DISCONNECTED]) = false) ->
  exists w', start (power_on status flash script) = Returned tt w' /\
    provisioning_path w' /\ isConnected w' = false.
Proof.
  intros Hst Hssid Hne Hscript.
  set (w0 := power_on status flash script) in *.
  assert (H : healthy w0) by exact Hst.
  assert (Hinv : connected_is_flagged (exec OpStart w0)).
  { apply connected_is_flagged_exec. discriminate. }
  cbn [exec] in Hinv. revert Hinv.
  unfold start.
  rewrite (bind_returned _ _ _ _ _ (initialize_ok w0 H)).
  pose proof (loadCredentials_spec w0 (H Fn_nvs_open) "" "") as Hload.
  rewrite Hssid in Hload.
  rewrite (bind_returned _ _ _ _ _ Hload). simpl.
  set (password := match stored_key w0 NVS_KEY_WIFI_PASS with
                   | Some p => c_str p | None => "" end) in *.
  rewrite (bind_returned _ _ _ _ _ (connectToWifi_spec (c_str ssid) password w0 H Hne)).
  set (w2 := {| self := set_server None (self w0);
                sdk := set_wifi (sta_radio (c_str ssid) password) (sdk w0) |}).
  destruct (wait_gives_up w2 script eq_refl eq_refl eq_refl eq_refl Hscript)
    as (w3 & Hwait & (Hstat & _ & _ & _) & Hbits).
  change (Z.lor WIFI_CONNECTED_BIT WIFI_FAIL_BIT) with EITHER_BIT.
  erewrite bind_returned by exact Hwait.
  rewrite Hbits. cbn [Z.eqb negb].
  rewrite startProvisioning_spec by (intros fn; rewrite Hstat; apply H).
  intros Hinv. eexists. split; [reflexivity|].
  split; [apply provisioning_path_intro; reflexivity|].
  cbn [final] in Hinv. unfold connected_is_flagged, bit_set in Hinv.
  change (event_bits _) with (event_bits w3) in Hinv. rewrite Hbits in Hinv.
  destruct (isConnected _); [|reflexivity]. discriminate (Hinv eq_refl).
Qed.

Lemma boot_falls_back_witness :
  exists w',
    start (provisioned "HomeNet" "hunter2" (STA_START :: disconnects 6)) = Returned tt w' /\
    provisioning_path w' /\ isConnected w' = false.
Proof.
  apply (boot_falls_back all_ok
           {[ NVS_NAMESPACE := {[ NVS_KEY_WIFI_SSID := "HomeNet";
                                  NVS_KEY_WIFI_PASS := "hunter2" ]} ]}
           (STA_START :: disconnects 6) "HomeNet").
  - reflexivity.
  - reflexivity.
  - discriminate.
  - right. exists (STA_START :: disconnects 5), []. repeat split.
Defined.

(** The station configuration a boot ends with is the one made from the
    stored credentials. *)
Lemma start_station_config status flash script ssid w' :
  (forall fn, status fn = ESP_OK) ->
  let w0 := power_on status flash script in
  stored_key w0 NVS_KEY_WIFI_SSID = Some ssid -> c_str ssid <> "" ->
  start w0 = Returned tt w' -> wifi_mode (wifi (sdk w')) = WIFI_MODE_STA ->
  wifi (sdk w') =
    sta_radio (c_str ssid)
      (match stored_key w0 NVS_KEY_WIFI_PASS with Some p => c_str p | None => "" end).
Proof.
  intros Hst w0 Hssid Hne.
  assert (H : healthy w0) by exact Hst.
  unfold start.
  rewrite (bind_returned _ _ _ _ _ (initialize_ok w0 H)).
  pose proof (loadCredentials_spec w0 (H Fn_nvs_open) "" "") as Hload.
  rewrite Hssid in Hload.
  rewrite (bind_returned _ _ _ _ _ Hload). simpl.
  set (password := match stored_key w0 NVS_KEY_WIFI_PASS with
                   | Some p => c_str p | None => "" end) in *.
  rewrite (bind_returned _ _ _ _ _ (connectToWifi_spec (c_str ssid) password w0 H Hne)).
  set (w2 := {| self := set_server None (self w0);
                sdk := set_wifi (sta_radio (c_str ssid) password) (sdk w0) |}).
  destruct (wait_spec w2 eq_refl eq_refl) as (w3 & Hwait & Hfr & Hs).
  erewrite bind_returned by exact Hwait.
  destruct Hfr as (Hstat & Hflash & Hwifi & Hsrv).
  destruct Hs as [Hb|[[Hb Hc]|[Hb Hc]]]; rewrite Hb; simpl.
  - rewrite startProvisioning_spec by (intros fn; rewrite Hstat; apply H).
    intros [= <-] Hmode. discriminate Hmode.
  - rewrite startWebServer_spec, Hsrv. simpl.
    intros [= <-] _. destruct (decide _); exact Hwifi.
  - rewrite startProvisioning_spec by (intros fn; rewrite Hstat; apply H).
    intros [= <-] Hmode. discriminate Hmode.
Qed.

(** X21.  Submit, then boot.  After a [POST /connect] carrying a non-empty
    ssid of at most 32 bytes and a password of at most 64 on a store that
    opens and commits, the next boot on a healthy SDK programs the station
    with exactly the submitted ssid and password; when the radio then
    delivers an address before any flag is raised, the boot ends on the
    connected path with that address. *)
Theorem post_then_boot_connects (w : world) (fields : list (string * string))
    (s : string) status pre addr rest :
  Forall field_ok fields ->
  (String.length (form_body fields) <= 127)%nat ->
  form_lookup "ssid" fields = Some s -> s <> "" -> (String.length s <= 32)%nat ->
  (String.length (default "" (form_lookup "password" fields)) <= 64)%nat ->
  sdk_status (sdk w) Fn_nvs_open = ESP_OK ->
  sdk_status (sdk w) Fn_nvs_commit = ESP_OK ->
  (forall fn, status fn = ESP_OK) -> quiet 0 pre = true ->
  exists w',
    start (power_on status
             (nvs_flash (sdk (final (connectPostHandler (post (form_body fields)) w))))
             (pre ++ IP_EVENT_STA_GOT_IP addr :: rest)) = Returned tt w' /\
    connected_path w' /\
    sta_config (wifi (sdk w')) =
      Some {| sta_ssid := s;
              sta_password := default "" (form_lookup "password" fields) |} /\
    getIpAddress w' = snprintf 16 (ip4_to_string addr).
Proof.
  intros Hok Hlen Hs Hne Hs32 Hp64 Hopen Hcommit Hst Hq.
  set (p := default "" (form_lookup "password" fields)) in *.
  assert (Hsn : c_str s = s).
  { apply c_str_nul_free. eapply form_lookup_field_ok; eassumption. }
  assert (Hpn : c_str p = p).
  { subst p. destruct (form_lookup "password" fields) as [q|] eqn:Hpw; [|reflexivity].
    apply c_str_nul_free. eapply form_lookup_field_ok; eassumption. }
  set (flash := nvs_flash (sdk (final (connectPostHandler (post (form_body fields)) w)))).
  set (w0 := power_on status flash (pre ++ IP_EVENT_STA_GOT_IP addr :: rest)).
  assert (Hkeys : stored_key w0 NVS_KEY_WIFI_SSID = Some s /\
                  stored_key w0 NVS_KEY_WIFI_PASS = Some p).
  { subst w0 flash. rewrite (connectPostHandler_ssid w fields s Hok Hlen Hs Hs32 Hp64).
    fold p. unfold httpd_resp_send. erewrite bind_returned by reflexivity.
    set (w1 := upd_sdk _ w).
    erewrite bind_returned by (apply (saveCredentials_spec w1); assumption).
    pose proof (stored_key_after_save w1 s p) as Hkey.
    split.
    - etransitivity; [exact (Hkey NVS_KEY_WIFI_SSID)|]. rewrite Hsn. reflexivity.
    - etransitivity; [exact (Hkey NVS_KEY_WIFI_PASS)|]. rewrite Hpn. reflexivity. }
  destruct Hkeys as [Hssid Hpass].
  assert (Hne' : c_str s <> "") by now rewrite Hsn.
  destruct (start_warm status flash pre addr rest s Hst Hssid Hne' Hq)
    as (w' & Hrun & Hstarted & Hmode & Hsrv & Hc & Hip & _).
  pose proof (start_station_config status flash _ s w' Hst Hssid Hne' Hrun Hmode) as Hwifi.
  fold w0 in Hwifi. rewrite Hpass, Hsn, Hpn in Hwifi.
  exists w'. split; [exact Hrun|]. split; [|split; [|exact Hip]].
  - eapply connected_path_intro; eassumption.
  - rewrite Hwifi. cbn [sta_config sta_radio]. unfold strncpy.
    rewrite Hsn, Hpn, !take_all by assumption. reflexivity.
Qed.

Lemma post_then_boot_connects_witness :
  exists w',
    start (power_on all_ok
             (nvs_flash (sdk (final (connectPostHandler
                (post (form_body [("ssid", "HomeNet"); ("password", "hunter2")])) blank))))
             ([STA_START] ++ IP_EVENT_STA_GOT_IP HOME_ADDR :: [])) = Returned tt w' /\
    connected_path w' /\
    sta_config (wifi (sdk w')) =
      Some {| sta_ssid := "HomeNet"; sta_password := "hunter2" |} /\
    getIpAddress w' = "192.168.1.42".
Proof.
  apply (post_then_boot_connects blank [("ssid", "HomeNet"); ("password", "hunter2")]
           "HomeNet" all_ok [STA_START] HOME_ADDR []).
  - repeat constructor.
  - vm_compute. lia.
  - reflexivity.
  - discriminate.
  - vm_compute. lia.
  - vm_compute. lia.
  - reflexivity.
  - reflexivity.
  - reflexivity.
  - reflexivity.
Defined.

(** ** The address as text *)

Lemma ip4_octet_range addr i : 0 <= ip4_octet addr i < 256.
Proof.
  unfold ip4_octet. change 255 with (Z.ones 8).
  rewrite Z.land_ones by lia. apply Z.mod_pos_bound. reflexivity.
Qed.

Lemma pretty_octet_length z :
  0 <= z < 256 -> (1 <= String.length (pretty z) <= 3)%nat.
Proof.
  intros Hz.
  assert (Hall : forallb (fun n => let l := String.length (pretty (Z.of_nat n)) in
                                   (1 <=? l)%nat && (l <=? 3)%nat) (seq 0 256) = true)
    by (vm_compute; reflexivity).
  rewrite forallb_forall in Hall.
  specialize (Hall (Z.to_nat z)). rewrite Z2Nat.id in Hall by lia.
  assert (Hin : In (Z.to_nat z) (seq 0 256)) by (apply in_seq; lia).
  apply Hall in Hin. cbv zeta in Hin.
  apply andb_true_iff in Hin as [H1 H3].
  apply Nat.leb_le in H1. apply Nat.leb_le in H3. lia.
Qed.

Lemma ip4_octet_compose a b c d i :
  0 <= a < 256 -> 0 <= b < 256 -> 0 <= c < 256 -> 0 <= d < 256 ->
  ip4_octet (a + 256 * b + 65536 * c + 16777216 * d) i =
    if i =? 0 then a else if i =? 1 then b else if i =? 2 then c else
    if i =? 3 then d else ip4_octet (a + 256 * b + 65536 * c + 16777216 * d) i.
Proof.
  intros Ha Hb Hc Hd.
  destruct (i =? 0) eqn:E0; [apply Z.eqb_eq in E0; subst i|].
  { unfold ip4_octet. change 255 with (Z.ones 8). rewrite Z.land_ones by lia.
    rewrite Z.shiftr_div_pow2 by lia. change (2 ^ (8 * 0)) with 1. change (2 ^ 8) with 256.
    rewrite Z.div_1_r. Z.div_mod_to_equations. lia. }
  destruct (i =? 1) eqn:E1; [apply Z.eqb_eq in E1; subst i|].
  { unfold ip4_octet. change 255 with (Z.ones 8). rewrite Z.land_ones by lia.
    rewrite Z.shiftr_div_pow2 by lia. change (2 ^ (8 * 1)) with 256. change (2 ^ 8) with 256.
    Z.div_mod_to_equations. lia. }
  destruct (i =? 2) eqn:E2; [apply Z.eqb_eq in E2; subst i|].
  { unfold ip4_octet. change 255 with (Z.ones 8). rewrite Z.land_ones by lia.
    rewrite Z.shiftr_div_pow2 by lia. change (2 ^ (8 * 2)) with 65536.
    change (2 ^ 8) with 256. Z.div_mod_to_equations. lia. }
  destruct (i =? 3) eqn:E3; [apply Z.eqb_eq in E3; subst i|reflexivity].
  unfold ip4_octet. change 255 with (Z.ones 8). rewrite Z.land_ones by lia.
  rewrite Z.shiftr_div_pow2 by lia. change (2 ^ (8 * 3)) with 16777216.
  change (2 ^ 8) with 256. Z.div_mod_to_equations. lia.
Qed.

Lemma ip4_to_string_length addr : (7 <= String.length (ip4_to_string addr) <= 15)%nat.
Proof.
  unfold ip4_to_string. rewrite !length_app_str.
  pose proof (pretty_octet_length _ (ip4_octet_range addr 0)).
  pose proof (pretty_octet_length _ (ip4_octet_range addr 1)).
  pose proof (pretty_octet_length _ (ip4_octet_range addr 2)).
  pose proof (pretty_octet_length _ (ip4_octet_range addr 3)).
  change (String.length ".") with 1%nat. lia.
Qed.

(** X22.  The 16-byte buffer of the address handler is enough for every
    address: after an address assignment [getIpAddress] returns the
    complete dotted quad of the four octets, lowest byte first, nothing cut
    off; it has between 7 and 15 bytes. *)
Theorem ip_string_never_cut (w : world) (addr : Z) :
  let w' := final (eventHandler (IP_EVENT_STA_GOT_IP addr) w) in
  getIpAddress w' = ip4_to_string addr /\
  (7 <= String.length (getIpAddress w') <= 15)%nat.
Proof.
  intros w'. subst w'.
  pose proof (f_equal v_ip (got_ip_view addr w)) as Ei. cbn [v_ip view_of] in Ei.
  pose proof (ip4_to_string_length addr) as Hlen.
  rewrite Ei. unfold snprintf. change (Nat.pred 16) with 15%nat.
  rewrite take_all by lia. split; [reflexivity | exact Hlen].
Qed.

(** X23.  An address whose bytes are [a], [b], [c], [d] from the lowest up
    is reported as the text a.b.c.d in decimal. *)
Theorem ip_string_of_octets (w : world) (a b c d : Z) :
  0 <= a < 256 -> 0 <= b < 256 -> 0 <= c < 256 -> 0 <= d < 256 ->
  getIpAddress
    (final (eventHandler
       (IP_EVENT_STA_GOT_IP (a + 256 * b + 65536 * c + 16777216 * d)) w)) =
  pretty a +:+ "." +:+ pretty b +:+ "." +:+ pretty c +:+ "." +:+ pretty d.
Proof.
  intros Ha Hb Hc Hd.
  pose proof (f_equal v_ip (got_ip_view (a + 256 * b + 65536 * c + 16777216 * d) w)) as Ei.
  cbn [v_ip view_of] in Ei. rewrite Ei. unfold snprintf. change (Nat.pred 16) with 15%nat.
  rewrite take_all by apply ip4_to_string_length.
  unfold ip4_to_string.
  rewrite (ip4_octet_compose a b c d 0), (ip4_octet_compose a b c d 1),
    (ip4_octet_compose a b c d 2), (ip4_octet_compose a b c d 3) by assumption.
  reflexivity.
Qed.

Lemma ip_string_of_octets_witness :
  getIpAddress
    (final (eventHandler
       (IP_EVENT_STA_GOT_IP (192 + 256 * 168 + 65536 * 1 + 16777216 * 42)) blank)) =
  "192.168.1.42".
Proof. apply (ip_string_of_octets blank 192 168 1 42); lia. Defined.

(** ** The application bootstrap *)

Lemma dispatch_same_frame evs : forall w, same_frame w (final (dispatch evs w)).
Proof.
  induction evs as [|ev evs IH]; intros w; [repeat split|].
  rewrite dispatch_cons.
  eapply same_frame_trans; [apply eventHandler_same_frame | apply IH].
Qed.

(** A boot on a healthy SDK ends on one of the two paths, and
    [isConnected] tells which. *)
Lemma start_paths status flash script :
  (forall fn, status fn = ESP_OK) ->
  exists w', start (power_on status flash script) = Returned tt w' /\
    ((provisioning_path w' /\ isConnected w' = false) \/
     (connected_path w' /\ isConnected w' = true)).
Proof.
  intros Hst.
  destruct (start_boot status flash script Hst) as (w' & Hrun & _ & Hpath & _).
  assert (Hinv : connected_is_flagged (exec OpStart (power_on status flash script))).
  { apply connected_is_flagged_exec. discriminate. }
  cbn [exec] in Hinv. rewrite Hrun in Hinv. cbn [final] in Hinv.
  exists w'. split; [exact Hrun|].
  destruct Hpath as [(Hw & Hs & Hbit) | (ssid & password & _ & _ & Hw & Hs & _ & Hc)].
  - left. split; [apply provisioning_path_intro; assumption|].
    destruct (isConnected w') eqn:Hc; [|reflexivity].
    rewrite (Hinv Hc) in Hbit. discriminate Hbit.
  - right. split; [|exact Hc]. eapply connected_path_intro; eassumption.
Qed.

(** X24.  When NVS needs formatting (no free pages, or a newer layout) the
    bootstrap erases the partition, and with it the stored credentials:
    provided the erase and the second initialisation succeed, the boot goes
    on and [start] ends on the provisioning path, whatever flash held. *)
Theorem nvs_format_forgets_credentials env status flash image script :
  nvs_init_first env = ESP_ERR_NVS_NO_FREE_PAGES \/
  nvs_init_first env = ESP_ERR_NVS_NEW_VERSION_FOUND ->
  nvs_erase_status env = ESP_OK -> nvs_init_second env = NVS_INIT ESP_OK ->
  (forall fn, status fn = ESP_OK) ->
  exists w', run_boot env status flash image script =
               inr (Returned tt w', initializeFS env image) /\
    provisioning_path w' /\ isConnected w' = false /\
    heartbeat w' = "Device in provisioning mode...".
Proof.
  intros Hfirst Herase Hsecond Hst.
  assert (Hnvs : initializeNVS env flash = inr ∅).
  { unfold initializeNVS. destruct Hfirst as [-> | ->]; rewrite Herase, Hsecond; reflexivity. }
  unfold run_boot. rewrite Hnvs.
  eexists. split.
  { f_equal. f_equal. apply start_without_credentials;
      [apply radio_ok_healthy; exact Hst | right; reflexivity]. }
  split; [|split; reflexivity].
  apply provisioning_path_intro; [reflexivity|].
  cbn. unfold server_or_none. rewrite Hst. reflexivity.
Qed.

Lemma nvs_format_forgets_credentials_witness :
  exists w',
    run_boot {| nvs_init_first := ESP_ERR_NVS_NEW_VERSION_FOUND; nvs_erase_status := ESP_OK;
                nvs_init_second := NVS_INIT ESP_OK; lfs_mount_status := ESP_OK |}
      all_ok
      {[ NVS_NAMESPACE := {[ NVS_KEY_WIFI_SSID := "HomeNet"; NVS_KEY_WIFI_PASS := "hunter2" ]} ]}
      (page_fs "<form></form>") [STA_START; IP_EVENT_STA_GOT_IP HOME_ADDR] =
      inr (Returned tt w', page_fs "<form></form>") /\
    provisioning_path w'.
Proof.
  destruct (nvs_format_forgets_credentials
              {| nvs_init_first := ESP_ERR_NVS_NEW_VERSION_FOUND; nvs_erase_status := ESP_OK;
                 nvs_init_second := NVS_INIT ESP_OK; lfs_mount_status := ESP_OK |}
              all_ok
              {[ NVS_NAMESPACE := {[ NVS_KEY_WIFI_SSID := "HomeNet";
                                     NVS_KEY_WIFI_PASS := "hunter2" ]} ]}
              (page_fs "<form></form>") [STA_START; IP_EVENT_STA_GOT_IP HOME_ADDR])
    as (w' & Hrun & Hpath & _); try reflexivity.
  - right. reflexivity.
  - exists w'. split; [exact Hrun | exact Hpath].
Defined.

(** X25.  A LittleFS that does not mount does not stop the boot: with NVS
    initialised the bootstrap goes on to [start], which on a healthy SDK
    ends on one of its two paths; but the provisioning page is then missing,
    and [GET /] is answered with 404. *)
Theorem boot_without_file_system env status flash image script sends :
  nvs_init_first env = NVS_INIT ESP_OK -> lfs_mount_status env <> ESP_OK ->
  (forall fn, status fn = ESP_OK) ->
  exists w' fs, run_boot env status flash image script = inr (Returned tt w', fs) /\
    (provisioning_path w' \/ connected_path w') /\
    provisioningGetHandler fs sends = Some (ESP_FAIL, [Out_status 404]).
Proof.
  intros Hnvs Hfs Hst.
  destruct (start_paths status flash script Hst) as (w' & Hrun & Hpath).
  exists w', ∅. split; [|split].
  - unfold run_boot, initializeNVS, initializeFS. rewrite Hnvs, Hrun.
    destruct (decide (lfs_mount_status env = ESP_OK)); [contradiction | reflexivity].
  - destruct Hpath as [[H _] | [H _]]; [left | right]; exact H.
  - reflexivity.
Qed.

Lemma boot_without_file_system_witness :
  exists w' fs,
    run_boot {| nvs_init_first := NVS_INIT ESP_OK; nvs_erase_status := ESP_OK;
                nvs_init_second := NVS_INIT ESP_OK; lfs_mount_status := ESP_FAIL |}
      all_ok ∅ (page_fs "<form></form>") [] = inr (Returned tt w', fs) /\
    provisioningGetHandler fs None = Some (ESP_FAIL, [Out_status 404]).
Proof.
  destruct (boot_without_file_system
              {| nvs_init_first := NVS_INIT ESP_OK; nvs_erase_status := ESP_OK;
                 nvs_init_second := NVS_INIT ESP_OK; lfs_mount_status := ESP_FAIL |}
              all_ok ∅ (page_fs "<form></form>") [] None)
    as (w' & fs & Hrun & _ & Hpage); try reflexivity.
  - discriminate.
  - exists w', fs. split; [exact Hrun | exact Hpage].
Defined.

(** X26.  The line the main loop logs right after a boot on a healthy SDK
    tells the path the boot took: the provisioning line on the provisioning
    path, and on the connected path the connected line with the address
    [getIpAddress] returns. *)
Theorem heartbeat_after_boot status flash script :
  (forall fn, status fn = ESP_OK) ->
  exists w', start (power_on status flash script) = Returned tt w' /\
    ((provisioning_path w' /\ heartbeat w' = "Device in provisioning mode...") \/
     (connected_path w' /\ heartbeat w' = "Device connected. IP: " +:+ getIpAddress w')).
Proof.
  intros Hst.
  destruct (start_paths status flash script Hst) as (w' & Hrun & Hpath).
  exists w'. split; [exact Hrun|]. unfold heartbeat.
  destruct Hpath as [[H ->] | [H ->]]; [left | right]; split; first [exact H | reflexivity].
Qed.

Lemma heartbeat_after_boot_witness :
  exists w', start blank = Returned tt w' /\
    ((provisioning_path w' /\ heartbeat w' = "Device in provisioning mode...") \/
     (connected_path w' /\ heartbeat w' = "Device connected. IP: " +:+ getIpAddress w')).
Proof. apply (heartbeat_after_boot all_ok ∅ []). reflexivity. Defined.

(** X27.  From the connected path, with the retry counter at zero as the
    address assignment left it, six or more disconnects in a row make the
    main loop log the provisioning line, while the radio is still a started
    station and the routes are still the operational ones: no provisioning
    page is served. *)
Theorem heartbeat_after_link_loss (w : world) (n : nat) :
  connected_path w -> m_retry_num (self w) = 0 -> (6 <= n)%nat ->
  let w' := final (dispatch (disconnects n) w) in
  heartbeat w' = "Device in provisioning mode..." /\
  wifi_started (wifi (sdk w')) = true /\ wifi_mode (wifi (sdk w')) = WIFI_MODE_STA /\
  endpoints w' = operational_endpoints /\ serves "/" HTTP_GET w' = false.
Proof.
  intros (Hst & Hmode & _ & Hend & Hroot) Hr Hn w'. subst w'.
  assert (Hb : 0 <= m_retry_num (self w) <= MAX_RETRY) by (rewrite Hr; unfold MAX_RETRY; lia).
  pose proof (f_equal v_connected (disconnect_run n w Hb)) as Ec.
  cbn [v_connected view_of] in Ec. rewrite Hr in Ec.
  replace (n <=? Z.to_nat (MAX_RETRY - 0))%nat with false in Ec
    by (symmetry; apply Nat.leb_gt; unfold MAX_RETRY; lia).
  destruct (dispatch_same_frame (disconnects n) w) as (_ & _ & Hwifi & Hsrv).
  unfold heartbeat. rewrite Ec. unfold serves, endpoints in *. rewrite Hwifi, Hsrv.
  repeat split; assumption.
Qed.

Lemma heartbeat_after_link_loss_witness :
  heartbeat
    (final (dispatch (disconnects 6)
       (final (start (provisioned "HomeNet" "hunter2"
                        [STA_START; IP_EVENT_STA_GOT_IP HOME_ADDR]))))) =
  "Device in provisioning mode..." /\
  wifi_mode (wifi (sdk
    (final (dispatch (disconnects 6)
       (final (start (provisioned "HomeNet" "hunter2"
                        [STA_START; IP_EVENT_STA_GOT_IP HOME_ADDR]))))))) = WIFI_MODE_STA.
Proof.
  destruct (heartbeat_after_link_loss
              (final (start (provisioned "HomeNet" "hunter2"
                               [STA_START; IP_EVENT_STA_GOT_IP HOME_ADDR]))) 6)
    as (Hline & _ & Hmode & _).
  - vm_compute. repeat split.
  - reflexivity.
  - lia.
  - split; [exact Hline | exact Hmode].
Defined.

(** ** When the boot aborts *)

Lemma checked_call_fail fn act w :
  sdk_status (sdk w) fn <> ESP_OK ->
  ESP_ERROR_CHECK (sdk_call fn act) w = Halted (Aborted (sdk_status (sdk w) fn)) w.
Proof.
  intros Hko. unfold ESP_ERROR_CHECK, sdk_call, status_of. unfold_cmd.
  destruct (decide (sdk_status (sdk w) fn = ESP_OK)); [contradiction|]. simpl.
  destruct (decide (sdk_status (sdk w) fn = ESP_OK)); [contradiction | reflexivity].
Qed.

Lemma bind_halted {A B} (m : cmd A) (f : A -> cmd B) w h w' :
  m w = Halted h w' -> (m ≫= f) w = Halted h w'.
Proof. intros H. unfold mbind, cmd_bind. now rewrite H. Qed.

Lemma loadCredentials_returns w ssid0 password0 :
  exists e s p, loadCredentials ssid0 password0 w = Returned (e, s, p) w.
Proof.
  destruct (decide (sdk_status (sdk w) Fn_nvs_open = ESP_OK)) as [Hopen|Hopen].
  - rewrite (loadCredentials_spec w Hopen).
    destruct (stored_key w NVS_KEY_WIFI_SSID); eexists _, _, _; reflexivity.
  - rewrite (loadCredentials_closed w _ _ Hopen). eexists _, _, _; reflexivity.
Qed.

(** One checked driver call at the head of what is left to run: it goes
    through, or the command is aborted there. *)
Local Ltac checked_step w :=
  lazymatch goal with
  | |- exists fn w', _ /\ _ /\ (ESP_ERROR_CHECK (sdk_call ?fn0 _) ≫= _) ?w1 = _ /\ _ =>
      let Hst := fresh "Hst" in
      destruct (decide (sdk_status (sdk w) fn0 = ESP_OK)) as [Hst|Hst];
      [ erewrite bind_returned by (apply checked_call_ok; [exact Hst | reflexivity])
      | exists fn0, w1; split; [unfold driver_calls; simpl; tauto|];
        split; [exact Hst|]; split;
        [erewrite bind_halted by (apply checked_call_fail; exact Hst); reflexivity
        | reflexivity] ]
  end.

Lemma startProvisioning_aborts w :
  ~ (sdk_status (sdk w) Fn_esp_wifi_init = ESP_OK /\
     sdk_status (sdk w) Fn_esp_wifi_set_mode = ESP_OK /\
     sdk_status (sdk w) Fn_esp_wifi_set_config = ESP_OK /\
     sdk_status (sdk w) Fn_esp_wifi_start = ESP_OK) ->
  aborted_by_driver startProvisioning w.
Proof.
  intros Hno. unfold aborted_by_driver, startProvisioning.
  rewrite (bind_returned _ _ _ _ _ (stopWifi_spec w)).
  unfold esp_netif_create_default_wifi_ap, esp_wifi_init, esp_wifi_set_mode,
    esp_wifi_set_config_ap, esp_wifi_start.
  erewrite bind_returned by reflexivity.
  checked_step w. checked_step w. checked_step w. checked_step w.
  elim Hno. repeat split; assumption.
Qed.

Lemma connectToWifi_aborts ssid password w :
  ssid <> "" ->
  ~ (sdk_status (sdk w) Fn_esp_wifi_init = ESP_OK /\
     sdk_status (sdk w) Fn_esp_wifi_set_mode = ESP_OK /\
     sdk_status (sdk w) Fn_esp_wifi_set_config = ESP_OK /\
     sdk_status (sdk w) Fn_esp_wifi_start = ESP_OK) ->
  aborted_by_driver (connectToWifi ssid password) w.
Proof.
  intros Hne Hno. unfold aborted_by_driver, connectToWifi.
  rewrite bool_decide_eq_false_2 by exact Hne.
  rewrite (bind_returned _ _ _ _ _ (stopWifi_spec w)).
  unfold esp_netif_create_default_wifi_sta, esp_wifi_init, esp_wifi_set_mode,
    esp_wifi_set_config_sta, esp_wifi_start.
  erewrite bind_returned by reflexivity.
  checked_step w. checked_step w. checked_step w. checked_step w.
  elim Hno. repeat split; assumption.
Qed.

Lemma initialize_aborts w :
  m_server (self w) = None ->
  ~ (sdk_status (sdk w) Fn_esp_netif_init = ESP_OK /\
     sdk_status (sdk w) Fn_esp_event_loop_create_default = ESP_OK /\
     sdk_status (sdk w) Fn_esp_event_handler_instance_register = ESP_OK) ->
  forall {A} (k : cmd A), aborted_by_driver (initialize;; k) w.
Proof.
  intros Hsrv Hno A k. unfold aborted_by_driver, initialize, esp_netif_init,
    esp_event_loop_create_default, esp_event_handler_instance_register.
  destruct (decide (sdk_status (sdk w) Fn_esp_netif_init = ESP_OK)) as [H1|H1].
  2:{ exists Fn_esp_netif_init, w. split; [unfold driver_calls; simpl; tauto|].
      split; [exact H1|]. split; [|exact Hsrv].
      apply bind_halted, bind_halted, checked_call_fail, H1. }
  destruct (decide (sdk_status (sdk w) Fn_esp_event_loop_create_default = ESP_OK)) as [H2|H2].
  2:{ exists Fn_esp_event_loop_create_default, w. split; [unfold driver_calls; simpl; tauto|].
      split; [exact H2|]. split; [|exact Hsrv].
      apply bind_halted.
      erewrite bind_returned by (apply checked_call_ok; [exact H1 | reflexivity]).
      apply bind_halted, checked_call_fail, H2. }
  destruct (decide (sdk_status (sdk w) Fn_esp_event_handler_instance_register = ESP_OK))
    as [H3|H3]; [elim Hno; repeat split; assumption|].
  exists Fn_esp_event_handler_instance_register, w.
  split; [unfold driver_calls; simpl; tauto|].
  split; [exact H3|]. split; [|exact Hsrv].
  apply bind_halted.
  erewrite bind_returned by (apply checked_call_ok; [exact H1 | reflexivity]).
  erewrite bind_returned by (apply checked_call_ok; [exact H2 | reflexivity]).
  apply bind_halted, checked_call_fail, H3.
Qed.

Lemma initialize_returns w :
  sdk_status (sdk w) Fn_esp_netif_init = ESP_OK ->
  sdk_status (sdk w) Fn_esp_event_loop_create_default = ESP_OK ->
  sdk_status (sdk w) Fn_esp_event_handler_instance_register = ESP_OK ->
  initialize w = Returned tt w.
Proof.
  intros H1 H2 H3. unfold initialize, esp_netif_init, esp_event_loop_create_default,
    esp_event_handler_instance_register.
  erewrite bind_returned by (apply checked_call_ok; [exact H1 | reflexivity]).
  erewrite bind_returned by (apply checked_call_ok; [exact H2 | reflexivity]).
  erewrite bind_returned by (apply checked_call_ok; [exact H3 | reflexivity]).
  apply checked_call_ok; [exact H3 | reflexivity].
Qed.

(** X28.  [start] on a freshly constructed manager returns exactly when
    every call into the network stack and the Wi-Fi driver goes through.
    When one of them fails the boot is aborted by [ESP_ERROR_CHECK] with the
    error of a failed call, never by a restart, and no web server is up at
    that point. *)
Theorem boot_aborts_iff_driver_fails status flash script :
  ((forall fn, In fn driver_calls -> status fn = ESP_OK) ->
   exists w', start (power_on status flash script) = Returned tt w') /\
  (forall fn, In fn driver_calls -> status fn <> ESP_OK ->
   exists fn' w', In fn' driver_calls /\ status fn' <> ESP_OK /\
     start (power_on status flash script) = Halted (Aborted (status fn')) w' /\
     endpoints w' = []).
Proof.
  set (w0 := power_on status flash script). split.
  - intros Hok.
    destruct (start_radio_ok status flash script) as (w' & _ & Hrun & _).
    + intros fn H1 H2 H3. apply Hok. unfold driver_calls.
      destruct fn; simpl; tauto.
    + exists w'. exact Hrun.
  - intros fn Hin Hko.
    assert (Hgoal : aborted_by_driver start w0).
    2:{ destruct Hgoal as (fn' & w' & Hin' & Hko' & Hrun & Hsrv).
        exists fn', w'. repeat split; try assumption. unfold endpoints. now rewrite Hsrv. }
    destruct (decide (status Fn_esp_netif_init = ESP_OK /\
                      status Fn_esp_event_loop_create_default = ESP_OK /\
                      status Fn_esp_event_handler_instance_register = ESP_OK))
      as [(H1 & H2 & H3)|Hinit].
    2:{ apply (initialize_aborts w0 eq_refl Hinit). }
    assert (Hwifi : ~ (status Fn_esp_wifi_init = ESP_OK /\
                       status Fn_esp_wifi_set_mode = ESP_OK /\
                       status Fn_esp_wifi_set_config = ESP_OK /\
                       status Fn_esp_wifi_start = ESP_OK)).
    { intros (H4 & H5 & H6 & H7). apply Hko. unfold driver_calls in Hin. simpl in Hin.
      destruct Hin as [<-|[<-|[<-|[<-|[<-|[<-|[<-|[]]]]]]]]; assumption. }
    unfold aborted_by_driver, start.
    rewrite (bind_returned _ _ _ _ _ (initialize_returns w0 H1 H2 H3)).
    destruct (loadCredentials_returns w0 "" "") as (e & s & p & Hload).
    rewrite (bind_returned _ _ _ _ _ Hload). cbn beta iota.
    destruct (decide (e = ESP_OK)) as [He|He]; [|apply (startProvisioning_aborts w0 Hwifi)].
    destruct (decide (s = "")) as [->|Hne].
    + rewrite (bind_returned _ _ _ _ _ (connectToWifi_empty p w0)).
      erewrite bind_returned by (apply (wait_silent w0); reflexivity).
      change (negb (Z.land (event_bits w0) WIFI_CONNECTED_BIT =? 0)) with false. cbv iota.
      exact (startProvisioning_aborts
               (upd_sdk (set_radio_script (radio_script (sdk w0))) w0) Hwifi).
    + destruct (connectToWifi_aborts s p w0 Hne Hwifi) as (fn' & w' & Hin' & Hko' & Hrun & Hs).
      exists fn', w'. split; [exact Hin'|]. split; [exact Hko'|]. split; [|exact Hs].
      apply bind_halted. exact Hrun.
Qed.

Lemma boot_aborts_iff_driver_fails_witness :
  exists w',
    start (power_on (fun fn => match fn with Fn_esp_wifi_start => ESP_FAIL | _ => ESP_OK end)
             ∅ []) = Halted (Aborted ESP_FAIL) w' /\
    endpoints w' = [].
Proof.
  destruct (proj2 (boot_aborts_iff_driver_fails
                     (fun fn => match fn with Fn_esp_wifi_start => ESP_FAIL | _ => ESP_OK end)
                     ∅ []) Fn_esp_wifi_start)
    as (fn' & w' & _ & Hko & Hrun & Hend).
  - unfold driver_calls. simpl. tauto.
  - discriminate.
  - exists w'. split; [|exact Hend].
    destruct fn'; try (now elim Hko); exact Hrun.
Defined.

(** X29.  Handling events never halts and touches nothing outside the
    manager and the log of what was sent: whatever the events, the SDK's
    health, flash, the radio configuration and the web server handle are as
    before. *)
Theorem events_leave_the_device_alone (evs : list event) (w : world) :
  dispatch evs w = Returned tt (final (dispatch evs w)) /\
  sdk_status (sdk (final (dispatch evs w))) = sdk_status (sdk w) /\
  nvs_flash (sdk (final (dispatch evs w))) = nvs_flash (sdk w) /\
  wifi (sdk (final (dispatch evs w))) = wifi (sdk w) /\
  m_server (self (final (dispatch evs w))) = m_server (self w) /\
  radio_script (sdk (final (dispatch evs w))) = radio_script (sdk w).
Proof.
  split; [|split; [|split; [|split; [|split]]]];
    try (apply (dispatch_same_frame evs w)).
  - revert w. induction evs as [|ev evs IH]; intros w; [reflexivity|].
    rewrite dispatch_cons at 1. cbn [dispatch].
    rewrite (bind_returned _ _ _ _ _ (eventHandler_returns ev w)). apply IH.
  - revert w. induction evs as [|ev evs IH]; intros w; [reflexivity|].
    rewrite dispatch_cons, IH.
    destruct ev as [[]|addr]; try reflexivity.
    unfold eventHandler. unfold_cmd.
    destruct (m_retry_num (self w) <? MAX_RETRY); reflexivity.
Qed.

(** ** The flags at the connection attempt *)






